(** * Permission-aware MCP client: policy evaluation and approval lifecycle

    A shallow embedding of [mcp_permission_client_base.py],
    [mcp_permission_client_app.py] and [mcp_permission_host_app.py], and
    of the permissions resource of [mcp_permission_server.py].

    Conventions of the embedding.
    - A Python [str] is a [string]; each character is one code point in
      the range U+0000 .. U+00FF.
    - A Python [dict] is an association list in insertion order whose keys
      are pairwise distinct ([PyDict]).
    - JSON documents are the values [json.loads] produces, without floats.
      The decoder answers [None] for a text that holds a float or an
      escape of a code point above U+00FF, as it does for a text that is
      no JSON. Statements about texts that come from outside (the
      arguments of the tool calls of the language model, the arguments
      typed in the client application) are made for the texts the
      decoder covers ([ClientGui.covered], [Turn.within_model]).
    - The collaborators reached over the network (the MCP session and the
      language model) are oracles collected in a record [env]; every
      theorem quantifies over all of them. The tools of the session work
      in the directory of the permissions file: what a call leaves of that
      file is an oracle as well.
    - A raised exception is the [Raised] case of [outcome]; it carries
      [str(e)]. *)

From Stdlib Require Import ZArith String Ascii List Bool Lia.
From Stdlib Require Import DecimalString.
From stdpp Require Import base list sorting strings.
Import ListNotations.

#[local] Set Warnings "-register-all".

Local Open Scope Z_scope.
Local Open Scope list_scope.

(** ** Python strings *)

Module PyStr.

Definition code (c : ascii) : N := N_of_ascii c.

Definition chr (n : N) : ascii := ascii_of_N n.

Definition in_range (lo hi : N) (c : ascii) : bool :=
  (N.leb lo (code c) && N.leb (code c) hi)%bool.

(** One-character strings for the characters that cannot be written
    inside a literal. *)
Definition quote : ascii := chr 34.
Definition backslash : ascii := chr 92.
Definition newline : ascii := chr 10.

Definition str1 (c : ascii) : string := String c EmptyString.

(** [c.isspace()] on U+0000 .. U+00FF. *)
Definition isspace (c : ascii) : bool :=
  (in_range 9 13 c || in_range 28 32 c
   || N.eqb (code c) 133 || N.eqb (code c) 160)%bool.

Definition is_empty (s : string) : bool :=
  match s with EmptyString => true | String _ _ => false end.

Fixpoint lstrip (s : string) : string :=
  match s with
  | EmptyString => EmptyString
  | String c r => if isspace c then lstrip r else s
  end.

Fixpoint rstrip (s : string) : string :=
  match s with
  | EmptyString => EmptyString
  | String c r =>
      let r' := rstrip r in
      if (is_empty r' && isspace c)%bool then EmptyString else String c r'
  end.

(** [s.strip()] *)
Definition strip (s : string) : string := rstrip (lstrip s).

(** [c.lower()] on U+0000 .. U+00FF: the ASCII capitals and the Latin-1
    capitals U+00C0 .. U+00DE other than the multiplication sign. *)
Definition lower_char (c : ascii) : ascii :=
  if (in_range 65 90 c
      || (in_range 192 222 c && negb (N.eqb (code c) 215)))%bool
  then chr (code c + 32) else c.

(** [s.lower()] *)
Fixpoint lower (s : string) : string :=
  match s with
  | EmptyString => EmptyString
  | String c r => String (lower_char c) (lower r)
  end.

(** [needle in hay] for two strings. *)
Fixpoint contains (needle hay : string) : bool :=
  (String.prefix needle hay
   || match hay with
      | EmptyString => false
      | String _ r => contains needle r
      end)%bool.

(** [x in l] for a string and a list of strings. *)
Definition mem (x : string) (l : list string) : bool :=
  existsb (String.eqb x) l.

(** [sep.join(l)] *)
Fixpoint join (sep : string) (l : list string) : string :=
  match l with
  | [] => EmptyString
  | [x] => x
  | x :: r => x +:+ sep +:+ join sep r
  end.

(** [n * " "] *)
Fixpoint spaces (n : nat) : string :=
  match n with
  | O => EmptyString
  | S k => String " " (spaces k)
  end.

(** [str(n)] for an integer. *)
Definition of_Z (z : Z) : string := NilZero.string_of_int (Z.to_int z).

End PyStr.

(** ** Python dictionaries *)

Module PyDict.

Section dict.
Context {V : Type}.

Abbreviation dict := (list (string * V)).

(** [d.get(k)], [None] when the key is absent. *)
Fixpoint get (k : string) (d : dict) : option V :=
  match d with
  | [] => None
  | (k', v) :: r => if String.eqb k k' then Some v else get k r
  end.

(** [d[k] = v]: an existing key keeps its position, a new key goes
    last. *)
Fixpoint set (k : string) (v : V) (d : dict) : dict :=
  match d with
  | [] => [(k, v)]
  | (k', v') :: r =>
      if String.eqb k k' then (k, v) :: r else (k', v') :: set k v r
  end.

(** [dict(pairs)] *)
Definition of_pairs (pairs : list (string * V)) : dict :=
  fold_left (fun d kv => set (fst kv) (snd kv) d) pairs [].

Definition keys (d : dict) : list string := map fst d.

(** The keys of a dictionary are pairwise distinct. *)
Definition wf (d : dict) : Prop := NoDup (keys d).

(** [sorted(d.items())]: a stable sort on the keys, which are compared
    code point by code point. *)
Fixpoint insert_item (x : string * V) (l : dict) : dict :=
  match l with
  | [] => [x]
  | y :: r =>
      if String.leb (fst x) (fst y) then x :: l else y :: insert_item x r
  end.

Definition sorted_items (d : dict) : dict := fold_right insert_item [] d.

(** The order [sorted] puts the items in. *)
Definition key_le (x y : string * V) : Prop := String.le (fst x) (fst y).

End dict.

End PyDict.

(** ** JSON documents, [json.dumps] and [json.loads] *)

Module Json.

Inductive json : Type :=
| JNull
| JBool (b : bool)
| JInt (z : Z)
| JStr (s : string)
| JArray (l : list json)
| JObject (d : list (string * json)).

Definition hex_digit (n : N) : ascii :=
  if N.ltb n 10 then PyStr.chr (48 + n) else PyStr.chr (87 + n).

(** The four-digit hexadecimal escape of a code point below 256, in
    lower case. *)
Definition escape_u (n : N) : string :=
  String PyStr.backslash
    (String "u" (String "0" (String "0"
      (String (hex_digit (N.div n 16))
        (String (hex_digit (N.modulo n 16)) EmptyString))))).

Definition escape2 (c : ascii) : string :=
  String PyStr.backslash (String c EmptyString).

(** The replacement of one character in [py_encode_basestring_ascii]:
    [ESCAPE_DCT] for the quote, the backslash and the five short control
    escapes, the character itself from the space to the tilde, and a
    four-digit hexadecimal escape otherwise. *)
Definition escape_char (c : ascii) : string :=
  let n := PyStr.code c in
  if N.eqb n 34 then escape2 PyStr.quote
  else if N.eqb n 92 then escape2 PyStr.backslash
  else if N.eqb n 10 then escape2 "n"
  else if N.eqb n 13 then escape2 "r"
  else if N.eqb n 9 then escape2 "t"
  else if N.eqb n 12 then escape2 "f"
  else if N.eqb n 8 then escape2 "b"
  else if PyStr.in_range 32 126 c then PyStr.str1 c
  else escape_u n.

Fixpoint escape (s : string) : string :=
  match s with
  | EmptyString => EmptyString
  | String c r => escape_char c +:+ escape r
  end.

(** [py_encode_basestring_ascii(s)] *)
Definition encode_basestring_ascii (s : string) : string :=
  String PyStr.quote (escape s +:+ PyStr.str1 PyStr.quote).

(** ['\n' + ' ' * (indent * level)] when an indent is given. *)
Definition newline_indent (indent : option nat) (level : nat) : string :=
  match indent with
  | None => EmptyString
  | Some n => String PyStr.newline (PyStr.spaces (n * level))
  end.

(** The item separator: [', '] by default, [','] followed by the
    newline and indentation when an indent is given. *)
Definition item_separator (indent : option nat) (level : nat) : string :=
  match indent with
  | None => ", "%string
  | Some _ => ("," +:+ newline_indent indent level)%string
  end.

(** An array or object body between its brackets. *)
Definition bracket (op cl : string) (indent : option nat) (level : nat)
    (items : list string) : string :=
  match items with
  | [] => op +:+ cl
  | _ =>
      op +:+ newline_indent indent (S level)
         +:+ PyStr.join (item_separator indent (S level)) items
         +:+ newline_indent indent level +:+ cl
  end.

Definition encode_member (kv : string * string) : string :=
  encode_basestring_ascii (fst kv) +:+ ": " +:+ snd kv.

(** [json.dumps(v, sort_keys=sort_keys, indent=indent)] at nesting depth
    [level]. The members of an object are encoded and then ordered by
    key; [encode_object] below states the same with the ordering done
    first, as the library does it. *)
Fixpoint encode (sort_keys : bool) (indent : option nat) (level : nat)
    (v : json) : string :=
  match v with
  | JNull => "null"
  | JBool true => "true"
  | JBool false => "false"
  | JInt z => PyStr.of_Z z
  | JStr s => encode_basestring_ascii s
  | JArray l =>
      bracket "[" "]" indent level
        (List.map (encode sort_keys indent (S level)) l)
  | JObject d =>
      let items :=
        List.map (fun kv => (fst kv, encode sort_keys indent (S level) (snd kv))) d in
      bracket "{" "}" indent level
        (List.map encode_member
           (if sort_keys then PyDict.sorted_items items else items))
  end.

Definition dumps (sort_keys : bool) (indent : option nat) (v : json) : string :=
  encode sort_keys indent 0 v.

(** *** [json.loads]

    The result is [None] where the library raises [JSONDecodeError], and
    also for a document outside the embedded fragment (a float, or a
    hexadecimal escape above U+00FF). *)

(** [WHITESPACE]: space, tab, line feed and carriage return. *)
Definition is_ws (c : ascii) : bool :=
  let n := PyStr.code c in
  (N.eqb n 32 || N.eqb n 9 || N.eqb n 10 || N.eqb n 13)%bool.

Fixpoint skip_ws (s : string) : string :=
  match s with
  | String c r => if is_ws c then skip_ws r else s
  | EmptyString => s
  end.

Definition hex_value (c : ascii) : option N :=
  let n := PyStr.code c in
  if PyStr.in_range 48 57 c then Some (n - 48)%N
  else if PyStr.in_range 97 102 c then Some (n - 87)%N
  else if PyStr.in_range 65 70 c then Some (n - 55)%N
  else None.

(** [int(esc, 16)] for four characters matching [[0-9A-Fa-f]{4}]. *)
Definition decode_uXXXX (h1 h2 h3 h4 : ascii) : option N :=
  match hex_value h1, hex_value h2, hex_value h3, hex_value h4 with
  | Some a, Some b, Some c, Some d => Some (((a * 16 + b) * 16 + c) * 16 + d)%N
  | _, _, _, _ => None
  end.

(** The [BACKSLASH] table of the decoder. *)
Definition unescape (e : ascii) : option ascii :=
  let n := PyStr.code e in
  if N.eqb n 34 then Some PyStr.quote
  else if N.eqb n 92 then Some PyStr.backslash
  else if N.eqb n 47 then Some "/"%char
  else if N.eqb n 98 then Some (PyStr.chr 8)
  else if N.eqb n 102 then Some (PyStr.chr 12)
  else if N.eqb n 110 then Some (PyStr.chr 10)
  else if N.eqb n 114 then Some (PyStr.chr 13)
  else if N.eqb n 116 then Some (PyStr.chr 9)
  else None.

Definition cons_char (c : ascii) (r : option (string * string)) :
    option (string * string) :=
  match r with
  | Some (s, rest) => Some (String c s, rest)
  | None => None
  end.

(** [py_scanstring(s, end, strict=True)], started after the opening
    quote: the decoded string and the input after the closing quote. *)
Fixpoint scanstring (s : string) : option (string * string) :=
  match s with
  | EmptyString => None
  | String c r =>
      let n := PyStr.code c in
      if N.eqb n 34 then Some (EmptyString, r)
      else if N.eqb n 92 then
        match r with
        | EmptyString => None
        | String e r1 =>
            if N.eqb (PyStr.code e) 117 then
              match r1 with
              | String h1 (String h2 (String h3 (String h4 r2))) =>
                  match decode_uXXXX h1 h2 h3 h4 with
                  | Some u =>
                      if N.ltb u 256 then cons_char (PyStr.chr u) (scanstring r2)
                      else None
                  | None => None
                  end
              | _ => None
              end
            else
              match unescape e with
              | Some ch => cons_char ch (scanstring r1)
              | None => None
              end
        end
      else if N.ltb n 32 then None
      else cons_char c (scanstring r)
  end.

Definition is_digit (c : ascii) : bool := PyStr.in_range 48 57 c.

Definition digit_value (c : ascii) : Z := Z.of_N (PyStr.code c) - 48.

Fixpoint scan_digits (s : string) (acc : Z) : Z * string :=
  match s with
  | String c r =>
      if is_digit c then scan_digits r (acc * 10 + digit_value c) else (acc, s)
  | EmptyString => (acc, s)
  end.

(** An integer is followed by anything but a fraction or an exponent. *)
Definition finish_number (neg : bool) (n : Z) (r : string) :
    option (Z * string) :=
  let is_float :=
    match r with
    | String c _ =>
        let k := PyStr.code c in (N.eqb k 46 || N.eqb k 101 || N.eqb k 69)%bool
    | EmptyString => false
    end in
  if is_float then None else Some (if neg then - n else n, r).

(** The integer part of [NUMBER_RE]: an optional minus sign, then a
    single zero or a nonzero digit followed by digits. *)
Definition scan_number (s : string) : option (Z * string) :=
  let '(neg, s1) :=
    match s with
    | String c r => if N.eqb (PyStr.code c) 45 then (true, r) else (false, s)
    | EmptyString => (false, s)
    end in
  match s1 with
  | String c r =>
      if N.eqb (PyStr.code c) 48 then finish_number neg 0 r
      else if is_digit c then
        let '(n, r') := scan_digits r (digit_value c) in finish_number neg n r'
      else None
  | EmptyString => None
  end.

Fixpoint drop (n : nat) (s : string) : string :=
  match n, s with
  | S k, String _ r => drop k r
  | _, _ => s
  end.

Definition scan_literal (lit : string) (v : json) (s : string) :
    option (json * string) :=
  if String.prefix lit s then Some (v, drop (String.length lit) s) else None.

(** [scan_once], [JSONArray] and [JSONObject]. The fuel bounds the number
    of nested calls; [loads] supplies more than the input is long.
    [parse_elements] starts at the first character of an element,
    [parse_members] after the opening quote of a key. *)
Fixpoint parse_value (fuel : nat) (s : string) : option (json * string) :=
  match fuel with
  | O => None
  | S fuel' =>
      match s with
      | EmptyString => None
      | String c r =>
          let n := PyStr.code c in
          if N.eqb n 34 then
            match scanstring r with
            | Some (str, r') => Some (JStr str, r')
            | None => None
            end
          else if N.eqb n 123 then
            match skip_ws r with
            | String c1 r1 =>
                if N.eqb (PyStr.code c1) 125 then Some (JObject [], r1)
                else if N.eqb (PyStr.code c1) 34 then parse_members fuel' r1 []
                else None
            | EmptyString => None
            end
          else if N.eqb n 91 then
            match skip_ws r with
            | String c1 r1 =>
                if N.eqb (PyStr.code c1) 93 then Some (JArray [], r1)
                else parse_elements fuel' (String c1 r1) []
            | EmptyString => None
            end
          else if N.eqb n 110 then scan_literal "null" JNull s
          else if N.eqb n 116 then scan_literal "true" (JBool true) s
          else if N.eqb n 102 then scan_literal "false" (JBool false) s
          else
            match scan_number s with
            | Some (z, r') => Some (JInt z, r')
            | None => None
            end
      end
  end
with parse_elements (fuel : nat) (s : string) (acc : list json) :
    option (json * string) :=
  match fuel with
  | O => None
  | S fuel' =>
      match parse_value fuel' s with
      | None => None
      | Some (v, r) =>
          match skip_ws r with
          | String c r1 =>
              if N.eqb (PyStr.code c) 93 then Some (JArray (acc ++ [v]), r1)
              else if N.eqb (PyStr.code c) 44 then
                parse_elements fuel' (skip_ws r1) (acc ++ [v])
              else None
          | EmptyString => None
          end
      end
  end
with parse_members (fuel : nat) (s : string) (acc : list (string * json)) :
    option (json * string) :=
  match fuel with
  | O => None
  | S fuel' =>
      match scanstring s with
      | None => None
      | Some (key, r) =>
          match skip_ws r with
          | String c r1 =>
              if N.eqb (PyStr.code c) 58 then
                match parse_value fuel' (skip_ws r1) with
                | None => None
                | Some (v, r2) =>
                    match skip_ws r2 with
                    | String c2 r3 =>
                        if N.eqb (PyStr.code c2) 125 then
                          Some (JObject (PyDict.of_pairs (acc ++ [(key, v)])), r3)
                        else if N.eqb (PyStr.code c2) 44 then
                          match skip_ws r3 with
                          | String c3 r4 =>
                              if N.eqb (PyStr.code c3) 34 then
                                parse_members fuel' r4 (acc ++ [(key, v)])
                              else None
                          | EmptyString => None
                          end
                        else None
                    | EmptyString => None
                    end
                end
              else None
          | EmptyString => None
          end
      end
  end.

(** [json.loads(s)], for the documents whose values are in [json]. *)
Definition loads (s : string) : option json :=
  match parse_value (S (String.length s)) (skip_ws s) with
  | Some (v, r) => if PyStr.is_empty (skip_ws r) then Some v else None
  | None => None
  end.

(** *** Logically equal documents *)

Fixpoint distinct (keys : list string) : bool :=
  match keys with
  | [] => true
  | k :: r => (negb (PyStr.mem k r) && distinct r)%bool
  end.

(** Every object of the document has pairwise distinct keys, as every
    Python dictionary has. *)
Fixpoint well_formed (v : json) : bool :=
  match v with
  | JArray l => forallb well_formed l
  | JObject d =>
      (distinct (PyDict.keys d) && forallb (fun kv => well_formed (snd kv)) d)%bool
  | _ => true
  end.

(** The same keys mapped to the same values, whatever the order of
    construction: equal scalars, arrays equal element by element, and
    objects of the same size in which every key of the first is a key
    of the second with the same value. A boolean and an integer are
    different values, as they are in JSON. *)
Fixpoint same_value (a b : json) : bool :=
  match a, b with
  | JNull, JNull => true
  | JBool x, JBool y => Bool.eqb x y
  | JInt x, JInt y => Z.eqb x y
  | JStr x, JStr y => String.eqb x y
  | JArray xs, JArray ys =>
      (fix all2 (xs ys : list json) : bool :=
         match xs, ys with
         | [], [] => true
         | x :: xs', y :: ys' => (same_value x y && all2 xs' ys')%bool
         | _, _ => false
         end) xs ys
  | JObject d1, JObject d2 =>
      (Nat.eqb (length d1) (length d2)
       && forallb (fun kv =>
            match PyDict.get (fst kv) d2 with
            | Some v' => same_value (snd kv) v'
            | None => false
            end) d1)%bool
  | _, _ => false
  end.

End Json.

(** ** Effects: state passing with exceptions *)

Module Eff.

Inductive outcome (A : Type) : Type :=
| Returned (a : A)
| Raised (msg : string).
Arguments Returned {A} a.
Arguments Raised {A} msg.

(** A computation on a state [S]: what a method does to the attributes
    of [self] survives an exception it raises afterwards. *)
Definition M (S A : Type) : Type := S -> outcome A * S.

Definition ret {S A} (a : A) : M S A := fun s => (Returned a, s).

Definition throw {S A} (msg : string) : M S A := fun s => (Raised msg, s).

Definition bind {S A B} (m : M S A) (k : A -> M S B) : M S B :=
  fun s =>
    match m s with
    | (Returned a, s') => k a s'
    | (Raised msg, s') => (Raised msg, s')
    end.

(** [try: m  except Exception as e: h(str(e))] *)
Definition try_except {S A} (m : M S A) (h : string -> M S A) : M S A :=
  fun s =>
    match m s with
    | (Returned a, s') => (Returned a, s')
    | (Raised msg, s') => h msg s'
    end.

Definition gets {S A} (f : S -> A) : M S A := fun s => (Returned (f s), s).

Definition modify {S} (f : S -> S) : M S unit := fun s => (Returned tt, f s).

(** A method of the base class run on an instance of a subclass. *)
Definition lift {S T A} (proj : T -> S) (upd : S -> T -> T) (m : M S A) : M T A :=
  fun t => let '(r, s') := m (proj t) in (r, upd s' t).

(** [for x in l: body(x)] *)
Fixpoint for_each {S A} (l : list A) (body : A -> M S unit) : M S unit :=
  match l with
  | [] => ret tt
  | x :: r => bind (body x) (fun _ => for_each r body)
  end.

Definition result {S A} (m : M S A) (s : S) : outcome A := fst (m s).
Definition state_after {S A} (m : M S A) (s : S) : S := snd (m s).

End Eff.

Notation "x <- m ;; k" := (Eff.bind m (fun x => k))
  (at level 90, m at level 80, k at level 200, only parsing).
Notation "m ;;; k" := (Eff.bind m (fun _ => k))
  (at level 90, k at level 200, only parsing).

(** ** [mcp_permission_client_base.py]: class [MCPPermissionClient] *)

Module Client.
Import Json Eff.

(** An element of [result.content]: it has a [text] attribute or it is
    shown through [str]. *)
Inductive content : Type :=
| TextContent (text : string)
| OtherContent (repr : string).

(** One line of [audit.log]. *)
Record audit_record : Type := {
  timestamp : string;
  operation : string;
  decision : string;
  reason : string
}.

(** What leaves the client, in order: a line appended to the audit log,
    or a call of [session.call_tool]. *)
Inductive effect : Type :=
| Audit (r : audit_record)
| ToolCall (tool_name : string) (arguments : json).

(** The collaborators of the client. Each may depend on everything that
    happened before. The tools of the session work on the files of the
    data directory, where the permissions file lies as well:
    [session_writes] is what a tool call leaves of that file, given what
    it held before the call. *)
Record env : Type := {
  now : list effect -> string;
  session_call_tool : list effect -> string -> json -> outcome (list content);
  session_writes : list effect -> string -> json -> option string -> option string
}.

(** The attributes of an instance, and the permissions file on disk
    ([None] while it does not exist). *)
Record client : Type := {
  permissions : list (string * string);
  permissions_file : option string;
  trace : list effect
}.

Definition set_permissions (p : list (string * string)) (c : client) : client :=
  {| permissions := p; permissions_file := permissions_file c; trace := trace c |}.

Definition set_permissions_file (f : option string) (c : client) : client :=
  {| permissions := permissions c; permissions_file := f; trace := trace c |}.

Definition emit (e : effect) (c : client) : client :=
  {| permissions := permissions c; permissions_file := permissions_file c;
     trace := trace c ++ [e] |}.

Definition audit_log (c : client) : list audit_record :=
  omap (fun e => match e with Audit r => Some r | ToolCall _ _ => None end) (trace c).

Definition tool_calls (c : client) : list (string * json) :=
  omap (fun e => match e with ToolCall t a => Some (t, a) | Audit _ => None end) (trace c).

Definition default_permissions : list (string * string) :=
  [("read_file", "allow"); ("write_file", "ask");
   ("delete_file", "deny"); ("execute_command", "deny")]%string.

(** The store as the JSON object written to the file, and back. *)
Definition json_of_permissions (p : list (string * string)) : json :=
  JObject (List.map (fun kv => (fst kv, JStr (snd kv))) p).

Fixpoint permissions_of_members (d : list (string * json)) :
    option (list (string * string)) :=
  match d with
  | [] => Some []
  | (k, JStr v) :: r =>
      match permissions_of_members r with
      | Some p => Some ((k, v) :: p)
      | None => None
      end
  | _ :: _ => None
  end.

(** [load_permissions]. [None]: [json.loads] raises, or the file holds
    something else than an object of strings. *)
Definition load_permissions (file : option string) :
    option (list (string * string)) :=
  match file with
  | Some text =>
      match loads text with
      | Some (JObject d) => permissions_of_members d
      | _ => None
      end
  | None => Some default_permissions
  end.

(** [__init__] *)
Definition init (file : option string) : option client :=
  match load_permissions file with
  | Some p => Some {| permissions := p; permissions_file := file; trace := [] |}
  | None => None
  end.

(** [save_permissions] *)
Definition save_permissions : M client unit :=
  modify (fun c =>
    set_permissions_file
      (Some (dumps false (Some 2%nat) (json_of_permissions (permissions c)))) c).

(** [check_permission] *)
Definition check_permission (perms : list (string * string))
    (tool_name : string) (arguments : json) : string :=
  let arg_key := tool_name +:+ ":" +:+ dumps true None arguments in
  match PyDict.get arg_key perms with
  | Some v => v
  | None =>
      match PyDict.get tool_name perms with
      | Some v => v
      | None => "ask"
      end
  end.

(** The line [log_audit] writes for a record. *)
Definition log_entry (r : audit_record) : string :=
  "[" +:+ timestamp r +:+ "] " +:+ operation r +:+ " - Decision: " +:+ decision r
  +:+ (if PyStr.is_empty (reason r) then EmptyString else " - Reason: " +:+ reason r)
  +:+ PyStr.str1 PyStr.newline.

(** The record [log_audit] appends for a tool in state [c]. *)
Definition tool_record (E : env) (c : client) (tool_name decision reason : string) :
    audit_record :=
  {| timestamp := now E (trace c); operation := "TOOL: " +:+ tool_name;
     decision := decision; reason := reason |}.

(** [log_audit] *)
Definition log_audit (E : env) (operation decision reason : string) : M client unit :=
  modify (fun c =>
    emit (Audit {| timestamp := now E (trace c); operation := operation;
                   decision := decision; reason := reason |}) c).

(** The client after the session has run a tool: the call is in the
    trace, and the permissions file is as the tool left it. *)
Definition called (E : env) (tool_name : string) (arguments : json) (c : client) : client :=
  set_permissions_file
    (session_writes E (trace c) tool_name arguments (permissions_file c))
    (emit (ToolCall tool_name arguments) c).

#[global] Arguments called : simpl never.

(** [await self.session.call_tool(tool_name, arguments=arguments)],
    then [result.content]. *)
Definition call_tool (E : env) (tool_name : string) (arguments : json) :
    M client (list content) :=
  fun c => (session_call_tool E (trace c) tool_name arguments,
            called E tool_name arguments c).

Definition denied_msg (tool_name : string) : string :=
  "Permission denied for tool: " +:+ tool_name.

Definition approval_msg (tool_name : string) (arguments : json) : string :=
  "Permission required for tool: " +:+ tool_name +:+ PyStr.str1 PyStr.newline
  +:+ "Arguments: " +:+ dumps false (Some 2%nat) arguments
  +:+ PyStr.str1 PyStr.newline +:+ PyStr.str1 PyStr.newline
  +:+ "This tool requires approval before execution." +:+ PyStr.str1 PyStr.newline
  +:+ "Please approve this operation in the GUI to proceed.".

(** [if arguments is None: arguments = {}] *)
Definition or_empty (arguments : json) : json :=
  match arguments with JNull => JObject [] | a => a end.

(** [call_tool_with_permission] *)
Definition call_tool_with_permission (E : env) (tool_name : string)
    (arguments : json) (approved : bool) : M client (list content) :=
  let arguments := or_empty arguments in
  permission <- gets (fun c => check_permission (permissions c) tool_name arguments) ;;
  if String.eqb permission "deny" then
    log_audit E ("TOOL: " +:+ tool_name) "DENIED" "Policy: deny" ;;;
    ret [TextContent (denied_msg tool_name)]
  else if (String.eqb permission "ask" && negb approved)%bool then
    log_audit E ("TOOL: " +:+ tool_name) "ASK" "Awaiting approval" ;;;
    ret [TextContent (approval_msg tool_name arguments)]
  else
    log_audit E ("TOOL: " +:+ tool_name) "ALLOWED" ("Policy: " +:+ permission) ;;;
    call_tool E tool_name arguments.

End Client.

(** ** [mcp_permission_client_app.py]: class [MCPPermissionClientApp] *)

Module ClientApp.
Import Json Eff Client.

(** [str(self.permissions_file)] *)
Definition permissions_path : string := "data/permissions.json".

(** [gui_configure_permission] *)
Definition gui_configure_permission (tool_name policy : string) : M client string :=
  if PyStr.is_empty tool_name then ret "Please enter a tool name"%string
  else if negb (PyStr.mem policy ["allow"; "deny"; "ask"]%string) then
    ret "Policy must be: allow, deny, or ask"%string
  else
    modify (fun c => set_permissions (PyDict.set tool_name policy (permissions c)) c) ;;;
    save_permissions ;;;
    ret ("Permission updated: " +:+ tool_name +:+ " = " +:+ policy
         +:+ PyStr.str1 PyStr.newline
         +:+ "Permissions saved to " +:+ permissions_path).

End ClientApp.

(** ** [mcp_permission_host_app.py]: class [MCPPermissionHostApp] *)

Module Host.
Import Json Eff Client.

(** An entry of [tool_calls] in a reply of the language model. *)
Record tool_call : Type := {
  tc_id : string;
  tc_name : string;
  tc_arguments : string
}.

(** [response.choices[0].message] *)
Record assistant_message : Type := {
  am_content : option string;
  am_tool_calls : list tool_call
}.

(** An entry of [conversation_history]. *)
Inductive message : Type :=
| MsgUser (content : string)
| MsgAssistant (content : option string)
| MsgAssistantCalls (content : string) (calls : list tool_call)
| MsgTool (tool_call_id : string) (content : string).

(** The collaborators of the host.
    - [available_tools]: [get_available_tools], the tool catalogue of
      the server in the function-calling format, annotated with the
      current permissions.
    - [synthetic_tool]: the four helpers at the head of [execute_tool],
      which list or read the resources and prompts of the server and
      format the answer. They read no policy, write no audit record and
      do not assign [pending_approval].
    - [llm_create]: [chat.completions.create] on the history, with or
      without tools; [None] when the reply has no choices. *)
Record host_env : Type := {
  base_env : env;
  available_tools : list (string * string) -> outcome json;
  synthetic_tool : string -> json -> outcome string;
  llm_create : list message -> option json -> outcome (option assistant_message)
}.

Record host : Type := {
  base : client;
  conversation_history : list message;
  pending_approval : option (string * json)
}.

Definition set_base (c : client) (h : host) : host :=
  {| base := c; conversation_history := conversation_history h;
     pending_approval := pending_approval h |}.

Definition set_pending (p : option (string * json)) (h : host) : host :=
  {| base := base h; conversation_history := conversation_history h;
     pending_approval := p |}.

Definition append_history (m : message) (h : host) : host :=
  {| base := base h; conversation_history := conversation_history h ++ [m];
     pending_approval := pending_approval h |}.

(** A method inherited from [MCPPermissionClient]. *)
Definition inherited {A} (m : M client A) : M host A := lift base set_base m.

(** An oracle answer as a computation. *)
Definition ask_oracle {S A} (o : outcome A) : M S A := fun s => (o, s).

(** [__init__] *)
Definition init (file : option string) : option host :=
  match Client.init file with
  | Some c => Some {| base := c; conversation_history := []; pending_approval := None |}
  | None => None
  end.

Definition risk_levels : list (string * string) :=
  [("read_file", "low"); ("write_file", "medium");
   ("delete_file", "high"); ("execute_command", "critical")]%string.

Record assessment : Type := {
  tool : string;
  risk_level : string;
  permission : string;
  requires_approval : bool;
  description : string
}.

(** [assess_risk] *)
Definition assess_risk (h : host) (tool_name : string) (arguments : json) : assessment :=
  let risk := default "medium"%string (PyDict.get tool_name risk_levels) in
  let perm := default "ask"%string (PyDict.get tool_name (permissions (base h))) in
  {| tool := tool_name;
     risk_level := risk;
     permission := perm;
     requires_approval := PyStr.mem perm ["ask"; "deny"]%string;
     description :=
       if String.eqb risk "low" then "Safe operation with minimal impact"
       else if String.eqb risk "medium" then "Moderate impact - modifies data"
       else if String.eqb risk "high" then "High impact - destructive operation"
       else if String.eqb risk "critical" then "Critical impact - system-level operation"
       else EmptyString |}.

Definition synthetic_names : list string :=
  ["mcp_list_resources"; "mcp_read_resource"; "mcp_list_prompts"; "mcp_get_prompt"]%string.

Definition is_approval_request (result_text : string) : bool :=
  (PyStr.contains "Permission required for tool:" result_text
   && PyStr.contains "Please approve this operation" result_text)%bool.

(** [execute_tool] *)
Definition execute_tool (E : host_env) (tool_name : string) (arguments : json) :
    M host string :=
  if PyStr.mem tool_name synthetic_names then
    ask_oracle (synthetic_tool E tool_name arguments)
  else
    try_except
      (result <- inherited (call_tool_with_permission (base_env E) tool_name arguments false) ;;
       match result with
       | TextContent result_text :: _ =>
           (if is_approval_request result_text
            then modify (set_pending (Some (tool_name, arguments)))
            else ret tt) ;;;
           ret result_text
       | OtherContent repr :: _ => ret repr
       | [] => ret "[]"%string
       end)
      (fun e => ret ("Error executing tool: " +:+ e)).

Definition affirmative : list string := ["yes"; "approve"; "ok"; "confirm"; "y"]%string.
Definition negative : list string := ["no"; "deny"; "cancel"; "n"]%string.

Definition is_affirmative (user_message : string) : bool :=
  PyStr.mem (PyStr.lower (PyStr.strip user_message)) affirmative.

Definition is_negative (user_message : string) : bool :=
  PyStr.mem (PyStr.lower (PyStr.strip user_message)) negative.

Definition approved_prefix : string :=
  "Operation approved and executed." +:+ PyStr.str1 PyStr.newline +:+ PyStr.str1 PyStr.newline.

(** The text shown for a content list: the [text] of its first element,
    or [str] of that element, or [str] of the empty list. *)
Definition first_text (result : list content) : string :=
  match result with
  | TextContent text :: _ => text
  | OtherContent repr :: _ => repr
  | [] => "[]"%string
  end.

(** The [try] block of the first branch of [chat]. *)
Definition approved_execution (E : host_env) (user_message : string)
    (tool_name : string) (arguments : json) : M host (option string) :=
  try_except
    (result <- inherited (call_tool_with_permission (base_env E) tool_name arguments true) ;;
     let response_text := approved_prefix +:+ first_text result in
     modify (append_history (MsgUser user_message)) ;;;
     modify (append_history (MsgAssistant (Some response_text))) ;;;
     ret (Some response_text))
    (fun e =>
       let error_msg := "Error executing approved operation: " +:+ e in
       modify (append_history (MsgUser user_message)) ;;;
       modify (append_history (MsgAssistant (Some error_msg))) ;;;
       ret (Some error_msg)).

(** The first branch of [chat]: the reply approves the pending call. *)
Definition chat_approved (E : host_env) (user_message : string)
    (tool_name : string) (arguments : json) : M host (option string) :=
  modify (set_pending None) ;;;
  approved_execution E user_message tool_name arguments.

(** The second branch of [chat]: the reply cancels the pending call. *)
Definition chat_cancelled (user_message : string) : M host (option string) :=
  modify (set_pending None) ;;;
  let response_text := "Operation cancelled by user."%string in
  modify (append_history (MsgUser user_message)) ;;;
  modify (append_history (MsgAssistant (Some response_text))) ;;;
  ret (Some response_text).

(** The body of the loop over [assistant_message.tool_calls]. The text
    of the [JSONDecodeError] is not modelled. The loop is the loop of the
    code for the arguments the decoder covers. *)
Definition run_tool_call (E : host_env) (tc : tool_call) : M host unit :=
  match loads (tc_arguments tc) with
  | None => throw "JSONDecodeError"%string
  | Some function_args =>
      risk_assessment <- gets (fun h => assess_risk h (tc_name tc) function_args) ;;
      tool_result <- execute_tool E (tc_name tc) function_args ;;
      modify (append_history (MsgTool (tc_id tc) tool_result))
  end.

(** The rest of [chat]: an ordinary message, answered by the model. *)
Definition chat_llm (E : host_env) (user_message : string) : M host (option string) :=
  modify (append_history (MsgUser user_message)) ;;;
  tools <- (fun h => ask_oracle (available_tools E (permissions (base h))) h) ;;
  response <- (fun h => ask_oracle (llm_create E (conversation_history h) (Some tools)) h) ;;
  match response with
  | None => ret (Some "Error: No response from LLM"%string)
  | Some am =>
      match am_tool_calls am with
      | _ :: _ =>
          modify (append_history
            (MsgAssistantCalls (default EmptyString (am_content am)) (am_tool_calls am))) ;;;
          for_each (am_tool_calls am) (run_tool_call E) ;;;
          final <- (fun h => ask_oracle (llm_create E (conversation_history h) None) h) ;;
          match final with
          | None => ret (Some "Error: No response from LLM after tool execution"%string)
          | Some fm =>
              modify (append_history (MsgAssistant (am_content fm))) ;;;
              ret (am_content fm)
          end
      | [] =>
          modify (append_history (MsgAssistant (am_content am))) ;;;
          ret (am_content am)
      end
  end.

(** A call reaches the tool executor without an approval only under a
    verdict that is neither [deny] nor [ask]. *)
Definition permitted (perms : list (string * string)) (e : effect) : Prop :=
  match e with
  | ToolCall t a =>
      check_permission perms t a <> "deny"%string
      /\ check_permission perms t a <> "ask"%string
  | Audit _ => True
  end.

(** A computation of the host that leaves the permissions as they are
    and lets out permitted effects only. *)
Definition guarded {A} (m : M host A) : Prop :=
  forall h,
    permissions (base (state_after m h)) = permissions (base h)
    /\ exists extra,
         trace (base (state_after m h)) = trace (base h) ++ extra
         /\ Forall (permitted (permissions (base h))) extra.

(** [chat] *)
Definition chat (E : host_env) (user_message : string) : M host (option string) :=
  fun h =>
    match pending_approval h with
    | Some (tool_name, arguments) =>
        if is_affirmative user_message then
          chat_approved E user_message tool_name arguments h
        else if is_negative user_message then chat_cancelled user_message h
        else chat_llm E user_message h
    | None => chat_llm E user_message h
    end.

End Host.

(** ** Concrete collaborators and states *)

Module Examples.
Import Json Eff Client Host.

Definition clock (tr : list effect) : string := "2025-01-01T12:00:00".

(** A server that runs every tool. *)
Definition server_ok : env :=
  {| now := clock;
     session_call_tool := fun _ t _ => Returned [TextContent ("done: " +:+ t)];
     session_writes := fun _ _ _ file => file |}.

(** A server whose executor fails. *)
Definition server_down : env :=
  {| now := clock;
     session_call_tool := fun _ _ _ => Raised "Connection closed";
     session_writes := fun _ _ _ file => file |}.

Definition args_a : json := JObject [("filepath", JStr "a.txt"); ("content", JStr "hi")].

(** The same arguments built in the other order. *)
Definition args_a' : json := JObject [("content", JStr "hi"); ("filepath", JStr "a.txt")].

Definition write_call : tool_call :=
  {| tc_id := "call_1"; tc_name := "write_file";
     tc_arguments := dumps false None args_a |}.

(** A model that asks for [write_file] whenever it is offered tools. *)
Definition model (history : list message) (tools : option json) :
    outcome (option assistant_message) :=
  match tools with
  | Some _ => Returned (Some {| am_content := None; am_tool_calls := [write_call] |})
  | None => Returned (Some {| am_content := Some "Done."%string; am_tool_calls := [] |})
  end.

Definition host_with (E : env) : host_env :=
  {| base_env := E;
     available_tools := fun _ => Returned (JArray []);
     synthetic_tool := fun _ _ => Returned "Available resources:"%string;
     llm_create := model |}.

(** A fresh client on the default policy. *)
Definition client0 : client :=
  {| permissions := default_permissions; permissions_file := None; trace := [] |}.

Definition host0 : host :=
  {| base := client0; conversation_history := []; pending_approval := None |}.

(** [write_file] is paused for approval under the default policy. *)
Definition host_pending : host :=
  {| base := client0; conversation_history := [];
     pending_approval := Some ("write_file"%string, args_a) |}.

(** The same pending approval when the policy says [deny]. *)
Definition host_pending_denied : host :=
  {| base := {| permissions := [("write_file", "deny")]%string;
                permissions_file := None; trace := [] |};
     conversation_history := [];
     pending_approval := Some ("write_file"%string, args_a) |}.

(** The client application: a call is paused under [ask], the operator
    then sets the policy of the tool to [deny]. *)
Definition client_paused : client :=
  state_after (call_tool_with_permission server_ok "write_file" args_a false) client0.

Definition client_paused_then_denied : client :=
  state_after (ClientApp.gui_configure_permission "write_file" "deny") client_paused.

(** A policy pinned to one argument set, over a general one. *)
Definition pinned : list (string * string) :=
  [("write_file:" +:+ dumps true None args_a, "deny");
   ("write_file", "ask"); ("read_file", "allow")]%string.

End Examples.

(** ** More of Python *)

Module PyMore.
Import Json.

(** [s.split(sep)[0]] for a non-empty separator: what precedes the first
    occurrence of [sep], or all of [s]. *)
Fixpoint before (sep s : string) : string :=
  if String.prefix sep s then EmptyString
  else
    match s with
    | EmptyString => EmptyString
    | String c r => String c (before sep r)
    end.

(** Every character of the string satisfies [p]. *)
Fixpoint all_chars (p : ascii -> bool) (s : string) : bool :=
  match s with
  | EmptyString => true
  | String c r => (p c && all_chars p r)%bool
  end.

(** [s.isspace()] or [s] is empty. *)
Definition blank (s : string) : bool := all_chars PyStr.isspace s.

(** [bool(v)] *)
Definition truthy (v : json) : bool :=
  match v with
  | JNull => false
  | JBool b => b
  | JInt z => negb (Z.eqb z 0)
  | JStr s => negb (PyStr.is_empty s)
  | JArray l => match l with [] => false | _ :: _ => true end
  | JObject d => match d with [] => false | _ :: _ => true end
  end.

(** [type(v).__name__] *)
Definition type_name (v : json) : string :=
  match v with
  | JNull => "NoneType"
  | JBool _ => "bool"
  | JInt _ => "int"
  | JStr _ => "str"
  | JArray _ => "list"
  | JObject _ => "dict"
  end.

(** [arguments.get(key)]: [None] is [JNull]; a value that is no
    dictionary has no [get] and the attribute lookup raises. *)
Definition dict_get (key : string) (arguments : json) : Eff.outcome json :=
  match arguments with
  | JObject d => Eff.Returned (default JNull (PyDict.get key d))
  | v => Eff.Raised ("'" +:+ type_name v +:+ "' object has no attribute 'get'")
  end.

End PyMore.

(** ** [get_available_tools] *)

Module HostTools.
Import Json Eff Client Host PyMore.

(** A tool as [list_tools] describes it; the description and the input
    schema may be missing. *)
Record tool_info : Type := {
  ti_name : string;
  ti_description : option string;
  ti_input_schema : option json
}.

Definition function_schema (name description : string) (parameters : list (string * json)) :
    json :=
  JObject [("type", JStr "function");
           ("function", JObject [("name", JStr name);
                                 ("description", JStr description);
                                 ("parameters", JObject parameters)])]%string.

Definition no_parameters : list (string * json) :=
  [("type", JStr "object"); ("properties", JObject [])]%string.

(** The entry built for one tool of the server. *)
Definition tool_schema (perms : list (string * string)) (t : tool_info) : json :=
  let name := ti_name t in
  let described :=
    match ti_description t with
    | Some d => if PyStr.is_empty d then "Execute " +:+ name else d
    | None => "Execute " +:+ name
    end in
  let permission := default "ask"%string (PyDict.get name perms) in
  let risk := default "medium"%string (PyDict.get name risk_levels) in
  let description :=
    described +:+ " (Permission: " +:+ permission +:+ ", Risk: " +:+ risk +:+ ")" in
  let parameters :=
    match ti_input_schema t with
    | Some (JObject (m :: schema')) =>
        let schema := m :: schema' in
        let with_properties :=
          match PyDict.get "properties" schema with
          | Some properties => PyDict.set "properties" properties no_parameters
          | None => no_parameters
          end in
        match PyDict.get "required" schema with
        | Some required =>
            if truthy required then PyDict.set "required" required with_properties
            else with_properties
        | None => with_properties
        end
    | _ => no_parameters
    end in
  function_schema name description parameters.

Definition string_property (description : string) : json :=
  JObject [("type", JStr "string"); ("description", JStr description)]%string.

(** The four entries appended for the resources and prompts. *)
Definition synthetic_schemas : list json :=
  [function_schema "mcp_list_resources"
     "List all available resources from the MCP server" no_parameters;
   function_schema "mcp_read_resource"
     "Read a specific resource by URI from the MCP server"
     [("type", JStr "object");
      ("properties",
       JObject [("uri", string_property
                   "The URI of the resource to read (for example, 'file://audit/log')")]);
      ("required", JArray [JStr "uri"])];
   function_schema "mcp_list_prompts"
     "List all available prompt templates from the MCP server" no_parameters;
   function_schema "mcp_get_prompt"
     "Get a rendered prompt template from the MCP server"
     [("type", JStr "object");
      ("properties",
       JObject [("name", string_property "The name of the prompt template");
                ("arguments",
                 JObject [("type", JStr "object");
                          ("description", JStr "Arguments for the prompt template")])]);
      ("required", JArray [JStr "name"])]]%string.

(** [get_available_tools], once [list_tools] has answered. *)
Definition get_available_tools (perms : list (string * string)) (mcp_tools : list tool_info) :
    list json :=
  List.map (tool_schema perms) mcp_tools ++ synthetic_schemas.

(** [schema["function"]["name"]] *)
Definition schema_name (schema : json) : option string :=
  match schema with
  | JObject d =>
      match PyDict.get "function" d with
      | Some (JObject f) =>
          match PyDict.get "name" f with
          | Some (JStr name) => Some name
          | _ => None
          end
      | _ => None
      end
  | _ => None
  end.

End HostTools.

(** ** The resource and prompt helpers at the head of [execute_tool] *)

Module HostHelpers.
Import Json Eff Client Host PyMore.

(** A resource and a prompt as the server lists them. A name or a
    description that is [None] or empty is the empty string. *)
Record resource : Type := {
  r_uri : string;
  r_name : string;
  r_description : string
}.

Record prompt : Type := {
  p_name : string;
  p_description : string;
  p_arguments : list string
}.

(** A message of a rendered prompt: its role and the text of its
    content. *)
Record prompt_message : Type := {
  pm_role : string;
  pm_content : string
}.

(** The catalogue of the server, and [str] on a value that is not a
    string. *)
Record catalogue : Type := {
  list_resources : outcome (list resource);
  read_resource : json -> outcome (list content);
  list_prompts : outcome (list prompt);
  get_prompt : json -> json -> outcome (list prompt_message);
  str_of_value : json -> string
}.

Definition nl : string := PyStr.str1 PyStr.newline.

Definition resource_line (r : resource) : string :=
  "- " +:+ r_uri r
  +:+ (if PyStr.is_empty (r_name r) then EmptyString else " (" +:+ r_name r +:+ ")")
  +:+ (if PyStr.is_empty (r_description r) then EmptyString else ": " +:+ r_description r)
  +:+ nl.

Definition prompt_line (p : prompt) : string :=
  "- " +:+ p_name p
  +:+ (if PyStr.is_empty (p_description p) then EmptyString else ": " +:+ p_description p)
  +:+ (match p_arguments p with
       | [] => EmptyString
       | args => " (args: " +:+ PyStr.join ", " args +:+ ")"
       end)
  +:+ nl.

(** [tool_name == "mcp_list_resources"] *)
Definition mcp_list_resources (C : catalogue) : outcome string :=
  match list_resources C with
  | Returned resources =>
      Returned (fold_left (fun text r => text +:+ resource_line r) resources
                  ("Available resources:" +:+ nl))
  | Raised e => Raised e
  end.

(** [tool_name == "mcp_read_resource"] *)
Definition mcp_read_resource (C : catalogue) (arguments : json) : outcome string :=
  match dict_get "uri" arguments with
  | Raised e => Raised e
  | Returned uri =>
      if negb (truthy uri) then Returned "Error: URI is required"%string
      else
        match read_resource C uri with
        | Returned contents => Returned (first_text contents)
        | Raised e => Returned ("Error reading resource: " +:+ e)
        end
  end.

(** [tool_name == "mcp_list_prompts"] *)
Definition mcp_list_prompts (C : catalogue) : outcome string :=
  match list_prompts C with
  | Returned prompts =>
      Returned (fold_left (fun text p => text +:+ prompt_line p) prompts
                  ("Available prompts:" +:+ nl))
  | Raised e => Raised e
  end.

Definition format_value (C : catalogue) (v : json) : string :=
  match v with
  | JStr s => s
  | _ => str_of_value C v
  end.

(** [arguments.get("arguments", {})] after [arguments.get("name")] has
    succeeded. *)
Definition prompt_arguments (arguments : json) : json :=
  match arguments with
  | JObject d => default (JObject []) (PyDict.get "arguments" d)
  | _ => JObject []
  end.

(** [tool_name == "mcp_get_prompt"] *)
Definition mcp_get_prompt (C : catalogue) (arguments : json) : outcome string :=
  match dict_get "name" arguments with
  | Raised e => Raised e
  | Returned name =>
      if negb (truthy name) then Returned "Error: Prompt name is required"%string
      else
        match get_prompt C name (prompt_arguments arguments) with
        | Returned messages =>
            Returned (fold_left
                        (fun text m =>
                           text +:+ "[" +:+ pm_role m +:+ "]: " +:+ pm_content m +:+ nl +:+ nl)
                        messages
                        ("Prompt: " +:+ format_value C name +:+ nl +:+ nl))
        | Raised e => Returned ("Error getting prompt: " +:+ e)
        end
  end.

(** The helper branches of [execute_tool], tried in the order of the
    source; the function is applied to the four helper names only. *)
Definition synthetic (C : catalogue) (tool_name : string) (arguments : json) : outcome string :=
  if String.eqb tool_name "mcp_list_resources" then mcp_list_resources C
  else if String.eqb tool_name "mcp_read_resource" then mcp_read_resource C arguments
  else if String.eqb tool_name "mcp_list_prompts" then mcp_list_prompts C
  else mcp_get_prompt C arguments.

(** A host whose helpers are the ones above. *)
Definition with_catalogue (C : catalogue) (HE : host_env) : host_env :=
  {| base_env := base_env HE;
     available_tools := available_tools HE;
     synthetic_tool := synthetic C;
     llm_create := llm_create HE |}.

End HostHelpers.

(** ** The chat window: [create_interface] of the host *)

Module HostUi.
Import Json Eff Client Host.

(** An entry of the history the chat window shows. *)
Record ui_message : Type := {
  ui_role : string;
  ui_content : option string
}.

Definition set_history (l : list message) (h : host) : host :=
  {| base := base h; conversation_history := l; pending_approval := pending_approval h |}.

(** [chat_wrapper] *)
Definition chat_wrapper (E : host_env) (message : string) (history : list ui_message) :
    M host (list ui_message) :=
  if PyStr.is_empty (PyStr.strip message) then ret history
  else
    response <- chat E message ;;
    ret (history ++ [ {| ui_role := "user"; ui_content := Some message |};
                      {| ui_role := "assistant"; ui_content := response |} ]).

(** [reset_conversation] *)
Definition reset_conversation : M host (list ui_message) :=
  modify (set_history []) ;;; ret [].

(** What the user does in the chat window. *)
Inductive action : Type :=
| Say (message : string)
| Clear.

Definition act (E : host_env) (a : action) (h : host) : host :=
  match a with
  | Say message => state_after (chat_wrapper E message []) h
  | Clear => state_after reset_conversation h
  end.

(** The state after a sequence of actions; an exception shown by the
    window leaves the application running. *)
Definition run (E : host_env) (actions : list action) (h : host) : host :=
  fold_left (fun h a => act E a h) actions h.

End HostUi.

(** ** The tools tab of the client application *)

Module ClientGui.
Import Json Eff Client Host PyMore.

(** The choices [gui_list_tools] puts in the tool selector, for the tool
    names it has cached. *)
Definition tool_choices (perms : list (string * string)) (tools_cache : list string) :
    list string :=
  List.map (fun name => name +:+ " (" +:+ default "ask"%string (PyDict.get name perms) +:+ ")")
    tools_cache.

(** [json.loads(arguments_json) if arguments_json.strip() else {}], for
    the texts the decoder covers. *)
Definition parse_arguments (arguments_json : string) : option json :=
  if PyStr.is_empty (PyStr.strip arguments_json) then Some (JObject [])
  else loads arguments_json.

(** The characters a JSON value can start with; the decoder raises at
    any other character. *)
Definition starts_value (c : ascii) : bool :=
  let n := PyStr.code c in
  (N.eqb n 34 || N.eqb n 123 || N.eqb n 91 || N.eqb n 110 || N.eqb n 116 || N.eqb n 102
   || N.eqb n 45 || PyStr.in_range 48 57 c || N.eqb n 78 || N.eqb n 73)%bool.

(** No JSON value starts in the text: it is empty, or its first character
    after the whitespace of JSON opens no string, object, array, number
    or literal. The library raises [JSONDecodeError] there. *)
Definition no_value (text : string) : bool :=
  match skip_ws text with
  | EmptyString => true
  | String ch _ => negb (starts_value ch)
  end.

(** The decoder of this development takes the text as the library does:
    it decodes it, or no value starts in it. This leaves out the
    documents that hold a float or an escape of a code point above
    U+00FF, which the library decodes to values outside of [json]. *)
Definition covered (text : string) : bool :=
  match loads text with
  | Some _ => true
  | None => no_value text
  end.

(** [gui_call_tool]; [decode_error] is the text of the [JSONDecodeError]
    the library raises for a document. *)
Definition gui_call_tool (E : env) (decode_error : string -> string)
    (tool_selection arguments_json : string) (approved : bool) : M client string :=
  if PyStr.is_empty tool_selection then ret "Please select a tool first"%string
  else
    let tool_name := before " (" tool_selection in
    match parse_arguments arguments_json with
    | None => ret ("Invalid JSON in arguments: " +:+ decode_error arguments_json)
    | Some arguments =>
        result <- call_tool_with_permission E tool_name arguments approved ;;
        ret (first_text result)
    end.

(** What the operator does in the client application. *)
Inductive action : Type :=
| CallTool (tool_selection arguments_json : string)
| ApproveTool (tool_selection arguments_json : string)
| SavePermission (tool_name policy : string).

Definition act (E : env) (decode_error : string -> string) (a : action) (c : client) : client :=
  match a with
  | CallTool sel args => state_after (gui_call_tool E decode_error sel args false) c
  | ApproveTool sel args => state_after (gui_call_tool E decode_error sel args true) c
  | SavePermission tool_name policy =>
      state_after (ClientApp.gui_configure_permission tool_name policy) c
  end.

Definition run (E : env) (decode_error : string -> string) (actions : list action)
    (c : client) : client :=
  fold_left (fun c a => act E decode_error a c) actions c.

(** The arguments of a call or an approval are blank, or a text the
    decoder covers. *)
Definition covered_action (a : action) : bool :=
  match a with
  | CallTool _ args | ApproveTool _ args =>
      (PyStr.is_empty (PyStr.strip args) || covered args)%bool
  | SavePermission _ _ => true
  end.

Definition is_save (a : action) : bool :=
  match a with
  | SavePermission _ _ => true
  | _ => false
  end.

End ClientGui.

(** ** [mcp_permission_server.py]: the permissions resource *)

Module Server.
Import Json Client.

(** [get_permissions_config], on the contents of the permissions file
    ([None] while it does not exist). *)
Definition get_permissions_config (file : option string) : string :=
  match file with
  | None =>
      dumps false (Some 2%nat)
        (JObject [("read_file", JStr "allow"); ("write_file", JStr "ask");
                  ("delete_file", JStr "deny"); ("execute_command", JStr "deny")]%string)
  | Some text => text
  end.

End Server.

(** ** Audited traces *)

Module Audited.
Import Json Eff Client.

(** The record authorises the execution of the tool. *)
Definition allows (r : audit_record) (tool_name : string) : bool :=
  (String.eqb (decision r) "ALLOWED" && String.eqb (operation r) ("TOOL: " +:+ tool_name))%bool.

(** Every call of the executor comes right after a record that
    authorises it. *)
Fixpoint audited_after (prev : option audit_record) (tr : list effect) : bool :=
  match tr with
  | [] => true
  | Audit r :: rest => audited_after (Some r) rest
  | ToolCall t _ :: rest =>
      (match prev with Some r => allows r t | None => false end
       && audited_after None rest)%bool
  end.

Definition audited (tr : list effect) : bool := audited_after None tr.

(** What one mediated request lets out under the store [perms]: one
    record, followed by the call when the record authorises it. The call
    is not under [deny], and under [ask] it is the approved call. *)
Inductive chunk (perms : list (string * string)) (approved : option (string * json)) :
    list effect -> Prop :=
| chunk_refused (r : audit_record) : chunk perms approved [Audit r]
| chunk_executed (r : audit_record) (t : string) (a : json) :
    allows r t = true ->
    check_permission perms t a <> "deny"%string ->
    (check_permission perms t a = "ask"%string -> approved = Some (t, a)) ->
    chunk perms approved [Audit r; ToolCall t a].

(** The host went from [h] to [h'] by mediated requests only, and left
    the store alone. *)
Definition mediated (approved : option (string * json)) (h h' : Host.host) : Prop :=
  permissions (Host.base h') = permissions (Host.base h)
  /\ exists chunks,
       trace (Host.base h') = trace (Host.base h) ++ concat chunks
       /\ Forall (chunk (permissions (Host.base h)) approved) chunks.

End Audited.

(** ** Relations between the states of a chat turn *)

Module Turn.
Import Json Eff Client Host.

(** The computation takes every state to a related one, whether it
    returns or raises. *)
Definition keeps {A} (R : host -> host -> Prop) (m : M host A) : Prop :=
  forall h, R h (state_after m h).

(** The call an affirmative reply approves, as it reaches the executor. *)
Definition approved_call (message : string) (h : host) : option (string * json) :=
  if is_affirmative message then
    match pending_approval h with
    | Some (t, a) => Some (t, or_empty a)
    | None => None
    end
  else None.

(** [chat_llm] after its first line, which appends the message of the
    user to the history. *)
Definition answer (E : host_env) : M host (option string) :=
  tools <- (fun h => ask_oracle (available_tools E (permissions (base h))) h) ;;
  response <- (fun h => ask_oracle (llm_create E (conversation_history h) (Some tools)) h) ;;
  match response with
  | None => ret (Some "Error: No response from LLM"%string)
  | Some am =>
      match am_tool_calls am with
      | _ :: _ =>
          modify (append_history
            (MsgAssistantCalls (default EmptyString (am_content am)) (am_tool_calls am))) ;;;
          for_each (am_tool_calls am) (run_tool_call E) ;;;
          final <- (fun h => ask_oracle (llm_create E (conversation_history h) None) h) ;;
          match final with
          | None => ret (Some "Error: No response from LLM after tool execution"%string)
          | Some fm =>
              modify (append_history (MsgAssistant (am_content fm))) ;;;
              ret (am_content fm)
          end
      | [] =>
          modify (append_history (MsgAssistant (am_content am))) ;;;
          ret (am_content am)
      end
  end.

(** The arguments of every tool call the language model asks for are
    such texts. *)
Definition within_model (E : host_env) : Prop :=
  forall history tools am tc,
    llm_create E history tools = Returned (Some am) ->
    In tc (am_tool_calls am) ->
    ClientGui.covered (tc_arguments tc) = true.

Definition history_grows (h h' : host) : Prop :=
  exists more, conversation_history h' = conversation_history h ++ more.

Definition pending_kept (h h' : host) : Prop :=
  pending_approval h <> None -> pending_approval h' <> None.

End Turn.

(** ** Further concrete runs *)

Module Scenarios.
Import Json Eff Client Host HostHelpers Examples.

(** A model that answers every message with a text and asks for no tool. *)
Definition quiet_model (history : list message) (tools : option json) :
    outcome (option assistant_message) :=
  Returned (Some {| am_content := Some "Hello."%string; am_tool_calls := [] |}).

Definition host_quiet (E : env) : host_env :=
  {| base_env := E;
     available_tools := fun _ => Returned (JArray []);
     synthetic_tool := fun _ _ => Returned "Available resources:"%string;
     llm_create := quiet_model |}.

(** A server whose tools answer with a text that reads like an approval
    request. *)
Definition prompting_text : string :=
  "Permission required for tool: read_file. Please approve this operation.".

Definition server_prompting : env :=
  {| now := clock;
     session_call_tool := fun _ _ _ => Returned [TextContent prompting_text];
     session_writes := fun _ _ _ file => file |}.

(** A server whose tools leave an empty document in the permissions
    file. *)
Definition server_overwriting : env :=
  {| now := clock;
     session_call_tool := fun _ t _ => Returned [TextContent ("done: " +:+ t)];
     session_writes := fun _ _ _ _ => Some "{}"%string |}.

(** A server without resources and prompts. *)
Definition empty_catalogue : catalogue :=
  {| list_resources := Returned [];
     read_resource := fun _ => Raised "Unknown resource";
     list_prompts := Returned [];
     get_prompt := fun _ _ => Raised "Unknown prompt";
     str_of_value := fun _ => EmptyString |}.

(** A call of a helper whose arguments are a JSON array. *)
Definition helper_call : tool_call :=
  {| tc_id := "call_2"; tc_name := "mcp_read_resource"; tc_arguments := "[]" |}.

Definition helper_answer : assistant_message :=
  {| am_content := None; am_tool_calls := [helper_call] |}.

Definition helper_model (history : list message) (tools : option json) :
    outcome (option assistant_message) :=
  Returned (Some helper_answer).

Definition host_helper : host_env :=
  {| base_env := server_ok;
     available_tools := fun _ => Returned (JArray []);
     synthetic_tool := fun _ _ => Returned "Available resources:"%string;
     llm_create := helper_model |}.

(** A call of [read_file], which the default policy allows. *)
Definition args_r : json := JObject [("filepath", JStr "notes.txt")].

Definition read_call : tool_call :=
  {| tc_id := "call_3"; tc_name := "read_file";
     tc_arguments := dumps false None args_r |}.

(** A model that asks for [read_file] whenever it is offered tools. *)
Definition reading_model (history : list message) (tools : option json) :
    outcome (option assistant_message) :=
  match tools with
  | Some _ => Returned (Some {| am_content := None; am_tool_calls := [read_call] |})
  | None => Returned (Some {| am_content := Some "Done."%string; am_tool_calls := [] |})
  end.

(** The file that is read holds a text that reads like an approval
    request. *)
Definition host_reading : host_env :=
  {| base_env := server_prompting;
     available_tools := fun _ => Returned (JArray []);
     synthetic_tool := fun _ _ => Returned "Available resources:"%string;
     llm_create := reading_model |}.

(** The host after a first turn: [read_file] has run, and it is pending. *)
Definition host_prompted : host :=
  state_after (chat host_reading "read the notes") host0.

(** The message the decoder reports for text that is no JSON. *)
Definition decode_error (text : string) : string := "Expecting value: line 1 column 1 (char 0)".

(** The choice of the selector for [write_file] under the default policy. *)
Definition write_choice : string := "write_file (ask)".

End Scenarios.
(** * Properties *)

(** ** Strings *)

#[local] Arguments String.append !_ _ / : simpl nomatch.

Section string_facts.

Lemma append_assoc (a b c : string) : (a +:+ b) +:+ c = a +:+ (b +:+ c).
Proof. induction a as [|x a IH]; simpl; [reflexivity | now rewrite IH]. Qed.

Lemma append_empty_r (a : string) : a +:+ EmptyString = a.
Proof. induction a as [|x a IH]; simpl; [reflexivity | now rewrite IH]. Qed.

Lemma prefix_append (n x : string) : String.prefix n (n +:+ x) = true.
Proof.
  induction n as [|c n IH]; simpl.
  - now destruct x.
  - destruct (ascii_dec c c) as [_|Hne]; [exact IH | now destruct Hne].
Qed.

Lemma contains_prefix (n h : string) :
  String.prefix n h = true -> PyStr.contains n h = true.
Proof. intros H. destruct h; simpl in *; rewrite H; reflexivity. Qed.

Lemma contains_append_r (n x y : string) :
  PyStr.contains n y = true -> PyStr.contains n (x +:+ y) = true.
Proof.
  intros H. induction x as [|c x IH]; simpl; [exact H |].
  change (String.prefix n (String c (x +:+ y)) || PyStr.contains n (x +:+ y) = true).
  rewrite IH. apply orb_true_r.
Qed.

Lemma mem_true_iff (x : string) (l : list string) :
  PyStr.mem x l = true <-> In x l.
Proof.
  unfold PyStr.mem. rewrite existsb_exists. split.
  - intros (y & Hy & Heq). apply String.eqb_eq in Heq. now subst.
  - intros H. exists x. split; [exact H | apply String.eqb_refl].
Qed.

End string_facts.

(** ** The three outcomes of [call_tool_with_permission] *)

Section mediator.
Import Json Eff Client.

Variable E : env.

Lemma call_deny (c : client) (tool_name : string) (arguments : json) (approved : bool) :
  check_permission (permissions c) tool_name (or_empty arguments) = "deny"%string ->
  call_tool_with_permission E tool_name arguments approved c =
    (Returned [TextContent (denied_msg tool_name)],
     emit (Audit (tool_record E c tool_name "DENIED" "Policy: deny")) c).
Proof.
  intros H. unfold call_tool_with_permission, bind, gets. rewrite H. reflexivity.
Qed.

Lemma call_ask (c : client) (tool_name : string) (arguments : json) :
  check_permission (permissions c) tool_name (or_empty arguments) = "ask"%string ->
  call_tool_with_permission E tool_name arguments false c =
    (Returned [TextContent (approval_msg tool_name (or_empty arguments))],
     emit (Audit (tool_record E c tool_name "ASK" "Awaiting approval")) c).
Proof.
  intros H. unfold call_tool_with_permission, bind, gets. rewrite H. reflexivity.
Qed.

Lemma call_allow (c : client) (tool_name : string) (arguments : json) (approved : bool) :
  let verdict := check_permission (permissions c) tool_name (or_empty arguments) in
  let c1 := emit (Audit (tool_record E c tool_name "ALLOWED" ("Policy: " +:+ verdict))) c in
  verdict <> "deny"%string ->
  verdict <> "ask"%string \/ approved = true ->
  call_tool_with_permission E tool_name arguments approved c =
    (session_call_tool E (trace c1) tool_name (or_empty arguments),
     called E tool_name (or_empty arguments) c1).
Proof.
  intros verdict c1 Hd Ha. unfold call_tool_with_permission, bind, gets.
  fold verdict.
  apply String.eqb_neq in Hd. rewrite Hd.
  assert ((String.eqb verdict "ask" && negb approved)%bool = false) as ->.
  { destruct Ha as [Ha| ->]; [| apply andb_false_r].
    apply String.eqb_neq in Ha. now rewrite Ha. }
  reflexivity.
Qed.

End mediator.

(** ** Projections of the trace *)

Section trace_facts.
Import Json Eff Client.

Lemma audit_log_emit_audit (c : client) (r : audit_record) :
  audit_log (emit (Audit r) c) = audit_log c ++ [r].
Proof. unfold audit_log, emit; simpl. now rewrite omap_app. Qed.

Lemma audit_log_emit_call (c : client) (t : string) (a : json) :
  audit_log (emit (ToolCall t a) c) = audit_log c.
Proof. unfold audit_log, emit; simpl. rewrite omap_app; simpl. apply app_nil_r. Qed.

Lemma tool_calls_emit_audit (c : client) (r : audit_record) :
  tool_calls (emit (Audit r) c) = tool_calls c.
Proof. unfold tool_calls, emit; simpl. rewrite omap_app; simpl. apply app_nil_r. Qed.

Lemma tool_calls_emit_call (c : client) (t : string) (a : json) :
  tool_calls (emit (ToolCall t a) c) = tool_calls c ++ [(t, a)].
Proof. unfold tool_calls, emit; simpl. now rewrite omap_app. Qed.

Lemma audit_log_called (E : env) (c : client) (t : string) (a : json) :
  audit_log (called E t a c) = audit_log c.
Proof. apply audit_log_emit_call. Qed.

Lemma tool_calls_called (E : env) (c : client) (t : string) (a : json) :
  tool_calls (called E t a c) = tool_calls c ++ [(t, a)].
Proof. apply tool_calls_emit_call. Qed.

End trace_facts.

(** ** Policy evaluation *)

Section evaluation.
Import Json Eff Client.

(** C4. The evaluation looks up the composite key, made of the tool
    name, a colon and the canonical serialization of the arguments, and
    returns its verdict when the key is present; otherwise it looks up
    the bare tool name and returns its verdict when present; otherwise
    it returns [ask]. The composite key is tried first and the first
    match wins. *)
Theorem check_permission_lookup_order
    (perms : list (string * string)) (tool_name : string) (arguments : json) :
  let arg_key := tool_name +:+ ":" +:+ dumps true None arguments in
  (forall v, PyDict.get arg_key perms = Some v ->
     check_permission perms tool_name arguments = v)
  /\ (forall v, PyDict.get arg_key perms = None ->
        PyDict.get tool_name perms = Some v ->
        check_permission perms tool_name arguments = v)
  /\ (PyDict.get arg_key perms = None ->
      PyDict.get tool_name perms = None ->
      check_permission perms tool_name arguments = "ask"%string).
Proof.
  intros arg_key. unfold check_permission. fold arg_key.
  split; [| split].
  - intros v Hv. now rewrite Hv.
  - intros v Hk Hv. now rewrite Hk, Hv.
  - intros Hk Hv. now rewrite Hk, Hv.
Qed.

Lemma check_permission_lookup_order_witness :
  let pinned :=
    [("write_file:{" +:+ PyStr.str1 PyStr.quote +:+ "filepath" +:+ PyStr.str1 PyStr.quote
        +:+ ": " +:+ PyStr.str1 PyStr.quote +:+ "a" +:+ PyStr.str1 PyStr.quote +:+ "}",
      "deny"); ("write_file", "ask"); ("read_file", "allow")]%string in
  check_permission pinned "write_file" (JObject [("filepath", JStr "a")]) = "deny"%string
  /\ check_permission pinned "write_file" (JObject [("filepath", JStr "b")]) = "ask"%string
  /\ check_permission pinned "list_dir" (JObject []) = "ask"%string.
Proof.
  intros pinned. split; [| split].
  - exact (proj1 (check_permission_lookup_order pinned "write_file"
                    (JObject [("filepath", JStr "a")])) _ eq_refl).
  - exact (proj1 (proj2 (check_permission_lookup_order pinned "write_file"
                           (JObject [("filepath", JStr "b")]))) _ eq_refl eq_refl).
  - exact (proj2 (proj2 (check_permission_lookup_order pinned "list_dir" (JObject [])))
             eq_refl eq_refl).
Defined.

End evaluation.

(** ** Mediation of a tool request *)

Section mediation.
Import Json Eff Client Host.

Variable HE : host_env.

Let E : env := base_env HE.

Lemma approval_msg_is_request (tool_name : string) (arguments : json) :
  is_approval_request (approval_msg tool_name arguments) = true.
Proof.
  unfold is_approval_request, approval_msg. apply andb_true_intro. split.
  - apply contains_prefix. reflexivity.
  - do 9 apply contains_append_r. apply contains_prefix. reflexivity.
Qed.

Lemma denied_msg_names_tool (tool_name : string) :
  PyStr.contains tool_name (denied_msg tool_name) = true.
Proof.
  unfold denied_msg. apply contains_append_r, contains_prefix.
  rewrite <- (append_empty_r tool_name) at 2. apply prefix_append.
Qed.

(** What [execute_tool] does with the content list of a regular tool. *)
Lemma execute_tool_regular (h : host) (tool_name : string) (arguments : json) :
  PyStr.mem tool_name synthetic_names = false ->
  execute_tool HE tool_name arguments h =
    match call_tool_with_permission E tool_name arguments false (base h) with
    | (Returned (TextContent text :: _), c') =>
        (Returned text,
         if is_approval_request text
         then set_pending (Some (tool_name, arguments)) (set_base c' h)
         else set_base c' h)
    | (Returned (OtherContent repr :: _), c') => (Returned repr, set_base c' h)
    | (Returned [], c') => (Returned "[]"%string, set_base c' h)
    | (Raised e, c') => (Returned ("Error executing tool: " +:+ e), set_base c' h)
    end.
Proof.
  intros Hs. unfold execute_tool. rewrite Hs.
  unfold try_except, bind, inherited, lift. fold E.
  destruct (call_tool_with_permission E tool_name arguments false (base h))
    as [[[|[text|repr] rest]|e] c']; simpl; try reflexivity.
  destruct (is_approval_request text); reflexivity.
Qed.

(** C6. When the verdict is [deny] the tool executor is not invoked,
    exactly one audit record is appended and its decision is [DENIED],
    and the caller receives the rejection message, which is the text
    [Permission denied for tool: ] followed by the name of the tool. *)
Theorem deny_blocks_execution
    (h : host) (tool_name : string) (arguments : json) (approved : bool) :
  let c := base h in
  check_permission (permissions c) tool_name (or_empty arguments) = "deny"%string ->
  let r := tool_record E c tool_name "DENIED" "Policy: deny" in
  let c' := state_after (call_tool_with_permission E tool_name arguments approved) c in
  let rejection := ("Permission denied for tool: " +:+ tool_name)%string in
  result (call_tool_with_permission E tool_name arguments approved) c
    = Returned [TextContent rejection]
  /\ trace c' = trace c ++ [Audit r]
  /\ tool_calls c' = tool_calls c
  /\ audit_log c' = audit_log c ++ [r]
  /\ decision r = "DENIED"%string
  /\ PyStr.contains tool_name rejection = true
  /\ (PyStr.mem tool_name synthetic_names = false ->
      let h' := state_after (execute_tool HE tool_name arguments) h in
      result (execute_tool HE tool_name arguments) h = Returned rejection
      /\ trace (base h') = trace c ++ [Audit r]).
Proof.
  intros c Hdeny r c' rejection.
  assert (Hcall : forall b, call_tool_with_permission E tool_name arguments b c
            = (Returned [TextContent rejection], emit (Audit r) c))
    by (intros b; now apply call_deny).
  unfold c', result, state_after. rewrite (Hcall approved). simpl.
  repeat (split; [first [reflexivity | apply tool_calls_emit_audit
                        | apply audit_log_emit_audit
                        | apply (denied_msg_names_tool tool_name)] |]).
  intros Hs. rewrite (execute_tool_regular h _ _ Hs). fold c. rewrite (Hcall false).
  change rejection with (denied_msg tool_name).
  destruct (is_approval_request (denied_msg tool_name)); split; reflexivity.
Qed.

(** C5. When the verdict is [ask] and the request is not approved, the
    tool is not executed, exactly one audit record is appended, with
    decision [ASK] and reason [Awaiting approval], the approval-required
    message is returned in place of a result, and the host registers the
    pending approval for the tool name and the arguments. *)
Theorem ask_pauses_for_approval
    (h : host) (tool_name : string) (arguments : json) :
  let c := base h in
  check_permission (permissions c) tool_name (or_empty arguments) = "ask"%string ->
  let r := tool_record E c tool_name "ASK" "Awaiting approval" in
  let c' := state_after (call_tool_with_permission E tool_name arguments false) c in
  result (call_tool_with_permission E tool_name arguments false) c
    = Returned [TextContent (approval_msg tool_name (or_empty arguments))]
  /\ trace c' = trace c ++ [Audit r]
  /\ tool_calls c' = tool_calls c
  /\ audit_log c' = audit_log c ++ [r]
  /\ (decision r = "ASK"%string /\ reason r = "Awaiting approval"%string)
  /\ (PyStr.mem tool_name synthetic_names = false ->
      let h' := state_after (execute_tool HE tool_name arguments) h in
      result (execute_tool HE tool_name arguments) h
        = Returned (approval_msg tool_name (or_empty arguments))
      /\ base h' = c'
      /\ pending_approval h' = Some (tool_name, arguments)).
Proof.
  intros c Hask r c'.
  pose proof (call_ask E c tool_name arguments Hask) as Hcall. fold r in Hcall.
  unfold c', result, state_after. rewrite Hcall. simpl.
  repeat (split; [first [reflexivity | apply tool_calls_emit_audit
                        | apply audit_log_emit_audit | split; reflexivity] |]).
  intros Hs. rewrite (execute_tool_regular h _ _ Hs). fold c. rewrite Hcall.
  rewrite approval_msg_is_request. repeat split.
Qed.

Lemma chat_affirmative (h : host) (user_message tool_name : string) (arguments : json) :
  pending_approval h = Some (tool_name, arguments) ->
  is_affirmative user_message = true ->
  chat HE user_message h = chat_approved HE user_message tool_name arguments h.
Proof. intros Hp Ha. unfold chat. now rewrite Hp, Ha. Qed.

Lemma chat_approved_eq (h : host) (user_message tool_name : string) (arguments : json) :
  chat_approved HE user_message tool_name arguments h =
    let say (text : string) (c' : client) :=
      (Returned (Some text),
       append_history (MsgAssistant (Some text))
         (append_history (MsgUser user_message) (set_base c' (set_pending None h)))) in
    match call_tool_with_permission E tool_name arguments true (base h) with
    | (Returned res, c') => say (approved_prefix +:+ first_text res) c'
    | (Raised e, c') => say ("Error executing approved operation: " +:+ e) c'
    end.
Proof.
  unfold chat_approved, approved_execution, try_except, bind, inherited, lift, modify.
  simpl. fold E.
  destruct (call_tool_with_permission E tool_name arguments true (base h))
    as [[res|e] c']; reflexivity.
Qed.

Lemma negative_not_affirmative (user_message : string) :
  is_negative user_message = true -> is_affirmative user_message = false.
Proof.
  unfold is_negative, is_affirmative. intros H.
  apply mem_true_iff in H. simpl in H.
  destruct H as [H|[H|[H|[H|[]]]]]; rewrite <- H; reflexivity.
Qed.

(** C9. On the execution path the [ALLOWED] record is appended before
    the tool executor is invoked: the executor starts from a log that
    already holds the record, and the record stays whatever the executor
    answers. When the executor raises, the caller of [execute_tool]
    receives an execution error, which is not a policy denial. *)
Theorem allowed_is_logged_before_execution
    (h : host) (tool_name : string) (arguments : json) (approved : bool) :
  let c := base h in
  let verdict := check_permission (permissions c) tool_name (or_empty arguments) in
  verdict <> "deny"%string ->
  verdict <> "ask"%string \/ approved = true ->
  let r := tool_record E c tool_name "ALLOWED" ("Policy: " +:+ verdict) in
  let c1 := emit (Audit r) c in
  let answer := session_call_tool E (trace c1) tool_name (or_empty arguments) in
  let c' := state_after (call_tool_with_permission E tool_name arguments approved) c in
  result (call_tool_with_permission E tool_name arguments approved) c = answer
  /\ trace c' = trace c ++ [Audit r; ToolCall tool_name (or_empty arguments)]
  /\ audit_log c1 = audit_log c ++ [r]
  /\ audit_log c' = audit_log c ++ [r]
  /\ decision r = "ALLOWED"%string
  /\ (forall e, answer = Raised e ->
       approved = false ->
       PyStr.mem tool_name synthetic_names = false ->
       let h' := state_after (execute_tool HE tool_name arguments) h in
       result (execute_tool HE tool_name arguments) h
         = Returned ("Error executing tool: " +:+ e)
       /\ audit_log (base h') = audit_log c ++ [r]
       /\ forall t, "Error executing tool: " +:+ e <> denied_msg t)
  /\ (forall e user_message, answer = Raised e ->
       approved = true ->
       pending_approval h = Some (tool_name, arguments) ->
       is_affirmative user_message = true ->
       let h' := state_after (chat HE user_message) h in
       result (chat HE user_message) h
         = Returned (Some ("Error executing approved operation: " +:+ e))
       /\ audit_log (base h') = audit_log c ++ [r]
       /\ forall t, "Error executing approved operation: " +:+ e <> denied_msg t).
Proof.
  intros c verdict Hd Ha r c1 answer c'.
  pose proof (call_allow E c tool_name arguments approved Hd Ha) as Hcall.
  fold verdict in Hcall. fold r in Hcall. fold c1 in Hcall. fold answer in Hcall.
  assert (Hlog : audit_log (emit (ToolCall tool_name (or_empty arguments)) c1)
                 = audit_log c ++ [r]).
  { rewrite audit_log_emit_call. apply audit_log_emit_audit. }
  unfold c', result, state_after. rewrite Hcall. simpl.
  split; [reflexivity |]. split; [now rewrite <- app_assoc |].
  split; [apply audit_log_emit_audit |]. split; [exact Hlog |].
  split; [reflexivity |]. split.
  - intros e He Hap Hs. subst approved.
    rewrite (execute_tool_regular h _ _ Hs). fold c. rewrite Hcall, He. simpl.
    split; [reflexivity |]. split; [exact Hlog |].
    intros t. unfold denied_msg. discriminate.
  - intros e user_message He Hap Hp Hyes. subst approved.
    rewrite (chat_affirmative h _ _ _ Hp Hyes), chat_approved_eq.
    fold c. rewrite Hcall, He. simpl.
    split; [reflexivity |]. split; [exact Hlog |].
    intros t. unfold denied_msg. discriminate.
Qed.

(** C1, as the code has it. A request with the approved flag evaluates
    the policy again. Under any verdict but [deny] the call is executed:
    the flag overrides [ask]. Under [deny] the call is refused and
    logged as [DENIED], approved or not. An affirmative reply in [chat]
    is such a request for the stored call. *)
Theorem approval_overrides_ask_only
    (h : host) (tool_name : string) (arguments : json) :
  let c := base h in
  let verdict := check_permission (permissions c) tool_name (or_empty arguments) in
  let c' := state_after (call_tool_with_permission E tool_name arguments true) c in
  (verdict <> "deny"%string ->
     tool_calls c' = tool_calls c ++ [(tool_name, or_empty arguments)]
     /\ audit_log c'
          = audit_log c ++ [tool_record E c tool_name "ALLOWED" ("Policy: " +:+ verdict)])
  /\ (verdict = "deny"%string ->
       result (call_tool_with_permission E tool_name arguments true) c
         = Returned [TextContent (denied_msg tool_name)]
       /\ tool_calls c' = tool_calls c
       /\ audit_log c'
            = audit_log c ++ [tool_record E c tool_name "DENIED" "Policy: deny"])
  /\ (forall user_message,
       pending_approval h = Some (tool_name, arguments) ->
       is_affirmative user_message = true ->
       base (state_after (chat HE user_message) h) = c').
Proof.
  intros c verdict c'. split; [| split].
  - intros Hd.
    pose proof (call_allow E c tool_name arguments true Hd (or_intror eq_refl)) as Hcall.
    unfold c', state_after. rewrite Hcall. simpl.
    rewrite tool_calls_called, tool_calls_emit_audit.
    rewrite audit_log_called, audit_log_emit_audit. split; reflexivity.
  - intros Hd.
    pose proof (call_deny E c tool_name arguments true Hd) as Hcall.
    unfold c', result, state_after. rewrite Hcall. simpl.
    rewrite tool_calls_emit_audit, audit_log_emit_audit. repeat split.
  - intros user_message Hp Hyes. unfold c', state_after.
    rewrite (chat_affirmative h _ _ _ Hp Hyes), chat_approved_eq. fold c.
    destruct (call_tool_with_permission E tool_name arguments true c) as [[res|e] c2];
      reflexivity.
Qed.

(** C2, as the code has it. With a pending approval outstanding, an
    affirmative reply clears the pending state and evaluates the policy
    for the stored call. Unless the verdict is [deny] the call is
    executed exactly once and exactly one audit record is appended: its
    decision is [ALLOWED] and its reason is the evaluated verdict,
    [Policy: ask] for instance. *)
Theorem affirmative_reply_runs_pending_call
    (h : host) (user_message tool_name : string) (arguments : json) :
  let c := base h in
  let verdict := check_permission (permissions c) tool_name (or_empty arguments) in
  pending_approval h = Some (tool_name, arguments) ->
  is_affirmative user_message = true ->
  let r := tool_record E c tool_name "ALLOWED" ("Policy: " +:+ verdict) in
  let h' := state_after (chat HE user_message) h in
  pending_approval h' = None
  /\ (verdict <> "deny"%string ->
      trace (base h') = trace c ++ [Audit r; ToolCall tool_name (or_empty arguments)]
      /\ tool_calls (base h') = tool_calls c ++ [(tool_name, or_empty arguments)]
      /\ audit_log (base h') = audit_log c ++ [r]
      /\ decision r = "ALLOWED"%string
      /\ reason r = ("Policy: " +:+ verdict)%string).
Proof.
  intros c verdict Hp Hyes r h'.
  unfold h', state_after.
  rewrite (chat_affirmative h _ _ _ Hp Hyes), chat_approved_eq. fold c.
  split.
  - now destruct (call_tool_with_permission E tool_name arguments true c) as [[res|e] c2].
  - intros Hd.
    pose proof (call_allow E c tool_name arguments true Hd (or_intror eq_refl)) as Hcall.
    fold verdict in Hcall. fold r in Hcall. rewrite Hcall.
    destruct (session_call_tool E (trace (emit (Audit r) c)) tool_name (or_empty arguments))
      as [res|e]; simpl;
      rewrite tool_calls_called, tool_calls_emit_audit,
              audit_log_called, audit_log_emit_audit, <- app_assoc;
      repeat split.
Qed.

(** C3, as the code has it. With a pending approval outstanding, a
    negative reply executes no tool, clears the pending state and
    returns the cancellation notice. It appends nothing to the audit
    log: no [ALLOWED] record, and no record of the cancellation. *)
Theorem negative_reply_discards_pending_call
    (h : host) (user_message : string) (p : string * json) :
  pending_approval h = Some p ->
  is_negative user_message = true ->
  let h' := state_after (chat HE user_message) h in
  result (chat HE user_message) h = Returned (Some "Operation cancelled by user."%string)
  /\ pending_approval h' = None
  /\ base h' = base h
  /\ tool_calls (base h') = tool_calls (base h)
  /\ audit_log (base h') = audit_log (base h)
  /\ conversation_history h'
       = conversation_history h
         ++ [MsgUser user_message; MsgAssistant (Some "Operation cancelled by user."%string)].
Proof.
  intros Hp Hno h'. unfold h', result, state_after, chat.
  rewrite Hp. destruct p as [t a].
  rewrite (negative_not_affirmative _ Hno), Hno. simpl.
  rewrite <- app_assoc. repeat split.
Qed.

End mediation.

(** ** Effects of an ordinary chat turn *)

Section guarded_turn.
Import Json Eff Client Host.

Variable HE : host_env.

Lemma guarded_base_unchanged {A} (m : M host A) :
  (forall h, base (state_after m h) = base h) -> guarded m.
Proof.
  intros Hm h. rewrite Hm. split; [reflexivity |].
  exists []. rewrite app_nil_r. split; [reflexivity | constructor].
Qed.

Lemma guarded_bind {A B} (m : M host A) (k : A -> M host B) :
  guarded m -> (forall a, guarded (k a)) -> guarded (bind m k).
Proof.
  intros Hm Hk h. unfold state_after, bind.
  destruct (Hm h) as (Hp & ex & Ht & Hf). unfold state_after in *.
  destruct (m h) as [[a|e] h1]; simpl in *.
  - destruct (Hk a h1) as (Hp' & ex' & Ht' & Hf'). unfold state_after in *.
    split; [congruence |].
    exists (ex ++ ex'). rewrite Ht', Ht, app_assoc. split; [reflexivity |].
    apply Forall_app. split; [exact Hf | now rewrite <- Hp].
  - split; [exact Hp |]. now exists ex.
Qed.

Lemma guarded_try_except {A} (m : M host A) (handler : string -> M host A) :
  guarded m -> (forall e, guarded (handler e)) -> guarded (try_except m handler).
Proof.
  intros Hm Hk h. unfold state_after, try_except.
  destruct (Hm h) as (Hp & ex & Ht & Hf). unfold state_after in *.
  destruct (m h) as [[a|e] h1]; simpl in *.
  - split; [exact Hp |]. now exists ex.
  - destruct (Hk e h1) as (Hp' & ex' & Ht' & Hf'). unfold state_after in *.
    split; [congruence |].
    exists (ex ++ ex'). rewrite Ht', Ht, app_assoc. split; [reflexivity |].
    apply Forall_app. split; [exact Hf | now rewrite <- Hp].
Qed.

Lemma guarded_for_each {A} (l : list A) (body : A -> M host unit) :
  (forall x, guarded (body x)) -> guarded (for_each l body).
Proof.
  intros Hb. induction l as [|x l IH]; simpl.
  - now apply guarded_base_unchanged.
  - apply guarded_bind; [apply Hb | intros _; exact IH].
Qed.

(** Without the approved flag, the call reaches the executor only under
    a verdict that is neither [deny] nor [ask]. *)
Lemma guarded_call (tool_name : string) (arguments : json) :
  guarded (inherited (call_tool_with_permission (base_env HE) tool_name arguments false)).
Proof.
  intros h. unfold state_after, inherited, lift.
  set (verdict := check_permission (permissions (base h)) tool_name (or_empty arguments)).
  destruct (String.eqb_spec verdict "deny") as [Hd|Hd].
  - rewrite (call_deny _ _ _ _ _ Hd). simpl. split; [reflexivity |].
    eexists. split; [reflexivity |]. repeat constructor.
  - destruct (String.eqb_spec verdict "ask") as [Ha|Ha].
    + rewrite (call_ask _ _ _ _ Ha). simpl. split; [reflexivity |].
      eexists. split; [reflexivity |]. repeat constructor.
    + rewrite (call_allow _ _ _ _ false Hd (or_introl Ha)). simpl.
      split; [reflexivity |].
      eexists. rewrite <- app_assoc. split; [reflexivity |].
      constructor; [exact I |]. constructor; [| constructor].
      simpl. split; assumption.
Qed.

Lemma guarded_execute_tool (tool_name : string) (arguments : json) :
  guarded (execute_tool HE tool_name arguments).
Proof.
  unfold execute_tool. destruct (PyStr.mem tool_name synthetic_names).
  - now apply guarded_base_unchanged.
  - apply guarded_try_except.
    + apply guarded_bind; [apply guarded_call |].
      intros [|[text|repr] rest]; try now apply guarded_base_unchanged.
      apply guarded_bind; [| intros _; now apply guarded_base_unchanged].
      destruct (is_approval_request text); now apply guarded_base_unchanged.
    + intros e. now apply guarded_base_unchanged.
Qed.

Lemma guarded_run_tool_call (tc : tool_call) : guarded (run_tool_call HE tc).
Proof.
  unfold run_tool_call. destruct (loads (tc_arguments tc)) as [args|].
  - apply guarded_bind; [now apply guarded_base_unchanged |]. intros _.
    apply guarded_bind; [apply guarded_execute_tool |]. intros text.
    now apply guarded_base_unchanged.
  - now apply guarded_base_unchanged.
Qed.

Lemma guarded_chat_llm (user_message : string) : guarded (chat_llm HE user_message).
Proof.
  unfold chat_llm.
  apply guarded_bind; [now apply guarded_base_unchanged |]. intros _.
  apply guarded_bind; [now apply guarded_base_unchanged |]. intros tools.
  apply guarded_bind; [now apply guarded_base_unchanged |]. intros [am|].
  - destruct (am_tool_calls am) as [|tc calls].
    + apply guarded_bind; intros; now apply guarded_base_unchanged.
    + apply guarded_bind; [now apply guarded_base_unchanged |]. intros _.
      apply guarded_bind; [apply guarded_for_each, guarded_run_tool_call |]. intros _.
      apply guarded_bind; [now apply guarded_base_unchanged |]. intros [fm|].
      * apply guarded_bind; intros; now apply guarded_base_unchanged.
      * now apply guarded_base_unchanged.
  - now apply guarded_base_unchanged.
Qed.

Lemma call_keeps_permissions (c : client) (tool_name : string) (arguments : json)
    (approved : bool) :
  permissions (state_after
    (call_tool_with_permission (base_env HE) tool_name arguments approved) c)
  = permissions c.
Proof.
  unfold state_after, call_tool_with_permission, bind, gets, log_audit, modify, call_tool.
  destruct (String.eqb _ "deny"); [reflexivity |].
  destruct (String.eqb _ "ask" && negb approved)%bool; reflexivity.
Qed.

(** C10, as the code has it. On an affirmative reply the pending
    approval is cleared before the approved execution is attempted, so
    none is outstanding afterwards, also when the execution raises. A
    repeated affirmative reply finds nothing pending: it is an ordinary
    message for the language model, whose tool requests go through
    [execute_tool], without the approved flag. A request for the call
    does not reach the executor while its verdict is [ask] or [deny], so
    the call that was paused under [ask] is not executed again. For the
    whole turn of the repeated reply, with tool calls whose arguments the
    decoder covers: no call reaches the executor under a verdict [ask] or
    [deny]. *)
Theorem approval_clears_pending_first
    (h : host) (reply again tool_name : string) (arguments : json) :
  pending_approval h = Some (tool_name, arguments) ->
  is_affirmative reply = true ->
  is_affirmative again = true ->
  let perms := permissions (base h) in
  let h1 := state_after (chat HE reply) h in
  let h2 := state_after (chat HE again) h1 in
  chat HE reply h = approved_execution HE reply tool_name arguments (set_pending None h)
  /\ pending_approval h1 = None
  /\ (forall e,
       result (call_tool_with_permission (base_env HE) tool_name arguments true) (base h)
         = Raised e ->
       result (chat HE reply) h
         = Returned (Some ("Error executing approved operation: " +:+ e))
       /\ pending_approval h1 = None)
  /\ chat HE again h1 = chat_llm HE again h1
  /\ (forall h',
       permissions (base h') = perms ->
       check_permission perms tool_name (or_empty arguments) = "ask"%string
       \/ check_permission perms tool_name (or_empty arguments) = "deny"%string ->
       tool_calls (base (state_after (execute_tool HE tool_name arguments) h'))
       = tool_calls (base h'))
  /\ (Turn.within_model HE ->
      exists extra,
        trace (base h2) = trace (base h1) ++ extra
        /\ Forall (permitted perms) extra
        /\ (check_permission perms tool_name (or_empty arguments) = "ask"%string ->
            ~ In (ToolCall tool_name (or_empty arguments)) extra)).
Proof.
  intros Hp Hyes Hyes2 perms h1 h2.
  assert (Hchat : chat HE reply h
                  = approved_execution HE reply tool_name arguments (set_pending None h)).
  { unfold chat. now rewrite Hp, Hyes. }
  assert (Hnone : pending_approval h1 = None /\ permissions (base h1) = perms).
  { unfold h1, state_after. rewrite Hchat.
    unfold approved_execution, try_except, bind, inherited, lift, modify. simpl.
    pose proof (call_keeps_permissions (base h) tool_name arguments true) as Hk.
    unfold state_after in Hk.
    destruct (call_tool_with_permission (base_env HE) tool_name arguments true (base h))
      as [[res|e] c']; simpl in *; now split. }
  destruct Hnone as [Hnone Hperms].
  assert (Hllm : chat HE again h1 = chat_llm HE again h1).
  { unfold chat. now rewrite Hnone. }
  split; [exact Hchat |]. split; [exact Hnone |].
  split; [| split; [exact Hllm |]; split].
  - intros e He. split; [| exact Hnone].
    unfold result in *. rewrite Hchat.
    unfold approved_execution, try_except, bind, inherited, lift, modify. simpl.
    destruct (call_tool_with_permission (base_env HE) tool_name arguments true (base h))
      as [[res|e'] c']; simpl in *; [discriminate | congruence].
  - intros h' Hp' Hv. unfold state_after.
    destruct (PyStr.mem tool_name synthetic_names) eqn:Hs.
    + unfold execute_tool. rewrite Hs. reflexivity.
    + rewrite (execute_tool_regular HE h' _ _ Hs). rewrite <- Hp' in Hv.
      destruct Hv as [Ha|Hd].
      * rewrite (call_ask _ _ _ _ Ha). simpl.
        destruct (is_approval_request _); apply tool_calls_emit_audit.
      * rewrite (call_deny _ _ _ _ false Hd). simpl.
        destruct (is_approval_request _); apply tool_calls_emit_audit.
  - intros _. destruct (guarded_chat_llm again h1) as (_ & extra & Ht & Hf).
    exists extra. unfold h2, state_after. rewrite Hllm. rewrite Hperms in Hf.
    split; [exact Ht |]. split; [exact Hf |].
    intros Hask Hin. rewrite Forall_forall in Hf.
    apply list_elem_of_In in Hin.
    specialize (Hf _ Hin). simpl in Hf. now destruct Hf.
Qed.

End guarded_turn.

(** ** Dictionaries and the order of their items *)

Section dict_facts.
Context {V : Type}.
Implicit Types (d l : list (string * V)) (x y : string * V) (k : string).

Lemma get_Some_elem k d (v : V) : PyDict.get k d = Some v -> (k, v) ∈ d.
Proof.
  induction d as [|[k' v'] d IH]; simpl; [discriminate |].
  destruct (String.eqb_spec k k') as [->|Hne].
  - intros [= ->]. now left.
  - intros H. right. now apply IH.
Qed.

Lemma elem_key k d (v : V) : (k, v) ∈ d -> k ∈ PyDict.keys d.
Proof.
  intros H. apply list_elem_of_In. apply list_elem_of_In in H.
  exact (List.in_map fst d (k, v) H).
Qed.

Lemma elem_get_Some k d (v : V) :
  PyDict.wf d -> (k, v) ∈ d -> PyDict.get k d = Some v.
Proof.
  unfold PyDict.wf.
  induction d as [|[k' v'] d IH]; simpl; [now intros _ ?%elem_of_nil |].
  intros [Hk' Hnd]%NoDup_cons Hin. apply elem_of_cons in Hin as [[= -> ->]|Hin].
  - now rewrite String.eqb_refl.
  - destruct (String.eqb_spec k k') as [->|Hne]; [| now apply IH].
    destruct Hk'. now apply elem_key in Hin.
Qed.

Lemma wf_same_key d x y : PyDict.wf d -> x ∈ d -> y ∈ d -> fst x = fst y -> x = y.
Proof.
  intros Hwf Hx Hy Hk. destruct x as [k v], y as [k' v']. simpl in Hk. subst k'.
  apply (elem_get_Some _ _ _ Hwf) in Hx, Hy. congruence.
Qed.

Lemma insert_item_perm x l : Permutation (PyDict.insert_item x l) (x :: l).
Proof.
  induction l as [|y l IH]; simpl; [reflexivity |].
  destruct (String.leb (fst x) (fst y)); [reflexivity |].
  rewrite IH. apply perm_swap.
Qed.

Lemma sorted_items_perm l : Permutation (PyDict.sorted_items l) l.
Proof.
  induction l as [|x l IH]; simpl; [reflexivity |].
  rewrite insert_item_perm. now rewrite IH.
Qed.

#[local] Instance key_le_trans : Transitive (@PyDict.key_le V).
Proof. intros x y z. unfold PyDict.key_le. apply transitivity. Qed.

Lemma leb_false_key_le x y : String.leb (fst x) (fst y) = false -> PyDict.key_le y x.
Proof.
  intros H. unfold PyDict.key_le, String.le.
  destruct (String.leb_total (fst x) (fst y)) as [Hxy|Hyx]; [congruence |].
  now rewrite Hyx.
Qed.

Lemma insert_item_HdRel x y l :
  PyDict.key_le y x -> HdRel PyDict.key_le y l ->
  HdRel PyDict.key_le y (PyDict.insert_item x l).
Proof.
  intros Hyx Hl. destruct l as [|z l]; simpl; [now constructor |].
  destruct (String.leb (fst x) (fst z)); constructor; [exact Hyx |].
  now inversion Hl.
Qed.

Lemma insert_item_sorted x l :
  Sorted PyDict.key_le l -> Sorted PyDict.key_le (PyDict.insert_item x l).
Proof.
  induction 1 as [|y l Hs IH Hhd]; simpl; [repeat constructor |].
  destruct (String.leb (fst x) (fst y)) eqn:Hxy.
  - constructor; [now constructor |]. constructor.
    unfold PyDict.key_le, String.le. now rewrite Hxy.
  - constructor; [exact IH |].
    apply insert_item_HdRel; [now apply leb_false_key_le | exact Hhd].
Qed.

Lemma sorted_items_sorted l : Sorted PyDict.key_le (PyDict.sorted_items l).
Proof.
  induction l as [|x l IH]; simpl; [constructor | now apply insert_item_sorted].
Qed.

(** Two dictionaries with the same items are sorted into the same list. *)
Lemma sorted_items_unique l1 l2 :
  PyDict.wf l1 -> Permutation l1 l2 -> PyDict.sorted_items l1 = PyDict.sorted_items l2.
Proof.
  intros Hwf Hperm.
  apply (Sorted_unique_strong PyDict.key_le); try apply sorted_items_sorted.
  - intros x1 x2 H1 H2 H12 H21.
    rewrite sorted_items_perm in H1. rewrite sorted_items_perm, <- Hperm in H2.
    apply (wf_same_key l1 x1 x2 Hwf H1 H2).
    unfold PyDict.key_le in *. now apply (anti_symm String.le).
  - now rewrite !sorted_items_perm.
Qed.

End dict_facts.

Section sort_map.
Context {V W : Type} (f : V -> W).

Let on_values (kv : string * V) : string * W := (fst kv, f (snd kv)).

Lemma insert_item_map (x : string * V) (l : list (string * V)) :
  PyDict.insert_item (on_values x) (List.map on_values l)
  = List.map on_values (PyDict.insert_item x l).
Proof.
  induction l as [|y l IH]; simpl; [reflexivity |].
  destruct (String.leb (fst x) (fst y)); simpl; [reflexivity | now rewrite IH].
Qed.

(** Ordering the items by key and encoding their values commute. *)
Lemma sorted_items_map (l : list (string * V)) :
  PyDict.sorted_items (List.map on_values l)
  = List.map on_values (PyDict.sorted_items l).
Proof.
  induction l as [|x l IH]; simpl; [reflexivity |].
  now rewrite IH, insert_item_map.
Qed.

Lemma keys_map (l : list (string * V)) :
  PyDict.keys (List.map on_values l) = PyDict.keys l.
Proof. unfold PyDict.keys. rewrite List.map_map. reflexivity. Qed.

End sort_map.

(** ** The canonical serialization *)

Section canonical.
Import Json.

Lemma json_induction (P : json -> Prop) :
  P JNull ->
  (forall b, P (JBool b)) ->
  (forall z, P (JInt z)) ->
  (forall s, P (JStr s)) ->
  (forall l, Forall P l -> P (JArray l)) ->
  (forall d, Forall (fun kv => P (snd kv)) d -> P (JObject d)) ->
  forall v, P v.
Proof.
  intros Hnull Hbool Hint Hstr Harr Hobj. fix IH 1. intros [ |b|z|s|l|d].
  - exact Hnull.
  - apply Hbool.
  - apply Hint.
  - apply Hstr.
  - apply Harr. induction l as [|x l IHl]; constructor; [apply IH | exact IHl].
  - apply Hobj. induction d as [|[k x] d IHd]; constructor; [apply IH | exact IHd].
Qed.

Lemma encode_array (sort_keys : bool) (indent : option nat) (level : nat) (l : list json) :
  encode sort_keys indent level (JArray l)
  = bracket "[" "]" indent level (List.map (encode sort_keys indent (S level)) l).
Proof. reflexivity. Qed.

(** The members of an object are put in the order of their keys and
    then encoded, when [sort_keys] is set; otherwise they are encoded
    in the order of insertion. *)
Lemma encode_object (sort_keys : bool) (indent : option nat) (level : nat)
    (d : list (string * json)) :
  encode sort_keys indent level (JObject d)
  = bracket "{" "}" indent level
      (List.map
         (fun kv => encode_basestring_ascii (fst kv) +:+ ": "
                    +:+ encode sort_keys indent (S level) (snd kv))
         (if sort_keys then PyDict.sorted_items d else d)).
Proof.
  change (encode sort_keys indent level (JObject d)) with
    (bracket "{" "}" indent level
       (List.map encode_member
          (if sort_keys
           then PyDict.sorted_items
                  (List.map (fun kv => (fst kv, encode sort_keys indent (S level) (snd kv))) d)
           else List.map (fun kv => (fst kv, encode sort_keys indent (S level) (snd kv))) d))).
  f_equal. destruct sort_keys.
  - rewrite (sorted_items_map (encode true indent (S level))).
    now rewrite List.map_map.
  - now rewrite List.map_map.
Qed.

Lemma distinct_NoDup (keys : list string) : distinct keys = true -> NoDup keys.
Proof.
  induction keys as [|k r IH]; simpl; [constructor |].
  intros [Hk Hr]%andb_prop. constructor; [| now apply IH].
  intros Hin%list_elem_of_In%mem_true_iff. now rewrite Hin in Hk.
Qed.

(** Logically equal documents have the same canonical serialization. *)
Lemma encode_same_value (a : json) :
  forall b, well_formed a = true -> well_formed b = true -> same_value a b = true ->
  forall indent level, encode true indent level a = encode true indent level b.
Proof.
  induction a as [ |x|x|x|l IH|d IH] using json_induction;
    intros [ |y|y|y|l'|d'] Hwa Hwb Hs indent level; try discriminate Hs.
  - reflexivity.
  - simpl in Hs. apply Bool.eqb_prop in Hs. now subst.
  - simpl in Hs. apply Z.eqb_eq in Hs. now subst.
  - simpl in Hs. apply String.eqb_eq in Hs. now subst.
  - rewrite !encode_array. f_equal.
    simpl in Hwa, Hwb, Hs. revert l' Hwb Hs.
    induction l as [|v l IHl]; intros [|v' l'] Hwb Hs; try discriminate Hs; [reflexivity |].
    simpl in Hwa, Hwb. apply andb_prop in Hwa as [Hv Hl], Hwb as [Hv' Hl'], Hs as [Hvv Hll].
    apply Forall_cons in IH as [IHv IH]. simpl. f_equal.
    + now apply IHv.
    + now apply IHl.
  - change (encode true indent level (JObject d)) with
      (bracket "{" "}" indent level (List.map encode_member (PyDict.sorted_items
         (List.map (fun kv => (fst kv, encode true indent (S level) (snd kv))) d)))).
    change (encode true indent level (JObject d')) with
      (bracket "{" "}" indent level (List.map encode_member (PyDict.sorted_items
         (List.map (fun kv => (fst kv, encode true indent (S level) (snd kv))) d')))).
    do 2 f_equal.
    set (g := fun kv : string * json => (fst kv, encode true indent (S level) (snd kv))).
    simpl in Hwa, Hwb, Hs.
    apply andb_prop in Hwa as [Hk Hv], Hwb as [Hk' Hv'], Hs as [Hlen Hall].
    apply distinct_NoDup in Hk, Hk'. apply Nat.eqb_eq in Hlen.
    rewrite List.forallb_forall in Hv, Hv', Hall. rewrite Forall_forall in IH.
    assert (Hwf : PyDict.wf (List.map g d)).
    { unfold PyDict.wf. now rewrite (keys_map (encode true indent (S level))). }
    apply sorted_items_unique; [exact Hwf |].
    apply submseteq_length_Permutation; [| now rewrite !List.length_map, Hlen].
    apply NoDup_submseteq.
    { apply (NoDup_fmap_1 fst). exact Hwf. }
    intros x Hx. apply list_elem_of_In, List.in_map_iff in Hx as ([k v] & <- & Hin).
    specialize (Hall _ Hin). simpl in Hall.
    destruct (PyDict.get k d') as [v'|] eqn:Hget; [| discriminate].
    apply get_Some_elem in Hget. apply list_elem_of_In in Hget.
    apply list_elem_of_In, List.in_map_iff. exists (k, v'). split; [| exact Hget].
    unfold g. simpl. f_equal. symmetry.
    apply (IH (k, v)); [now apply list_elem_of_In | exact (Hv _ Hin) | exact (Hv' _ Hget)
                       | exact Hall].
Qed.

(** C7. Two argument dictionaries with the same keys mapped to the same
    values, in whatever order they were built, have the same canonical
    serialization, hence the same composite policy key, and evaluate to
    the same verdict. *)
Theorem canonical_arguments_order_independent
    (d1 d2 : list (string * json)) (perms : list (string * string)) (tool_name : string) :
  well_formed (JObject d1) = true ->
  well_formed (JObject d2) = true ->
  same_value (JObject d1) (JObject d2) = true ->
  dumps true None (JObject d1) = dumps true None (JObject d2)
  /\ Client.check_permission perms tool_name (JObject d1)
     = Client.check_permission perms tool_name (JObject d2).
Proof.
  intros H1 H2 Hs.
  assert (Heq : dumps true None (JObject d1) = dumps true None (JObject d2))
    by (unfold dumps; now apply encode_same_value).
  split; [exact Heq |]. unfold Client.check_permission. now rewrite Heq.
Qed.

End canonical.

(** ** Reading back what [json.dumps] wrote *)

Section roundtrip.
Import Json.

Lemma string_length_append (a b : string) :
  String.length (a +:+ b) = (String.length a + String.length b)%nat.
Proof. induction a as [|c a IH]; simpl; [reflexivity | now rewrite IH]. Qed.

(** The decoder undoes the escape of one character. *)
Lemma scanstring_escape_char (c : ascii) (rest : string) :
  scanstring (escape_char c +:+ rest) = cons_char c (scanstring rest).
Proof. destruct c as [[] [] [] [] [] [] [] []]; reflexivity. Qed.

Lemma scanstring_escape (s rest : string) :
  scanstring (escape s +:+ String PyStr.quote rest) = Some (s, rest).
Proof.
  induction s as [|c s IH]; [reflexivity |].
  simpl escape. rewrite append_assoc, scanstring_escape_char, IH. reflexivity.
Qed.

Lemma enc_append (v rest : string) :
  encode_basestring_ascii v +:+ rest
  = String PyStr.quote (escape v +:+ String PyStr.quote rest).
Proof. unfold encode_basestring_ascii. simpl. now rewrite append_assoc. Qed.

Lemma parse_value_string (fuel : nat) (v rest : string) :
  (0 < fuel)%nat ->
  parse_value fuel (String PyStr.quote (escape v +:+ String PyStr.quote rest))
  = Some (JStr v, rest).
Proof.
  destruct fuel as [|fuel]; [lia |]. intros _. simpl. now rewrite scanstring_escape.
Qed.

(** A flat object of strings as [json.dumps(d, indent=2)] writes it. *)
Let member_text (e : string * string) : string :=
  encode_basestring_ascii (fst e) +:+ ": " +:+ encode_basestring_ascii (snd e).

Let to_json (e : string * string) : string * json := (fst e, JStr (snd e)).

Let tail_text (es : list (string * string)) : string :=
  fold_right (fun e t => item_separator (Some 2%nat) 1 +:+ member_text e +:+ t)
    (newline_indent (Some 2%nat) 0 +:+ "}") es.

Lemma tail_text_cons (e : string * string) (es : list (string * string)) :
  tail_text (e :: es)
  = String "," (String PyStr.newline (String " " (String " " (String PyStr.quote
      (escape (fst e) +:+ String PyStr.quote
         (": " +:+ encode_basestring_ascii (snd e) +:+ tail_text es)))))).
Proof.
  change (tail_text (e :: es))
    with (item_separator (Some 2%nat) 1 +:+ member_text e +:+ tail_text es).
  unfold member_text. rewrite !append_assoc, (enc_append (fst e)). reflexivity.
Qed.

Lemma join_tail (x : string) (es : list (string * string)) :
  PyStr.join (item_separator (Some 2%nat) 1) (x :: List.map member_text es)
    +:+ newline_indent (Some 2%nat) 0 +:+ "}"
  = x +:+ tail_text es.
Proof.
  revert x. induction es as [|e es IH]; intros x.
  - reflexivity.
  - change (PyStr.join ?s (x :: List.map member_text (e :: es)))
      with (x +:+ s +:+ PyStr.join s (member_text e :: List.map member_text es)).
    rewrite !append_assoc, IH. reflexivity.
Qed.

Lemma tail_text_length (es : list (string * string)) :
  (length es + 2 <= String.length (tail_text es))%nat.
Proof.
  induction es as [|e es IH]; [simpl; lia |].
  rewrite tail_text_cons. simpl. rewrite string_length_append. simpl.
  rewrite string_length_append. lia.
Qed.

(** The member loop of the decoder reads the members back in order. *)
Lemma parse_members_text (es : list (string * string)) :
  forall (k v : string) (acc : list (string * json)) (fuel : nat),
    (length es + 1 < fuel)%nat ->
    parse_members fuel
      (escape k +:+ String PyStr.quote
         (": " +:+ encode_basestring_ascii v +:+ tail_text es)) acc
    = Some (JObject (PyDict.of_pairs (acc ++ (k, JStr v) :: List.map to_json es)),
            EmptyString).
Proof.
  induction es as [|e es IH]; intros k v acc fuel Hf;
    (destruct fuel as [|fuel]; [simpl in Hf; lia |]);
    rewrite enc_append; [| rewrite tail_text_cons];
    simpl parse_members; rewrite scanstring_escape;
    simpl; rewrite parse_value_string by (simpl in Hf; lia).
  - reflexivity.
  - simpl. etrans; [apply IH; simpl in Hf; lia |].
    rewrite <- app_assoc. reflexivity.
Qed.

Lemma parse_value_open (n : nat) (r : string) :
  parse_value (S n)
    (skip_ws (String "{" (String PyStr.newline (String " " (String " "
       (String PyStr.quote r))))))
  = parse_members n r [].
Proof. reflexivity. Qed.

Lemma loads_flat_object (e : string * string) (es : list (string * string)) :
  loads (String "{" (String PyStr.newline (String " " (String " " (String PyStr.quote
           (escape (fst e) +:+ String PyStr.quote
              (": " +:+ encode_basestring_ascii (snd e) +:+ tail_text es)))))))
  = Some (JObject (PyDict.of_pairs (List.map to_json (e :: es)))).
Proof.
  unfold loads.
  match goal with
  | |- context [String.length ?t] =>
      assert (Hlen : (length es + 1 < String.length t)%nat);
      [| revert Hlen; generalize (String.length t) as n; intros n Hlen]
  end.
  { simpl. rewrite !string_length_append. simpl.
    rewrite !string_length_append. pose proof (tail_text_length es). lia. }
  rewrite parse_value_open, parse_members_text by exact Hlen. reflexivity.
Qed.

Lemma dumps_flat_object (e : string * string) (es : list (string * string)) :
  dumps false (Some 2%nat) (JObject (List.map to_json (e :: es)))
  = String "{" (String PyStr.newline (String " " (String " " (String PyStr.quote
      (escape (fst e) +:+ String PyStr.quote
         (": " +:+ encode_basestring_ascii (snd e) +:+ tail_text es)))))).
Proof.
  unfold dumps. rewrite encode_object, List.map_map.
  change (List.map _ (e :: es)) with (member_text e :: List.map member_text es).
  unfold bracket. rewrite join_tail.
  unfold member_text at 1. rewrite !append_assoc, (enc_append (fst e)). reflexivity.
Qed.

Lemma set_fresh {V} (k : string) (v : V) (d : list (string * V)) :
  k ∉ PyDict.keys d -> PyDict.set k v d = d ++ [(k, v)].
Proof.
  induction d as [|[k' v'] d IH]; simpl; [reflexivity |].
  intros Hk. apply not_elem_of_cons in Hk as [Hne Hk].
  apply String.eqb_neq in Hne. rewrite Hne. now rewrite IH.
Qed.

Lemma fold_set_fresh {V} (d acc : list (string * V)) :
  PyDict.wf (acc ++ d) ->
  fold_left (fun d kv => PyDict.set (fst kv) (snd kv) d) d acc = acc ++ d.
Proof.
  revert acc. induction d as [|[k v] d IH]; intros acc Hwf; simpl.
  - now rewrite app_nil_r.
  - rewrite set_fresh.
    + rewrite IH; rewrite <- app_assoc; [reflexivity | exact Hwf].
    + unfold PyDict.wf, PyDict.keys in Hwf. rewrite List.map_app in Hwf.
      apply NoDup_app in Hwf as (_ & Hdisj & _).
      intros Hin. apply (Hdisj k Hin). now left.
Qed.

Lemma of_pairs_wf {V} (d : list (string * V)) : PyDict.wf d -> PyDict.of_pairs d = d.
Proof. intros Hwf. unfold PyDict.of_pairs. now rewrite fold_set_fresh. Qed.

Lemma permissions_of_members_json (p : list (string * string)) :
  Client.permissions_of_members (List.map to_json p) = Some p.
Proof.
  induction p as [|[k v] p IH]; simpl; [reflexivity | now rewrite IH].
Qed.

(** The permissions file is read back as the store that was saved. *)
Lemma load_saved_permissions (p : list (string * string)) :
  PyDict.wf p ->
  Client.load_permissions (Some (dumps false (Some 2%nat) (Client.json_of_permissions p)))
  = Some p.
Proof.
  intros Hwf. unfold Client.load_permissions, Client.json_of_permissions.
  change (fun kv : string * string => (fst kv, JStr (snd kv))) with to_json.
  destruct p as [|e es]; [reflexivity |].
  rewrite dumps_flat_object, loads_flat_object, of_pairs_wf.
  - apply permissions_of_members_json.
  - unfold PyDict.wf. now rewrite (keys_map JStr).
Qed.

End roundtrip.

(** ** The policy store and its file *)

Section policy_store.
Import Json Eff Client ClientApp.

Lemma get_set_eq {V} (k : string) (v : V) (d : list (string * V)) :
  PyDict.get k (PyDict.set k v d) = Some v.
Proof.
  induction d as [|[k' v'] d IH]; simpl.
  - now rewrite String.eqb_refl.
  - destruct (String.eqb k k') eqn:Hk; simpl; rewrite ?String.eqb_refl, ?Hk; auto.
Qed.

Lemma elem_keys_set {V} (x k : string) (v : V) (d : list (string * V)) :
  x ∈ PyDict.keys (PyDict.set k v d) <-> x = k \/ x ∈ PyDict.keys d.
Proof.
  induction d as [|[k' v'] d IH]; simpl.
  - unfold PyDict.keys. simpl. rewrite list_elem_of_singleton, elem_of_nil. tauto.
  - destruct (String.eqb_spec k k') as [->|Hk]; unfold PyDict.keys in *; simpl.
    + rewrite !elem_of_cons. tauto.
    + rewrite !elem_of_cons, IH. tauto.
Qed.

Lemma wf_set {V} (k : string) (v : V) (d : list (string * V)) :
  PyDict.wf d -> PyDict.wf (PyDict.set k v d).
Proof.
  unfold PyDict.wf. induction d as [|[k' v'] d IH]; simpl.
  - intros _. unfold PyDict.keys. simpl. apply NoDup_singleton.
  - unfold PyDict.keys. simpl. intros [Hk' Hd]%NoDup_cons.
    destruct (String.eqb_spec k k') as [->|Hk]; simpl.
    + now apply NoDup_cons.
    + apply NoDup_cons. split; [| now apply IH].
      intros Hin. apply elem_keys_set in Hin as [->|Hin]; [now apply Hk | now apply Hk'].
Qed.

(** What [gui_configure_permission] does for a key it accepts. *)
Lemma configure_accepted (c : client) (tool_name policy : string) :
  tool_name <> EmptyString ->
  In policy ["allow"; "deny"; "ask"]%string ->
  let p := PyDict.set tool_name policy (permissions c) in
  state_after (gui_configure_permission tool_name policy) c
  = {| permissions := p;
       permissions_file := Some (dumps false (Some 2%nat) (json_of_permissions p));
       trace := trace c |}.
Proof.
  intros Hne Hpol p. unfold gui_configure_permission.
  destruct tool_name as [|ch rest]; [now destruct Hne |]. simpl PyStr.is_empty.
  apply mem_true_iff in Hpol. rewrite Hpol. reflexivity.
Qed.

(** C8, as the code has it. For every non-empty policy key and every
    verdict among [allow], [deny] and [ask], the set-policy operation
    writes the store to the file before it returns, and a fresh client
    started from that file holds the same store: the key is mapped to
    the verdict that was set, and every evaluation gives the verdict the
    running client gives. *)
Theorem policy_persistence_round_trip (c : client) (tool_name policy : string) :
  PyDict.wf (permissions c) ->
  tool_name <> EmptyString ->
  In policy ["allow"; "deny"; "ask"]%string ->
  let c' := state_after (gui_configure_permission tool_name policy) c in
  permissions_file c'
    = Some (dumps false (Some 2%nat) (json_of_permissions (permissions c')))
  /\ exists fresh,
       Client.init (permissions_file c') = Some fresh
       /\ permissions fresh = permissions c'
       /\ PyDict.get tool_name (permissions fresh) = Some policy
       /\ (forall t a, check_permission (permissions fresh) t a
                       = check_permission (permissions c') t a)
       /\ (forall t a, tool_name = t +:+ ":" +:+ dumps true None a ->
                       check_permission (permissions fresh) t a = policy)
       /\ (forall a, PyDict.get (tool_name +:+ ":" +:+ dumps true None a)
                       (permissions fresh) = None ->
                     check_permission (permissions fresh) tool_name a = policy).
Proof.
  intros Hwf Hne Hpol c'.
  pose proof (configure_accepted c tool_name policy Hne Hpol) as Hc'.
  fold c' in Hc'. cbv zeta in Hc'. rewrite Hc'. cbn [permissions permissions_file].
  split; [reflexivity |].
  eexists. unfold Client.init.
  rewrite load_saved_permissions by now apply wf_set.
  split; [reflexivity |]. cbn [permissions permissions_file].
  split; [reflexivity |]. split; [apply get_set_eq |]. split; [reflexivity |].
  split.
  - intros t a ->. unfold check_permission. now rewrite get_set_eq.
  - intros a Hnone. unfold check_permission. now rewrite Hnone, get_set_eq.
Qed.

End policy_store.

(** ** The store a client starts from *)

Section store_invariant.
Import Json Eff Client ClientApp.

Lemma wf_of_pairs {V} (l : list (string * V)) : PyDict.wf (PyDict.of_pairs l).
Proof.
  unfold PyDict.of_pairs.
  assert (H : PyDict.wf (@nil (string * V))) by constructor.
  revert H. generalize (@nil (string * V)) as acc.
  induction l as [|[k v] l IH]; intros acc Hacc; simpl; [exact Hacc |].
  apply IH. now apply wf_set.
Qed.

Ltac case_matches :=
  repeat match goal with
         | |- context [match ?x with _ => _ end] => destruct x eqn:?; try discriminate
         end.

(** The decoder builds every object with [dict(pairs)] and every array
    from a list. *)
Lemma parse_shapes (fuel : nat) :
  (forall s acc v r, parse_members fuel s acc = Some (v, r) ->
     exists l, v = JObject (PyDict.of_pairs l))
  /\ (forall s acc v r, parse_elements fuel s acc = Some (v, r) -> exists l, v = JArray l)
  /\ (forall s v r, parse_value fuel s = Some (v, r) ->
        forall d, v = JObject d -> exists l, d = PyDict.of_pairs l).
Proof.
  induction fuel as [|fuel (IHm & IHe & IHv)].
  - repeat split; intros; discriminate.
  - split; [| split].
    + intros s acc v r. simpl. case_matches.
      * intros [= <- <-]. eauto.
      * apply IHm.
    + intros s acc v r. simpl. case_matches.
      * intros [= <- <-]. eauto.
      * apply IHe.
    + intros s v r. simpl. unfold scan_literal. case_matches;
        try (intros [= <- <-] d' [=]; fail).
      * intros [= <- <-] d' [= <-]. now exists [].
      * intros H d' ->. destruct (IHm _ _ _ _ H) as [l [= ->]]. eauto.
      * intros H d' ->. destruct (IHe _ _ _ _ H) as [l [=]].
Qed.

Lemma permissions_of_members_keys (d : list (string * json)) (p : list (string * string)) :
  permissions_of_members d = Some p -> PyDict.keys p = PyDict.keys d.
Proof.
  revert p. induction d as [|[k v] d IH]; intros p; simpl.
  - now intros [= <-].
  - destruct v; try discriminate.
    destruct (permissions_of_members d) as [p'|]; [| discriminate].
    intros [= <-]. unfold PyDict.keys in *. simpl. now rewrite (IH p').
Qed.

(** Every client starts from a store with pairwise distinct keys, and
    the set-policy operation keeps it so. *)
Lemma init_wf (file : option string) (c : client) :
  Client.init file = Some c -> PyDict.wf (permissions c).
Proof.
  unfold Client.init, load_permissions.
  destruct file as [text|].
  - unfold loads.
    destruct (parse_value _ _) as [[v r]|] eqn:Hparse; [| discriminate].
    destruct (PyStr.is_empty _); [| discriminate].
    destruct v as [ | | | | |d]; try discriminate.
    destruct (permissions_of_members d) as [p|] eqn:Hp; [| discriminate].
    intros [= <-]. simpl.
    destruct (proj2 (proj2 (parse_shapes _)) _ _ _ Hparse d eq_refl) as [l ->].
    unfold PyDict.wf. rewrite (permissions_of_members_keys _ _ Hp). apply wf_of_pairs.
  - intros [= <-]. simpl. apply distinct_NoDup. reflexivity.
Qed.

Lemma configure_keeps_wf (c : client) (tool_name policy : string) :
  PyDict.wf (permissions c) ->
  PyDict.wf (permissions (state_after (gui_configure_permission tool_name policy) c)).
Proof.
  intros Hwf. unfold state_after, gui_configure_permission.
  destruct (PyStr.is_empty tool_name); [exact Hwf |].
  destruct (negb _); [exact Hwf |]. simpl. now apply wf_set.
Qed.

End store_invariant.

(** ** Concrete runs *)

Section runs.
Import Json Eff Client ClientApp Host Examples.
Import Scenarios.

Lemma host_with_within_model (E : env) : Turn.within_model (host_with E).
Proof.
  intros history tools am tc Hllm Hin.
  destruct tools; simpl in Hllm; injection Hllm as <-; simpl in Hin; [| contradiction].
  now destruct Hin as [<-|[]].
Qed.

Lemma deny_blocks_execution_witness :
  check_permission (permissions client0) "delete_file" (or_empty (JObject [])) = "deny"%string
  /\ result (call_tool_with_permission server_ok "delete_file" (JObject []) true) client0
     = Returned [TextContent "Permission denied for tool: delete_file"]
  /\ tool_calls
       (state_after (call_tool_with_permission server_ok "delete_file" (JObject []) true)
          client0)
     = tool_calls client0.
Proof.
  split; [reflexivity |].
  pose proof (deny_blocks_execution (host_with server_ok) host0 "delete_file"
                (JObject []) true eq_refl) as (Hres & _ & Hcalls & _).
  split; [exact Hres | exact Hcalls].
Defined.

Lemma ask_pauses_for_approval_witness :
  check_permission (permissions client0) "write_file" (or_empty args_a) = "ask"%string
  /\ PyStr.mem "write_file" synthetic_names = false
  /\ tool_calls
       (state_after (call_tool_with_permission server_ok "write_file" args_a false) client0)
     = tool_calls client0
  /\ pending_approval
       (state_after (execute_tool (host_with server_ok) "write_file" args_a) host0)
     = Some ("write_file"%string, args_a).
Proof.
  split; [reflexivity |]. split; [reflexivity |].
  pose proof (ask_pauses_for_approval (host_with server_ok) host0 "write_file" args_a
                eq_refl) as (_ & _ & Hcalls & _ & _ & Hhost).
  split; [exact Hcalls |].
  exact (proj2 (proj2 (Hhost eq_refl))).
Defined.

Lemma canonical_arguments_order_independent_witness :
  well_formed args_a = true
  /\ well_formed args_a' = true
  /\ same_value args_a args_a' = true
  /\ dumps true None args_a = dumps true None args_a'
  /\ check_permission pinned "write_file" args_a
     = check_permission pinned "write_file" args_a'.
Proof.
  split; [reflexivity |]. split; [reflexivity |]. split; [reflexivity |].
  exact (canonical_arguments_order_independent
           [("filepath", JStr "a.txt"); ("content", JStr "hi")]%string
           [("content", JStr "hi"); ("filepath", JStr "a.txt")]%string
           pinned "write_file" eq_refl eq_refl eq_refl).
Defined.

Lemma allowed_is_logged_before_execution_witness :
  check_permission (permissions client0) "write_file" (or_empty args_a) <> "deny"%string
  /\ audit_log
       (state_after (call_tool_with_permission server_down "write_file" args_a true) client0)
     = audit_log client0
       ++ [tool_record server_down client0 "write_file" "ALLOWED" "Policy: ask"]
  /\ result (chat (host_with server_down) "yes") host_pending
     = Returned (Some "Error executing approved operation: Connection closed"%string).
Proof.
  assert (Hd : check_permission (permissions client0) "write_file" (or_empty args_a)
               <> "deny"%string) by discriminate.
  split; [exact Hd |].
  pose proof (allowed_is_logged_before_execution (host_with server_down) host_pending
                "write_file" args_a true Hd (or_intror eq_refl))
    as (_ & _ & _ & Hlog & _ & _ & Hchat).
  split; [exact Hlog |].
  exact (proj1 (Hchat "Connection closed"%string "yes"%string
                  eq_refl eq_refl eq_refl eq_refl)).
Defined.

Lemma approval_overrides_ask_only_witness :
  tool_calls
    (state_after (call_tool_with_permission server_ok "write_file" args_a true) client0)
  = [("write_file"%string, args_a)]
  /\ tool_calls
       (state_after (call_tool_with_permission server_ok "write_file" args_a true)
          client_paused_then_denied)
     = [].
Proof.
  split.
  - refine (proj1 (proj1 (approval_overrides_ask_only (host_with server_ok) host_pending
                            "write_file" args_a) _)).
    discriminate.
  - exact (proj1 (proj2 (proj1 (proj2
      (approval_overrides_ask_only (host_with server_ok)
         {| base := client_paused_then_denied; conversation_history := [];
            pending_approval := None |} "write_file" args_a)) eq_refl))).
Defined.

Lemma affirmative_reply_runs_pending_call_witness :
  pending_approval host_pending = Some ("write_file"%string, args_a)
  /\ is_affirmative "  YES " = true
  /\ tool_calls (base (state_after (chat (host_with server_ok) "  YES ") host_pending))
     = [("write_file"%string, args_a)]
  /\ audit_log (base (state_after (chat (host_with server_ok) "  YES ") host_pending))
     = [tool_record server_ok client0 "write_file" "ALLOWED" "Policy: ask"].
Proof.
  split; [reflexivity |]. split; [reflexivity |].
  assert (Hd : check_permission (permissions (base host_pending)) "write_file"
                 (or_empty args_a) <> "deny"%string) by discriminate.
  pose proof (affirmative_reply_runs_pending_call (host_with server_ok) host_pending
                "  YES " "write_file" args_a eq_refl eq_refl) as [_ Hrun].
  destruct (Hrun Hd) as (_ & Hcalls & Hlog & _).
  split; [exact Hcalls | exact Hlog].
Defined.

Lemma negative_reply_discards_pending_call_witness :
  pending_approval host_pending = Some ("write_file"%string, args_a)
  /\ is_negative " Cancel" = true
  /\ result (chat (host_with server_ok) " Cancel") host_pending
     = Returned (Some "Operation cancelled by user."%string)
  /\ pending_approval (state_after (chat (host_with server_ok) " Cancel") host_pending)
     = None.
Proof.
  split; [reflexivity |]. split; [reflexivity |].
  pose proof (negative_reply_discards_pending_call (host_with server_ok) host_pending
                " Cancel" _ eq_refl eq_refl) as (Hres & Hnone & _).
  split; [exact Hres | exact Hnone].
Defined.

Lemma approval_clears_pending_first_witness :
  pending_approval host_pending = Some ("write_file"%string, args_a)
  /\ is_affirmative "ok" = true
  /\ is_affirmative "OK" = true
  /\ pending_approval (state_after (chat (host_with server_down) "ok") host_pending) = None
  /\ chat (host_with server_down) "OK"
       (state_after (chat (host_with server_down) "ok") host_pending)
     = chat_llm (host_with server_down) "OK"
         (state_after (chat (host_with server_down) "ok") host_pending)
  /\ Turn.within_model (host_with server_down)
  /\ check_permission (permissions (base host_pending)) "write_file" (or_empty args_a)
     = "ask"%string
  /\ tool_calls
       (base (state_after (execute_tool (host_with server_down) "write_file" args_a)
                (state_after (chat (host_with server_down) "ok") host_pending)))
     = tool_calls (base (state_after (chat (host_with server_down) "ok") host_pending))
  /\ exists extra,
       trace (base (state_after (chat (host_with server_down) "OK")
                      (state_after (chat (host_with server_down) "ok") host_pending)))
       = trace (base (state_after (chat (host_with server_down) "ok") host_pending)) ++ extra
       /\ ~ In (ToolCall "write_file" (or_empty args_a)) extra.
Proof.
  split; [reflexivity |]. split; [reflexivity |]. split; [reflexivity |].
  pose proof (approval_clears_pending_first (host_with server_down) host_pending
                "ok" "OK" "write_file" args_a eq_refl eq_refl eq_refl)
    as (_ & Hnone & _ & Hllm & Hrequest & Hagain).
  split; [exact Hnone |]. split; [exact Hllm |].
  split; [apply host_with_within_model |]. split; [reflexivity |].
  split; [apply Hrequest; [reflexivity | left; reflexivity] |].
  destruct (Hagain (host_with_within_model server_down)) as (extra & Ht & _ & Hno).
  exists extra. split; [exact Ht | exact (Hno eq_refl)].
Defined.

Lemma policy_persistence_round_trip_witness :
  PyDict.wf (permissions client0)
  /\ "write_file"%string <> EmptyString
  /\ In "deny"%string ["allow"; "deny"; "ask"]%string
  /\ exists fresh,
       Client.init
         (permissions_file
            (state_after (gui_configure_permission "write_file" "deny") client0))
       = Some fresh
       /\ PyDict.get "write_file" (permissions fresh) = Some "deny"%string.
Proof.
  assert (Hwf : PyDict.wf (permissions client0)).
  { apply distinct_NoDup. reflexivity. }
  assert (Hne : "write_file"%string <> EmptyString) by discriminate.
  assert (Hin : In "deny"%string ["allow"; "deny"; "ask"]%string) by (right; now left).
  split; [exact Hwf |]. split; [exact Hne |]. split; [exact Hin |].
  destruct (policy_persistence_round_trip client0 "write_file" "deny" Hwf Hne Hin)
    as (_ & fresh & Hinit & _ & Hget & _).
  exists fresh. split; [exact Hinit | exact Hget].
Defined.

(** C1 fails as stated. In the client application a call is paused
    under [ask], the policy of the tool is then set to [deny], and the
    request comes back with the approved flag: it is refused, nothing
    reaches the executor, and [DENIED] is logged. In the host, a pending
    approval whose call evaluates to [deny] is not executed by an
    affirmative reply either. *)
Lemma approved_request_is_blocked_by_deny :
  (result (call_tool_with_permission server_ok "write_file" args_a false) client0
     = Returned [TextContent (approval_msg "write_file" args_a)]
   /\ check_permission (permissions client_paused_then_denied) "write_file" args_a
      = "deny"%string
   /\ result (call_tool_with_permission server_ok "write_file" args_a true)
        client_paused_then_denied
      = Returned [TextContent "Permission denied for tool: write_file"%string]
   /\ tool_calls
        (state_after (call_tool_with_permission server_ok "write_file" args_a true)
           client_paused_then_denied)
      = []
   /\ List.map decision
        (audit_log
           (state_after (call_tool_with_permission server_ok "write_file" args_a true)
              client_paused_then_denied))
      = ["ASK"; "DENIED"]%string)
  /\ (pending_approval host_pending_denied = Some ("write_file"%string, args_a)
      /\ is_affirmative "yes" = true
      /\ tool_calls (base (state_after (chat (host_with server_ok) "yes") host_pending_denied))
         <> tool_calls (base host_pending_denied) ++ [("write_file"%string, args_a)]
      /\ tool_calls (base (state_after (chat (host_with server_ok) "yes") host_pending_denied))
         = []).
Proof.
  split.
  - repeat (split; [reflexivity |]). reflexivity.
  - split; [reflexivity |]. split; [reflexivity |]. split; [| reflexivity].
    vm_compute. discriminate.
Qed.

(** C2 fails as stated. With the pending call under [deny], an
    affirmative reply executes nothing and the one record appended is
    [DENIED]. With the pending call under [ask], the record appended is
    [ALLOWED] and its reason is [Policy: ask]: it names the verdict, not
    an approval by the user. *)
Lemma affirmative_reply_under_deny_runs_nothing :
  (pending_approval host_pending_denied = Some ("write_file"%string, args_a)
   /\ is_affirmative "yes" = true
   /\ tool_calls (base (state_after (chat (host_with server_ok) "yes") host_pending_denied))
      = []
   /\ List.map decision
        (audit_log (base (state_after (chat (host_with server_ok) "yes") host_pending_denied)))
      = ["DENIED"]%string
   /\ ~ In "ALLOWED"%string
        (List.map decision
           (audit_log
              (base (state_after (chat (host_with server_ok) "yes") host_pending_denied)))))
  /\ List.map reason
       (audit_log (base (state_after (chat (host_with server_ok) "yes") host_pending)))
     = ["Policy: ask"]%string.
Proof.
  split; [| reflexivity].
  repeat (split; [reflexivity |]).
  vm_compute. intros [H|[]]. discriminate H.
Qed.

(** C10 fails as stated. A file that is read holds a text that reads like
    an approval request, so [read_file], which the policy allows, has run
    and is pending. The affirmative reply runs it, and nothing is pending
    afterwards. The repeated affirmative reply goes to the language
    model, which asks for the call again: it runs a third time. *)
Lemma repeated_reply_runs_the_call_again :
  pending_approval host_prompted = Some ("read_file"%string, args_r)
  /\ tool_calls (base host_prompted) = [("read_file"%string, args_r)]
  /\ is_affirmative "yes" = true
  /\ pending_approval (state_after (chat host_reading "yes") host_prompted) = None
  /\ tool_calls (base (state_after (chat host_reading "yes") host_prompted))
     = [("read_file"%string, args_r); ("read_file"%string, args_r)]
  /\ tool_calls
       (base (state_after (chat host_reading "yes")
                (state_after (chat host_reading "yes") host_prompted)))
     = [("read_file"%string, args_r); ("read_file"%string, args_r);
        ("read_file"%string, args_r)].
Proof.
  split; [reflexivity |]. split; [reflexivity |]. split; [reflexivity |].
  split; [reflexivity |]. split; reflexivity.
Qed.

(** C3 fails as stated. A negative reply to a pending approval leaves
    the audit log as it was: no record of the cancellation is appended. *)
Lemma negative_reply_writes_no_audit_record :
  pending_approval host_pending = Some ("write_file"%string, args_a)
  /\ is_negative "no" = true
  /\ result (chat (host_with server_ok) "no") host_pending
     = Returned (Some "Operation cancelled by user."%string)
  /\ audit_log (base (state_after (chat (host_with server_ok) "no") host_pending))
     = audit_log (base host_pending)
  /\ trace (base (state_after (chat (host_with server_ok) "no") host_pending)) = [].
Proof. repeat (split; [reflexivity |]). reflexivity. Qed.

(** C8 fails as stated. The set-policy operation refuses the empty key:
    nothing is set and nothing is written, and a fresh client evaluates
    the empty key to [ask], not to the verdict that was asked for. *)
Lemma empty_policy_key_is_not_stored :
  In "deny"%string ["allow"; "deny"; "ask"]%string
  /\ result (gui_configure_permission EmptyString "deny") client0
     = Returned "Please enter a tool name"%string
  /\ permissions_file (state_after (gui_configure_permission EmptyString "deny") client0)
     = None
  /\ exists fresh,
       Client.init
         (permissions_file (state_after (gui_configure_permission EmptyString "deny") client0))
       = Some fresh
       /\ PyDict.get EmptyString (permissions fresh) = None
       /\ check_permission (permissions fresh) EmptyString (JObject []) = "ask"%string
       /\ check_permission (permissions fresh) EmptyString (JObject []) <> "deny"%string.
Proof.
  split; [right; now left |]. split; [reflexivity |]. split; [reflexivity |].
  eexists. split; [reflexivity |]. split; [reflexivity |]. split; [reflexivity |].
  discriminate.
Qed.

End runs.

(** ** Relations kept by a chat turn *)

Section kept_relations.
Import Json Eff Client Host Turn.

Variable HE : host_env.
Variable R : host -> host -> Prop.
Hypothesis R_refl : forall h, R h h.
Hypothesis R_trans : forall h1 h2 h3, R h1 h2 -> R h2 h3 -> R h1 h3.

Lemma keeps_unchanged {A} (m : M host A) :
  (forall h, state_after m h = h) -> keeps R m.
Proof using R_refl. intros Hm h. rewrite Hm. apply R_refl. Qed.

Lemma keeps_modify (f : host -> host) : (forall h, R h (f h)) -> keeps R (modify f).
Proof. intros Hf h. apply Hf. Qed.

Lemma keeps_bind {A B} (m : M host A) (k : A -> M host B) :
  keeps R m -> (forall a, keeps R (k a)) -> keeps R (bind m k).
Proof using R_trans.
  intros Hm Hk h. specialize (Hm h). unfold state_after, bind in *.
  destruct (m h) as [[a|e] h1]; simpl in *; [| exact Hm].
  eapply R_trans; [exact Hm | apply Hk].
Qed.

Lemma keeps_try_except {A} (m : M host A) (handler : string -> M host A) :
  keeps R m -> (forall e, keeps R (handler e)) -> keeps R (try_except m handler).
Proof using R_trans.
  intros Hm Hk h. specialize (Hm h). unfold state_after, try_except in *.
  destruct (m h) as [[a|e] h1]; simpl in *; [exact Hm |].
  eapply R_trans; [exact Hm | apply Hk].
Qed.

Lemma keeps_for_each {A} (l : list A) (body : A -> M host unit) :
  (forall x, keeps R (body x)) -> keeps R (for_each l body).
Proof using R_refl R_trans.
  intros Hb. induction l as [|x l IH]; simpl.
  - now apply keeps_unchanged.
  - apply keeps_bind; [apply Hb | intros _; exact IH].
Qed.

Hypothesis R_history : forall m h, R h (append_history m h).
Hypothesis R_pending : forall p h, R h (set_pending (Some p) h).
Hypothesis R_call : forall t a,
  keeps R (inherited (call_tool_with_permission (base_env HE) t a false)).

Lemma keeps_execute_tool (tool_name : string) (arguments : json) :
  keeps R (execute_tool HE tool_name arguments).
Proof using R_refl R_trans R_pending R_call.
  unfold execute_tool. destruct (PyStr.mem tool_name synthetic_names).
  - now apply keeps_unchanged.
  - apply keeps_try_except.
    + apply keeps_bind; [apply R_call |].
      intros [|[text|repr] rest]; try now apply keeps_unchanged.
      apply keeps_bind; [| intros _; now apply keeps_unchanged].
      destruct (is_approval_request text);
        [apply keeps_modify, R_pending | now apply keeps_unchanged].
    + intros e. now apply keeps_unchanged.
Qed.

Lemma keeps_run_tool_call (tc : tool_call) : keeps R (run_tool_call HE tc).
Proof using R_refl R_trans R_history R_pending R_call.
  unfold run_tool_call. destruct (loads (tc_arguments tc)) as [args|].
  - apply keeps_bind; [now apply keeps_unchanged |]. intros _.
    apply keeps_bind; [apply keeps_execute_tool |]. intros text.
    apply keeps_modify, R_history.
  - now apply keeps_unchanged.
Qed.

Lemma chat_llm_answer (user_message : string) :
  chat_llm HE user_message
  = bind (modify (append_history (MsgUser user_message))) (fun _ => answer HE).
Proof. reflexivity. Qed.

Lemma keeps_answer : keeps R (answer HE).
Proof using R_refl R_trans R_history R_pending R_call.
  unfold answer.
  apply keeps_bind; [now apply keeps_unchanged |]. intros tools.
  apply keeps_bind; [now apply keeps_unchanged |]. intros [am|].
  - destruct (am_tool_calls am) as [|tc calls].
    + apply keeps_bind; [apply keeps_modify, R_history |].
      intros _. now apply keeps_unchanged.
    + apply keeps_bind; [apply keeps_modify, R_history |]. intros _.
      apply keeps_bind; [apply keeps_for_each, keeps_run_tool_call |]. intros _.
      apply keeps_bind; [now apply keeps_unchanged |]. intros [fm|].
      * apply keeps_bind; [apply keeps_modify, R_history |].
        intros _. now apply keeps_unchanged.
      * now apply keeps_unchanged.
  - now apply keeps_unchanged.
Qed.

Lemma keeps_chat_llm (user_message : string) : keeps R (chat_llm HE user_message).
Proof using R_refl R_trans R_history R_pending R_call.
  rewrite chat_llm_answer.
  apply keeps_bind; [apply keeps_modify, R_history |]. intros _. apply keeps_answer.
Qed.

End kept_relations.

(** ** Mediated requests *)

Section mediated_turns.
Import Json Eff Client Host Turn Audited HostUi.

Variable HE : host_env.

Lemma chunk_without_approval (perms : list (string * string))
    (approved : option (string * json)) (l : list effect) :
  chunk perms None l -> chunk perms approved l.
Proof.
  intros [r|r t a Hr Hd Ha]; [constructor |].
  constructor; [exact Hr | exact Hd |]. intros Hask. now specialize (Ha Hask).
Qed.

Lemma mediated_same_base (approved : option (string * json)) (h h' : host) :
  base h' = base h -> mediated approved h h'.
Proof.
  intros Hb. unfold mediated. rewrite Hb. split; [reflexivity |].
  exists []. simpl. rewrite app_nil_r. split; [reflexivity | constructor].
Qed.

Lemma mediated_trans (approved : option (string * json)) (h1 h2 h3 : host) :
  mediated approved h1 h2 -> mediated approved h2 h3 -> mediated approved h1 h3.
Proof.
  intros (Hp & ch & Ht & Hc) (Hp' & ch' & Ht' & Hc').
  split; [congruence |].
  exists (ch ++ ch'). rewrite Ht', Ht, concat_app, app_assoc. split; [reflexivity |].
  apply Forall_app. split; [exact Hc | now rewrite <- Hp].
Qed.

Lemma mediated_without_approval (approved : option (string * json)) (h h' : host) :
  mediated None h h' -> mediated approved h h'.
Proof.
  intros (Hp & ch & Ht & Hc). split; [exact Hp |].
  exists ch. split; [exact Ht |].
  eapply Forall_impl; [exact Hc |]. intros l. apply chunk_without_approval.
Qed.

Lemma allows_tool_record (E : env) (c : client) (tool_name reason : string) :
  allows (tool_record E c tool_name "ALLOWED" reason) tool_name = true.
Proof. unfold allows. simpl. now rewrite String.eqb_refl. Qed.

(** One request: a record, and the call after it when the verdict is not
    [deny] and, under [ask], the request is approved. *)
Lemma mediated_call (h : host) (tool_name : string) (arguments : json) (approved : bool) :
  mediated (if approved then Some (tool_name, or_empty arguments) else None) h
    (state_after (inherited (call_tool_with_permission (base_env HE) tool_name arguments
                               approved)) h).
Proof.
  unfold state_after, inherited, lift.
  set (verdict := check_permission (permissions (base h)) tool_name (or_empty arguments)).
  destruct (String.eqb_spec verdict "deny") as [Hd|Hd].
  - rewrite (call_deny _ _ _ _ _ Hd). simpl.
    split; [reflexivity |].
    eexists [[_]]. simpl. split; [reflexivity |]. repeat constructor.
  - destruct (String.eqb_spec verdict "ask") as [Ha|Ha]; destruct approved.
    + rewrite (call_allow _ _ _ _ true Hd (or_intror eq_refl)). simpl.
      split; [reflexivity |].
      eexists [[_; _]]. simpl. rewrite <- app_assoc. split; [reflexivity |].
      constructor; [| constructor].
      constructor; [apply allows_tool_record | exact Hd | reflexivity].
    + rewrite (call_ask _ _ _ _ Ha). simpl.
      split; [reflexivity |].
      eexists [[_]]. simpl. split; [reflexivity |]. repeat constructor.
    + rewrite (call_allow _ _ _ _ true Hd (or_introl Ha)). simpl.
      split; [reflexivity |].
      eexists [[_; _]]. simpl. rewrite <- app_assoc. split; [reflexivity |].
      constructor; [| constructor].
      constructor; [apply allows_tool_record | exact Hd | now intros ?].
    + rewrite (call_allow _ _ _ _ false Hd (or_introl Ha)). simpl.
      split; [reflexivity |].
      eexists [[_; _]]. simpl. rewrite <- app_assoc. split; [reflexivity |].
      constructor; [| constructor].
      constructor; [apply allows_tool_record | exact Hd | now intros ?].
Qed.

Lemma mediated_chat_llm (user_message : string) :
  keeps (mediated None) (chat_llm HE user_message).
Proof.
  apply keeps_chat_llm.
  - intros h. now apply mediated_same_base.
  - apply mediated_trans.
  - intros m h. now apply mediated_same_base.
  - intros p h. now apply mediated_same_base.
  - intros t a h. apply (mediated_call h t a false).
Qed.

Lemma mediated_chat (user_message : string) (h : host) :
  mediated (approved_call user_message h) h (state_after (chat HE user_message) h).
Proof.
  unfold approved_call, state_after, chat.
  destruct (pending_approval h) as [[t a]|] eqn:Hp.
  - destruct (is_affirmative user_message).
    + rewrite chat_approved_eq.
      pose proof (mediated_call h t a true) as Hcall.
      unfold state_after, inherited, lift in Hcall. simpl in Hcall.
      destruct (call_tool_with_permission (base_env HE) t a true (base h)) as [[res|e] c'];
        simpl in *; exact Hcall.
    + destruct (is_negative user_message).
      * now apply mediated_same_base.
      * apply mediated_chat_llm.
  - apply mediated_without_approval, mediated_chat_llm.
Qed.

Lemma approved_call_inv (user_message : string) (h : host) (t : string) (a : json) :
  approved_call user_message h = Some (t, a) ->
  is_affirmative user_message = true
  /\ exists a0, pending_approval h = Some (t, a0) /\ a = or_empty a0.
Proof.
  unfold approved_call. destruct (is_affirmative user_message); [| discriminate].
  destruct (pending_approval h) as [[t0 a0]|]; [| discriminate].
  intros [= <- <-]. split; [reflexivity |]. now exists a0.
Qed.

Lemma In_concat_chunk (perms : list (string * string)) (approved : option (string * json))
    (chunks : list (list effect)) (t : string) (a : json) :
  Forall (chunk perms approved) chunks ->
  In (ToolCall t a) (concat chunks) ->
  check_permission perms t a <> "deny"%string
  /\ (check_permission perms t a = "ask"%string -> approved = Some (t, a)).
Proof.
  induction 1 as [|l chunks Hl Hc IH]; simpl; [contradiction |].
  intros Hin. apply in_app_or in Hin as [Hin|Hin]; [| now apply IH].
  destruct Hl as [r|r t' a' Hr Hd Ha]; simpl in Hin.
  - destruct Hin as [Hin|[]]. discriminate Hin.
  - destruct Hin as [Hin|[Hin|[]]]; [discriminate Hin |].
    injection Hin as <- <-. now split.
Qed.

(** X1. Whatever the reply and whatever tool calls the language model
    asks for, with arguments the decoder covers, a chat turn executes no
    call whose verdict is [deny], and it executes a call whose verdict is
    [ask] only when the reply is affirmative and the call is the pending
    one. *)
Theorem chat_executes_only_what_policy_allows (user_message : string) (h : host) :
  within_model HE ->
  let perms := permissions (base h) in
  exists extra,
    trace (base (state_after (chat HE user_message) h)) = trace (base h) ++ extra
    /\ forall t a,
         In (ToolCall t a) extra ->
         check_permission perms t a <> "deny"%string
         /\ (check_permission perms t a = "ask"%string ->
             is_affirmative user_message = true
             /\ exists a0, pending_approval h = Some (t, a0) /\ a = or_empty a0).
Proof.
  intros _ perms.
  destruct (mediated_chat user_message h) as (_ & chunks & Ht & Hc).
  exists (concat chunks). split; [exact Ht |].
  intros t a Hin. destruct (In_concat_chunk _ _ _ _ _ Hc Hin) as [Hd Ha].
  split; [exact Hd |]. intros Hask. now apply approved_call_inv, Ha.
Qed.

Lemma audited_chunks (perms : list (string * string)) (approved : option (string * json))
    (chunks : list (list effect)) :
  Forall (chunk perms approved) chunks ->
  forall prev, audited_after prev (concat chunks) = true.
Proof.
  induction 1 as [|l chunks Hl Hc IH]; intros prev; [reflexivity |].
  destruct Hl as [r|r t a Hr Hd Ha]; simpl.
  - apply IH.
  - rewrite Hr. apply IH.
Qed.

Lemma audited_app (perms : list (string * string)) (approved : option (string * json))
    (chunks : list (list effect)) (tr : list effect) :
  Forall (chunk perms approved) chunks ->
  forall prev, audited_after prev tr = true ->
  audited_after prev (tr ++ concat chunks) = true.
Proof.
  intros Hc. induction tr as [|[r|t a] tr IH]; intros prev; simpl.
  - intros _. now apply (audited_chunks perms approved).
  - apply IH.
  - intros [Hp Htr]%andb_prop. rewrite Hp. now apply IH.
Qed.

Lemma mediated_audited (approved : option (string * json)) (h h' : host) :
  mediated approved h h' ->
  audited (trace (base h)) = true -> audited (trace (base h')) = true.
Proof.
  intros (_ & chunks & Ht & Hc) Ha. rewrite Ht.
  now apply (audited_app (permissions (base h)) approved).
Qed.

Lemma mediated_act (a : action) (h : host) :
  exists approved, mediated approved h (act HE a h).
Proof.
  destruct a as [message|]; simpl.
  - unfold chat_wrapper. destruct (PyStr.is_empty (PyStr.strip message)).
    + exists None. now apply mediated_same_base.
    + exists (approved_call message h).
      pose proof (mediated_chat message h) as Hm.
      unfold state_after, bind in *. destruct (chat HE message h) as [[res|e] h1]; exact Hm.
  - exists None. now apply mediated_same_base.
Qed.

(** X2. In every run of the chat window, with tool calls whose arguments
    the decoder covers, the audit trail stays complete: each call of the
    tool executor comes right after an [ALLOWED] record for the same
    tool. *)
Theorem every_execution_is_audited (actions : list action) (h : host) :
  within_model HE ->
  audited (trace (base h)) = true ->
  audited (trace (base (run HE actions h))) = true.
Proof.
  intros _. revert h. induction actions as [|a actions IH]; intros h Ha; [exact Ha |].
  simpl. apply IH. destruct (mediated_act a h) as [approved Hm].
  exact (mediated_audited approved _ _ Hm Ha).
Qed.

(** X3. No run of the chat window, with tool calls whose arguments the
    decoder covers, changes the policy store of the host: every call is
    evaluated against the store loaded at start, whatever the tools do
    to the permissions file in the meantime. *)
Theorem host_never_changes_policy (actions : list action) (h : host) :
  within_model HE ->
  permissions (base (run HE actions h)) = permissions (base h).
Proof.
  intros _. revert h. induction actions as [|a actions IH]; intros h; [reflexivity |].
  simpl. rewrite (IH (act HE a h)).
  now destruct (mediated_act a h) as (approved & Hp & _).
Qed.

End mediated_turns.

(** ** Replies and the pending approval *)

Section replies.
Import Json Eff Client Host Turn Audited HostUi.

Variable HE : host_env.

Lemma history_grows_trans (h1 h2 h3 : host) :
  history_grows h1 h2 -> history_grows h2 h3 -> history_grows h1 h3.
Proof.
  intros [m Hm] [m' Hm']. exists (m ++ m'). now rewrite Hm', Hm, app_assoc.
Qed.

Lemma history_grows_same (h h' : host) :
  conversation_history h' = conversation_history h -> history_grows h h'.
Proof. intros Hh. exists []. now rewrite app_nil_r. Qed.

Lemma history_grows_call (t : string) (a : json) (approved : bool) :
  keeps history_grows (inherited (call_tool_with_permission (base_env HE) t a approved)).
Proof.
  intros h. apply history_grows_same. unfold state_after, inherited, lift.
  now destruct (call_tool_with_permission _ _ _ _ _).
Qed.

Lemma history_grows_answer : keeps history_grows (answer HE).
Proof.
  apply keeps_answer.
  - intros h. now apply history_grows_same.
  - apply history_grows_trans.
  - intros m h. now exists [m].
  - intros p h. now apply history_grows_same.
  - intros t a. apply history_grows_call.
Qed.

(** X4. A chat turn, with tool calls whose arguments the decoder covers,
    never rewrites the conversation: the history it leaves is the old
    history, then the message of the user, then whatever the turn added,
    also when the turn ends in an exception. *)
Theorem chat_appends_to_history (user_message : string) (h : host) :
  within_model HE ->
  exists more,
    conversation_history (state_after (chat HE user_message) h)
    = conversation_history h ++ MsgUser user_message :: more.
Proof.
  intros _.
  assert (Hllm : exists more,
             conversation_history (state_after (chat_llm HE user_message) h)
             = conversation_history h ++ MsgUser user_message :: more).
  { rewrite chat_llm_answer. unfold state_after, bind, modify. simpl.
    destruct (history_grows_answer (append_history (MsgUser user_message) h)) as [more Hm].
    unfold state_after in Hm. exists more.
    destruct (answer HE _) as [[r|e] h2]; simpl in *; now rewrite Hm, <- app_assoc. }
  unfold state_after, chat in *.
  destruct (pending_approval h) as [[t a]|]; [| exact Hllm].
  destruct (is_affirmative user_message).
  - rewrite chat_approved_eq.
    destruct (call_tool_with_permission _ _ _ _ _) as [[res|e] c']; simpl;
      eexists; rewrite <- app_assoc; reflexivity.
  - destruct (is_negative user_message); [| exact Hllm].
    simpl. eexists. rewrite <- app_assoc. reflexivity.
Qed.

(** X5. While nothing is pending every reply, an affirmative phrase
    included, is an ordinary message for the language model. When the
    model answers without asking for a tool, the turn executes nothing,
    writes no audit record, registers nothing and adds the two messages
    to the history. *)
Theorem idle_reply_is_an_ordinary_message
    (user_message : string) (h : host) (tools : json) (am : assistant_message) :
  pending_approval h = None ->
  available_tools HE (permissions (base h)) = Returned tools ->
  llm_create HE (conversation_history h ++ [MsgUser user_message]) (Some tools)
    = Returned (Some am) ->
  am_tool_calls am = [] ->
  let h' := state_after (chat HE user_message) h in
  chat HE user_message h = chat_llm HE user_message h
  /\ result (chat HE user_message) h = Returned (am_content am)
  /\ base h' = base h
  /\ pending_approval h' = None
  /\ conversation_history h'
     = conversation_history h ++ [MsgUser user_message; MsgAssistant (am_content am)].
Proof.
  intros Hp Htools Hllm Hcalls h'.
  assert (Hchat : chat HE user_message h = chat_llm HE user_message h)
    by (unfold chat; now rewrite Hp).
  unfold h', result, state_after. rewrite Hchat.
  unfold chat_llm, bind, modify, ask_oracle. simpl.
  rewrite Htools, Hllm, Hcalls. simpl. rewrite <- app_assoc.
  repeat (split; [reflexivity |]). split; [exact Hp | reflexivity].
Qed.

Lemma pending_kept_answer : keeps pending_kept (answer HE).
Proof.
  apply keeps_answer.
  - intros h Hp. exact Hp.
  - intros h1 h2 h3 H12 H23 Hp. now apply H23, H12.
  - intros m h Hp. exact Hp.
  - intros p h _. discriminate.
  - intros t a h Hp. unfold state_after, inherited, lift.
    now destruct (call_tool_with_permission _ _ _ _ _).
Qed.

(** X6. A reply that is neither affirmative nor negative does not
    resolve a pending approval: it goes to the language model, and after
    the turn, with tool calls whose arguments the decoder covers, an
    approval is still pending. *)
Theorem unrecognised_reply_keeps_pending
    (user_message : string) (h : host) (p : string * json) :
  within_model HE ->
  pending_approval h = Some p ->
  is_affirmative user_message = false ->
  is_negative user_message = false ->
  chat HE user_message h = chat_llm HE user_message h
  /\ exists p', pending_approval (state_after (chat HE user_message) h) = Some p'.
Proof.
  intros _ Hp Hyes Hno.
  assert (Hchat : chat HE user_message h = chat_llm HE user_message h).
  { unfold chat. rewrite Hp. destruct p. now rewrite Hyes, Hno. }
  split; [exact Hchat |]. unfold state_after. rewrite Hchat, chat_llm_answer.
  unfold bind, modify. simpl.
  pose proof (pending_kept_answer (append_history (MsgUser user_message) h)) as Hk.
  unfold state_after, pending_kept in Hk. simpl in Hk.
  destruct (answer HE _) as [[r|e] h2]; simpl in *;
    (destruct (pending_approval h2) as [p'|]; [now exists p' |]);
    exfalso; apply Hk; [now rewrite Hp | reflexivity | now rewrite Hp | reflexivity].
Qed.

(** X7. A failure of the tool executor never escapes as an exception:
    [execute_tool] answers every regular tool with a text, and [chat]
    answers every approval or cancellation of a pending call with a
    text. *)
Theorem executor_failures_become_text
    (user_message tool_name : string) (arguments : json) (h : host) :
  (PyStr.mem tool_name synthetic_names = false ->
   exists text, result (execute_tool HE tool_name arguments) h = Returned text)
  /\ (pending_approval h <> None ->
      is_affirmative user_message = true \/ is_negative user_message = true ->
      exists text, result (chat HE user_message) h = Returned (Some text)).
Proof.
  split.
  - intros Hs. unfold result. rewrite (execute_tool_regular HE h _ _ Hs).
    destruct (call_tool_with_permission _ _ _ _ _) as [[[|[text|repr] rest]|e] c'];
      simpl; eauto.
  - intros Hp Hreply. unfold result, chat.
    destruct (pending_approval h) as [[t a]|]; [| now destruct Hp].
    destruct (is_affirmative user_message) eqn:Hyes.
    + rewrite chat_approved_eq.
      destruct (call_tool_with_permission _ _ _ _ _) as [[res|e] c']; simpl; eauto.
    + destruct Hreply as [Hreply|Hno]; [discriminate |]. rewrite Hno. simpl. eauto.
Qed.

Lemma approved_reply_base (h : host) (reply tool_name : string) (arguments : json) :
  pending_approval h = Some (tool_name, arguments) ->
  is_affirmative reply = true ->
  base (state_after (chat HE reply) h)
  = state_after (call_tool_with_permission (base_env HE) tool_name arguments true) (base h).
Proof.
  intros Hp Hyes. unfold state_after.
  rewrite (chat_affirmative HE h _ _ _ Hp Hyes), chat_approved_eq.
  now destruct (call_tool_with_permission _ _ _ _ _) as [[res|e] c'].
Qed.

(** X8. The host recognises an approval request by its text. When a tool
    that the policy lets run returns a text with the two marker phrases,
    [execute_tool] executes the tool and also registers it as pending;
    the next affirmative reply executes it a second time. *)
Theorem executed_tool_can_register_itself
    (reply tool_name text : string) (arguments : json) (rest : list content) (h : host) :
  let E := base_env HE in
  let c := base h in
  let verdict := check_permission (permissions c) tool_name (or_empty arguments) in
  let c1 := emit (Audit (tool_record E c tool_name "ALLOWED" ("Policy: " +:+ verdict))) c in
  PyStr.mem tool_name synthetic_names = false ->
  verdict <> "deny"%string ->
  verdict <> "ask"%string ->
  session_call_tool E (trace c1) tool_name (or_empty arguments)
    = Returned (TextContent text :: rest) ->
  is_approval_request text = true ->
  is_affirmative reply = true ->
  let h1 := state_after (execute_tool HE tool_name arguments) h in
  let h2 := state_after (chat HE reply) h1 in
  result (execute_tool HE tool_name arguments) h = Returned text
  /\ tool_calls (base h1) = tool_calls c ++ [(tool_name, or_empty arguments)]
  /\ pending_approval h1 = Some (tool_name, arguments)
  /\ tool_calls (base h2)
     = tool_calls c ++ [(tool_name, or_empty arguments); (tool_name, or_empty arguments)].
Proof.
  intros E c verdict c1 Hs Hd Ha Hanswer Hreq Hyes h1 h2.
  pose proof (call_allow E c tool_name arguments false Hd (or_introl Ha)) as Hcall.
  fold verdict in Hcall. fold c1 in Hcall. rewrite Hanswer in Hcall.
  assert (Hex : execute_tool HE tool_name arguments h
                = (Returned text,
                   set_pending (Some (tool_name, arguments))
                     (set_base (called E tool_name (or_empty arguments) c1) h))).
  { rewrite (execute_tool_regular HE h _ _ Hs). fold E c. rewrite Hcall. now rewrite Hreq. }
  assert (Hcalls1 : tool_calls (base h1) = tool_calls c ++ [(tool_name, or_empty arguments)]).
  { unfold h1, state_after. rewrite Hex. cbn [snd base set_pending set_base]. unfold c1.
    now rewrite tool_calls_called, tool_calls_emit_audit. }
  assert (Hp1 : pending_approval h1 = Some (tool_name, arguments))
    by (unfold h1, state_after; now rewrite Hex).
  assert (Hperm1 : permissions (base h1) = permissions c)
    by (unfold h1, state_after; now rewrite Hex).
  unfold result. rewrite Hex. split; [reflexivity |]. split; [exact Hcalls1 |].
  split; [exact Hp1 |].
  assert (Hd1 : check_permission (permissions (base h1)) tool_name (or_empty arguments)
                <> "deny"%string) by (rewrite Hperm1; exact Hd).
  unfold h2. rewrite (approved_reply_base h1 _ _ _ Hp1 Hyes). unfold state_after.
  rewrite (call_allow (base_env HE) (base h1) tool_name arguments true Hd1 (or_intror eq_refl)).
  cbn [snd].
  rewrite tool_calls_called, tool_calls_emit_audit, Hcalls1, <- app_assoc. reflexivity.
Qed.

End replies.

(** ** Stripping and case *)

Section stripping.
Import PyMore.

Lemma lstrip_blank (s : string) : blank s = true -> PyStr.lstrip s = EmptyString.
Proof.
  induction s as [|c s IH]; simpl; [reflexivity |].
  intros [Hc Hs]%andb_prop. rewrite Hc. now apply IH.
Qed.

Lemma lstrip_append_blank (pre s : string) :
  blank pre = true -> PyStr.lstrip (pre +:+ s) = PyStr.lstrip s.
Proof.
  induction pre as [|c pre IH]; simpl; [reflexivity |].
  intros [Hc Hs]%andb_prop. rewrite Hc. now apply IH.
Qed.

Lemma rstrip_blank (s : string) : blank s = true -> PyStr.rstrip s = EmptyString.
Proof.
  induction s as [|c s IH]; simpl; [reflexivity |].
  intros [Hc Hs]%andb_prop. now rewrite (IH Hs), Hc.
Qed.

Lemma rstrip_append_blank (word post : string) :
  all_chars (fun c => negb (PyStr.isspace c)) word = true ->
  blank post = true ->
  PyStr.rstrip (word +:+ post) = word.
Proof.
  intros Hw Hp. induction word as [|c word IH]; simpl.
  - now apply rstrip_blank.
  - simpl in Hw. apply andb_prop in Hw as [Hc Hw]. rewrite (IH Hw).
    apply negb_true_iff in Hc. rewrite Hc. now rewrite andb_false_r.
Qed.

(** Whitespace around a word without whitespace is stripped, and nothing
    else. *)
Lemma strip_padding (pre word post : string) :
  blank pre = true ->
  all_chars (fun c => negb (PyStr.isspace c)) word = true ->
  blank post = true ->
  PyStr.strip (pre +:+ word +:+ post) = word.
Proof.
  intros Hpre Hw Hpost. unfold PyStr.strip. rewrite (lstrip_append_blank _ _ Hpre).
  destruct word as [|c word].
  - simpl. rewrite (lstrip_blank _ Hpost). reflexivity.
  - simpl in Hw. apply andb_prop in Hw as [Hc Hw].
    assert (Hc' : PyStr.isspace c = false) by now apply negb_true_iff.
    simpl PyStr.lstrip. rewrite Hc'.
    apply (rstrip_append_blank (String c word)); [| exact Hpost].
    simpl. now rewrite Hc.
Qed.

Lemma isspace_lower_char (c : ascii) :
  PyStr.isspace (PyStr.lower_char c) = PyStr.isspace c.
Proof. destruct c as [[] [] [] [] [] [] [] []]; reflexivity. Qed.

Lemma no_space_lower (s : string) :
  all_chars (fun c => negb (PyStr.isspace c)) (PyStr.lower s)
  = all_chars (fun c => negb (PyStr.isspace c)) s.
Proof.
  induction s as [|c s IH]; simpl; [reflexivity |]. now rewrite isspace_lower_char, IH.
Qed.

End stripping.

Section reply_phrases.
Import Json Eff Client Host PyMore.

(** X9. A reply counts as an approval or a cancellation whatever the
    whitespace around it and whatever the case of its letters. *)
Theorem replies_ignore_padding_and_case (pre word post phrase : string) :
  blank pre = true ->
  blank post = true ->
  PyStr.lower word = phrase ->
  (In phrase affirmative -> is_affirmative (pre +:+ word +:+ post) = true)
  /\ (In phrase negative -> is_negative (pre +:+ word +:+ post) = true).
Proof.
  intros Hpre Hpost Hlow.
  assert (Hstrip : In phrase (affirmative ++ negative) ->
                   PyStr.lower (PyStr.strip (pre +:+ word +:+ post)) = phrase).
  { intros Hin. rewrite strip_padding; [exact Hlow | exact Hpre | | exact Hpost].
    rewrite <- no_space_lower, Hlow.
    simpl in Hin. repeat (destruct Hin as [<-|Hin]; [reflexivity |]). contradiction. }
  split; intros Hin.
  - unfold is_affirmative. rewrite Hstrip by (apply in_or_app; now left).
    now apply mem_true_iff.
  - unfold is_negative. rewrite Hstrip by (apply in_or_app; now right).
    now apply mem_true_iff.
Qed.

End reply_phrases.

(** ** Risk assessment and the store *)

Section store_operations.
Import Json Eff Client ClientApp Host PyMore ClientGui.

(** X10. Where no entry is pinned to the arguments of a call, the risk
    assessment reports the verdict of the evaluation, and it asks for an
    approval exactly when that verdict is [ask] or [deny]. *)
Theorem assessment_agrees_with_evaluation (h : host) (tool_name : string) (arguments : json) :
  let perms := permissions (base h) in
  PyDict.get (tool_name +:+ ":" +:+ dumps true None arguments) perms = None ->
  permission (assess_risk h tool_name arguments) = check_permission perms tool_name arguments
  /\ (requires_approval (assess_risk h tool_name arguments) = true <->
      check_permission perms tool_name arguments = "ask"%string
      \/ check_permission perms tool_name arguments = "deny"%string).
Proof.
  intros perms Hnone. unfold assess_risk, check_permission. fold perms. rewrite Hnone.
  cbn [permission requires_approval].
  destruct (PyDict.get tool_name perms) as [v|]; cbn [default].
  - split; [reflexivity |]. rewrite mem_true_iff. simpl. intuition congruence.
  - split; [reflexivity |]. rewrite mem_true_iff. simpl. intuition congruence.
Qed.

Lemma get_set_other {V} (k k' : string) (v : V) (d : list (string * V)) :
  k <> k' -> PyDict.get k' (PyDict.set k v d) = PyDict.get k' d.
Proof.
  intros Hne. apply not_eq_sym, String.eqb_neq in Hne.
  induction d as [|[k0 v0] d IH]; simpl.
  - now rewrite Hne.
  - destruct (String.eqb_spec k k0) as [->|Hk]; simpl; [now rewrite Hne |].
    now rewrite IH.
Qed.

Lemma configure_cases (c : client) (tool_name policy : string) :
  state_after (gui_configure_permission tool_name policy) c
  = (if (PyStr.is_empty tool_name || negb (PyStr.mem policy ["allow"; "deny"; "ask"]%string))%bool
     then c
     else
       let p := PyDict.set tool_name policy (permissions c) in
       {| permissions := p;
          permissions_file := Some (dumps false (Some 2%nat) (json_of_permissions p));
          trace := trace c |}).
Proof.
  unfold state_after, gui_configure_permission.
  destruct (PyStr.is_empty tool_name); [reflexivity |].
  destruct (PyStr.mem policy _); reflexivity.
Qed.

(** X11. Setting the policy of one key changes the verdict of no call
    that is evaluated through other keys: a call whose tool name and
    composite key both differ from the key keeps its verdict. *)
Theorem configure_leaves_other_calls (c : client) (key policy t : string) (a : json) :
  key <> t ->
  key <> (t +:+ ":" +:+ dumps true None a)%string ->
  check_permission (permissions (state_after (gui_configure_permission key policy) c)) t a
  = check_permission (permissions c) t a.
Proof.
  intros Ht Hk. rewrite configure_cases.
  destruct (_ || _)%bool; [reflexivity |].
  cbn [permissions]. unfold check_permission.
  now rewrite !get_set_other.
Qed.

(** X12. The set-policy operation refuses an empty key and a policy
    other than [allow], [deny] and [ask]: it answers with a message and
    changes neither the store nor the file. *)
Theorem configure_rejects_bad_input (c : client) (tool_name policy : string) :
  tool_name = EmptyString \/ ~ In policy ["allow"; "deny"; "ask"]%string ->
  state_after (gui_configure_permission tool_name policy) c = c
  /\ (result (gui_configure_permission tool_name policy) c
        = Returned "Please enter a tool name"%string
      \/ result (gui_configure_permission tool_name policy) c
        = Returned "Policy must be: allow, deny, or ask"%string).
Proof.
  intros Hbad. unfold state_after, result, gui_configure_permission.
  destruct (PyStr.is_empty tool_name) eqn:He; [split; [reflexivity | now left] |].
  destruct Hbad as [->|Hpol]; [discriminate |].
  destruct (PyStr.mem policy _) eqn:Hm; [| split; [reflexivity | now right]].
  now apply mem_true_iff in Hm.
Qed.

Lemma gui_call_tool_keeps_store (E : env) (decode_error : string -> string)
    (sel args : string) (approved : bool) (c : client) :
  permissions (state_after (gui_call_tool E decode_error sel args approved) c) = permissions c.
Proof.
  unfold state_after, gui_call_tool.
  destruct (PyStr.is_empty sel); [reflexivity |].
  destruct (parse_arguments args) as [a|]; [| reflexivity].
  unfold bind, call_tool_with_permission, gets, log_audit, modify, call_tool, bind.
  destruct (String.eqb _ "deny"); [reflexivity |].
  destruct (String.eqb _ "ask" && negb approved)%bool; simpl; [reflexivity |].
  now destruct (session_call_tool _ _ _ _).
Qed.

Lemma saves_from_same_store (E : env) (decode_error : string -> string)
    (actions : list action) (c1 c2 : client) :
  forallb is_save actions = true ->
  permissions c1 = permissions c2 ->
  permissions (run E decode_error actions c1) = permissions (run E decode_error actions c2).
Proof.
  revert c1 c2. induction actions as [|a actions IH]; intros c1 c2 Hs Hp; [exact Hp |].
  simpl in Hs. apply andb_prop in Hs as [Ha Hs].
  destruct a as [sel args|sel args|tool_name policy]; try discriminate.
  simpl. apply IH; [exact Hs |]. rewrite !configure_cases.
  destruct (_ || _)%bool; [exact Hp |]. cbn [permissions]. now rewrite Hp.
Qed.

Lemma forallb_filter_same {A} (f : A -> bool) (l : list A) :
  forallb f (List.filter f l) = true.
Proof.
  induction l as [|x l IH]; [reflexivity |].
  simpl. destruct (f x) eqn:Hx; [| exact IH]. simpl. now rewrite Hx.
Qed.

(** X13. In the client application only the set-policy operation
    changes the store. After any sequence of calls, approvals and policy
    changes, the store is what the policy changes alone give: no call
    and no approval changes it, whatever the tool executor answers and
    whatever it does to the permissions file. *)
Theorem store_changes_by_configuration_only
    (E : env) (decode_error : string -> string) (actions : list action) (c : client) :
  forallb covered_action actions = true ->
  permissions (run E decode_error actions c)
  = permissions (run E decode_error (List.filter is_save actions) c).
Proof.
  intros _. revert c. induction actions as [|a actions IH]; intros c; [reflexivity |].
  destruct a as [sel args|sel args|tool_name policy]; simpl.
  - rewrite IH. apply saves_from_same_store; [apply forallb_filter_same |].
    apply gui_call_tool_keeps_store.
  - rewrite IH. apply saves_from_same_store; [apply forallb_filter_same |].
    apply gui_call_tool_keeps_store.
  - apply IH.
Qed.

End store_operations.

(** ** The tools tab of the client application *)

Section client_gui.
Import Json Eff Client ClientApp Host PyMore ClientGui.

Variable E : env.
Variable decode_error : string -> string.

Lemma before_cons (sep : string) (c : ascii) (r : string) :
  before sep (String c r)
  = if String.prefix sep (String c r) then EmptyString else String c (before sep r).
Proof. reflexivity. Qed.

Lemma before_empty (sep : string) : before sep EmptyString = EmptyString.
Proof. destruct sep; reflexivity. Qed.

Lemma prefix_cons (a c : ascii) (x r : string) :
  String.prefix (String a x) (String c r) = true <-> a = c /\ String.prefix x r = true.
Proof.
  simpl. destruct (ascii_dec a c) as [->|Hne]; [tauto |].
  split; [discriminate | now intros [? _]].
Qed.

Lemma prefix_before (sep x s : string) :
  String.prefix x (before sep s) = true -> String.prefix x s = true.
Proof.
  revert x. induction s as [|c r IH]; intros x.
  - now rewrite before_empty.
  - rewrite before_cons. destruct (String.prefix sep (String c r)).
    + destruct x; [reflexivity | discriminate].
    + destruct x as [|a x]; [reflexivity |].
      rewrite !prefix_cons. intros [-> Hx]. split; [reflexivity | now apply IH].
Qed.

(** What [split] returns first holds no separator. *)
Lemma before_has_no_separator (sep s : string) :
  sep <> EmptyString -> PyStr.contains sep (before sep s) = false.
Proof.
  intros Hsep.
  assert (Hempty : PyStr.contains sep EmptyString = false).
  { destruct sep; [now destruct Hsep | reflexivity]. }
  induction s as [|c r IH]; [now rewrite before_empty |].
  rewrite before_cons. destruct (String.prefix sep (String c r)) eqn:Hp; [exact Hempty |].
  change (String.prefix sep (String c (before sep r)) || PyStr.contains sep (before sep r)
          = false)%bool.
  rewrite IH, orb_false_r.
  destruct (String.prefix sep (String c (before sep r))) eqn:Hq; [| reflexivity].
  assert (Hb : String c (before sep r) = before sep (String c r))
    by now rewrite before_cons, Hp.
  rewrite Hb in Hq. apply prefix_before in Hq. congruence.
Qed.

Lemma before_label (name rest : string) :
  PyStr.contains " (" name = false -> before " (" (name +:+ " (" +:+ rest) = name.
Proof.
  induction name as [|c name IH]; [intros _; now destruct rest |].
  intros Hc.
  change (String.prefix " (" (String c name) || PyStr.contains " (" name = false)%bool in Hc.
  apply orb_false_elim in Hc as [Hp Hn].
  change (String c name +:+ " (" +:+ rest) with (String c (name +:+ " (" +:+ rest)).
  rewrite before_cons.
  assert (Hq : String.prefix " (" (String c (name +:+ " (" +:+ rest)) = false).
  { destruct (String.prefix " (" (String c (name +:+ " (" +:+ rest))) eqn:Hq; [| reflexivity].
    apply prefix_cons in Hq as [<- Hq].
    destruct name as [|c2 name].
    - change (String.prefix "(" (String " " (String "(" rest)) = true) in Hq.
      apply prefix_cons in Hq as [Hq _]. discriminate Hq.
    - change (String.prefix "(" (String c2 (name +:+ " (" +:+ rest)) = true) in Hq.
      apply prefix_cons in Hq as [<- _].
      assert (Ht : String.prefix " (" (String " " (String "(" name)) = true).
      { apply prefix_cons. split; [reflexivity |]. apply prefix_cons.
        split; [reflexivity | now destruct name]. }
      congruence. }
  rewrite Hq. now rewrite IH.
Qed.

(** X14. The choice the tool selector shows for a tool selects that
    tool, provided its name holds no space followed by an opening
    parenthesis; a tool with such a name cannot be called from the
    selector under its own name. *)
Theorem selection_names_the_tool
    (perms : list (string * string)) (tools_cache : list string) (name arguments_json : string)
    (arguments : json) (approved : bool) (c : client) :
  In name tools_cache ->
  parse_arguments arguments_json = Some arguments ->
  let choice := (name +:+ " (" +:+ default "ask"%string (PyDict.get name perms) +:+ ")")%string in
  In choice (tool_choices perms tools_cache)
  /\ (PyStr.contains " (" name = false ->
      gui_call_tool E decode_error choice arguments_json approved c
      = bind (call_tool_with_permission E name arguments approved)
          (fun res => ret (first_text res)) c)
  /\ (PyStr.contains " (" name = true -> before " (" choice <> name).
Proof.
  intros Hin Hargs choice. split; [| split].
  - unfold tool_choices. apply List.in_map_iff. now exists name.
  - intros Hc. unfold gui_call_tool.
    assert (Hne : PyStr.is_empty choice = false).
    { unfold choice. destruct name; reflexivity. }
    rewrite Hne, Hargs. unfold choice. now rewrite before_label.
  - intros Hc Heq.
    pose proof (before_has_no_separator " (" choice) as Hb.
    rewrite Heq, Hc in Hb. discriminate Hb. discriminate.
Qed.

Lemma strip_blank (s : string) : blank s = true -> PyStr.strip s = EmptyString.
Proof. intros Hb. unfold PyStr.strip. now rewrite lstrip_blank. Qed.

Lemma loads_not_a_value (s r : string) (ch : ascii) :
  skip_ws s = String ch r -> starts_value ch = false -> loads s = None.
Proof.
  intros Hs Hv. unfold loads. rewrite Hs. unfold starts_value in Hv.
  apply orb_false_elim in Hv as [Hv H73]. apply orb_false_elim in Hv as [Hv H78].
  apply orb_false_elim in Hv as [Hv Hdig]. apply orb_false_elim in Hv as [Hv H45].
  apply orb_false_elim in Hv as [Hv H102]. apply orb_false_elim in Hv as [Hv H116].
  apply orb_false_elim in Hv as [Hv H110]. apply orb_false_elim in Hv as [Hv H91].
  apply orb_false_elim in Hv as [H34 H123].
  assert (H48 : N.eqb (PyStr.code ch) 48 = false).
  { destruct (N.eqb_spec (PyStr.code ch) 48) as [Heq|]; [| reflexivity].
    unfold PyStr.in_range in Hdig. rewrite Heq in Hdig. discriminate Hdig. }
  cbn [parse_value]. rewrite H34, H123, H91, H110, H116, H102.
  unfold scan_number, is_digit. now rewrite H45, H48, Hdig.
Qed.

(** X15. What the call button does with its inputs. Without a selection
    it answers with a message and does nothing. Arguments that are empty
    or only whitespace stand for the empty dictionary. Arguments that do
    not start like a JSON value are reported as invalid, and nothing is
    evaluated, logged or executed. *)
Theorem call_button_inputs
    (tool_selection arguments_json : string) (approved : bool) (c : client) :
  (tool_selection = EmptyString ->
   gui_call_tool E decode_error tool_selection arguments_json approved c
   = (Returned "Please select a tool first"%string, c))
  /\ (blank arguments_json = true ->
      gui_call_tool E decode_error tool_selection arguments_json approved c
      = gui_call_tool E decode_error tool_selection "{}" approved c)
  /\ (forall ch r,
        tool_selection <> EmptyString ->
        PyStr.is_empty (PyStr.strip arguments_json) = false ->
        skip_ws arguments_json = String ch r ->
        starts_value ch = false ->
        gui_call_tool E decode_error tool_selection arguments_json approved c
        = (Returned ("Invalid JSON in arguments: " +:+ decode_error arguments_json), c)).
Proof.
  split; [| split].
  - intros ->. reflexivity.
  - intros Hb. unfold gui_call_tool, parse_arguments. now rewrite (strip_blank _ Hb).
  - intros ch r Hsel Hstrip Hs Hv. unfold gui_call_tool, parse_arguments.
    destruct tool_selection; [now destruct Hsel |]. simpl PyStr.is_empty.
    now rewrite Hstrip, (loads_not_a_value _ _ _ Hs Hv).
Qed.

(** X16. In the client application a call under [ask] is paused and the
    approve button then runs it: the log gets an [ASK] record, then an
    [ALLOWED] record, then the tool is executed once. The approve button
    needs no earlier request: pressed first, it runs the tool at once. *)
Theorem call_then_approve
    (tool_selection arguments_json : string) (arguments : json) (c : client) :
  let t := before " (" tool_selection in
  let paused := tool_record E c t "ASK" "Awaiting approval" in
  let c1 := emit (Audit paused) c in
  tool_selection <> EmptyString ->
  parse_arguments arguments_json = Some arguments ->
  check_permission (permissions c) t (or_empty arguments) = "ask"%string ->
  result (gui_call_tool E decode_error tool_selection arguments_json false) c
    = Returned (approval_msg t (or_empty arguments))
  /\ trace (run E decode_error
              [CallTool tool_selection arguments_json;
               ApproveTool tool_selection arguments_json] c)
     = trace c ++ [Audit paused;
                   Audit (tool_record E c1 t "ALLOWED" "Policy: ask");
                   ToolCall t (or_empty arguments)]
  /\ trace (run E decode_error [ApproveTool tool_selection arguments_json] c)
     = trace c ++ [Audit (tool_record E c t "ALLOWED" "Policy: ask");
                   ToolCall t (or_empty arguments)].
Proof.
  intros t paused c1 Hsel Hargs Hask.
  assert (Hgui : forall approved,
            gui_call_tool E decode_error tool_selection arguments_json approved
            = bind (call_tool_with_permission E t arguments approved)
                (fun res => ret (first_text res))).
  { intros approved. unfold gui_call_tool.
    destruct tool_selection; [now destruct Hsel |]. simpl PyStr.is_empty. now rewrite Hargs. }
  assert (Hallow : forall c', permissions c' = permissions c ->
            state_after (bind (call_tool_with_permission E t arguments true)
                           (fun res => ret (first_text res))) c'
            = called E t (or_empty arguments)
                (emit (Audit (tool_record E c' t "ALLOWED" "Policy: ask")) c')).
  { intros c' Hp. unfold state_after, bind.
    assert (Hv : check_permission (permissions c') t (or_empty arguments) = "ask"%string)
      by now rewrite Hp.
    rewrite (call_allow E c' t arguments true); [| rewrite Hv; discriminate | now right].
    rewrite Hv. now destruct (session_call_tool _ _ _ _). }
  assert (Hfirst : gui_call_tool E decode_error tool_selection arguments_json false c
                   = (Returned (approval_msg t (or_empty arguments)), c1)).
  { rewrite Hgui. unfold bind. now rewrite (call_ask E c t arguments Hask). }
  split; [unfold result; now rewrite Hfirst |]. split.
  - change (run E decode_error _ c)
      with (state_after (gui_call_tool E decode_error tool_selection arguments_json true)
              (state_after (gui_call_tool E decode_error tool_selection arguments_json false)
                 c)).
    unfold state_after at 2. rewrite Hfirst. cbn [snd].
    rewrite Hgui, (Hallow c1 eq_refl). simpl. now rewrite <- !app_assoc.
  - change (run E decode_error _ c)
      with (state_after (gui_call_tool E decode_error tool_selection arguments_json true) c).
    rewrite Hgui, (Hallow c eq_refl). simpl. now rewrite <- !app_assoc.
Qed.

End client_gui.

(** ** The chat window *)

Section chat_window.
Import Json Eff Client Host PyMore HostUi HostTools HostHelpers.

Variable HE : host_env.

(** X17. The chat window drops a message that is empty or only
    whitespace: the history it shows and the state of the host stay as
    they are. For any other message it runs one chat turn and shows the
    message and the answer after the old history. *)
Theorem chat_window_drops_blank_messages
    (message : string) (history : list ui_message) (h : host) :
  (blank message = true -> chat_wrapper HE message history h = (Returned history, h))
  /\ (PyStr.is_empty (PyStr.strip message) = false ->
      forall response h',
        chat HE message h = (Returned response, h') ->
        chat_wrapper HE message history h
        = (Returned (history ++ [ {| ui_role := "user"; ui_content := Some message |};
                                  {| ui_role := "assistant"; ui_content := response |} ]),
           h')).
Proof.
  split.
  - intros Hb. unfold chat_wrapper. now rewrite (strip_blank _ Hb).
  - intros Hs response h' Hchat. unfold chat_wrapper, bind. now rewrite Hs, Hchat.
Qed.

Lemma affirmative_not_blank (reply : string) :
  is_affirmative reply = true -> PyStr.is_empty (PyStr.strip reply) = false.
Proof.
  unfold is_affirmative. destruct (PyStr.strip reply); [discriminate | reflexivity].
Qed.

(** X18. Clearing the conversation empties the history and nothing else:
    a pending approval stays outstanding, and an affirmative reply after
    the clearing still executes the pending call. *)
Theorem clearing_keeps_the_pending_approval
    (h : host) (reply tool_name : string) (arguments : json) :
  pending_approval h = Some (tool_name, arguments) ->
  is_affirmative reply = true ->
  check_permission (permissions (base h)) tool_name (or_empty arguments) <> "deny"%string ->
  let h1 := state_after reset_conversation h in
  conversation_history h1 = []
  /\ pending_approval h1 = Some (tool_name, arguments)
  /\ base h1 = base h
  /\ tool_calls (base (run HE [Clear; Say reply] h))
     = tool_calls (base h) ++ [(tool_name, or_empty arguments)].
Proof.
  intros Hp Hyes Hd h1.
  assert (Hh1 : h1 = set_history [] h) by reflexivity.
  split; [reflexivity |]. split; [exact Hp |]. split; [reflexivity |].
  change (run HE [Clear; Say reply] h) with (state_after (chat_wrapper HE reply []) h1).
  assert (Hw : base (state_after (chat_wrapper HE reply []) h1)
               = base (state_after (chat HE reply) h1)).
  { unfold state_after, chat_wrapper, bind. rewrite (affirmative_not_blank _ Hyes).
    now destruct (chat HE reply h1) as [[r|e] h2]. }
  rewrite Hw, (approved_reply_base HE h1 reply tool_name arguments Hp Hyes).
  unfold state_after.
  rewrite (call_allow (base_env HE) (base h1) tool_name arguments true Hd (or_intror eq_refl)).
  cbn [snd]. now rewrite tool_calls_called, tool_calls_emit_audit.
Qed.

Lemma schema_name_tool (perms : list (string * string)) (t : tool_info) :
  schema_name (tool_schema perms t) = Some (ti_name t).
Proof. reflexivity. Qed.

(** X19. The tools offered to the language model are the tools of the
    server, in their order, followed by the four helpers for resources
    and prompts. A call of one of the helper names is answered by the
    helper: no policy is evaluated for it, nothing is logged and nothing
    becomes pending, whatever the store says about that name. *)
Theorem advertised_tools_and_helpers
    (perms : list (string * string)) (mcp_tools : list tool_info) :
  omap schema_name (get_available_tools perms mcp_tools)
  = List.map ti_name mcp_tools ++ synthetic_names
  /\ forall name arguments h,
       In name synthetic_names ->
       execute_tool HE name arguments h = (synthetic_tool HE name arguments, h).
Proof.
  split.
  - unfold get_available_tools. rewrite omap_app.
    f_equal. induction mcp_tools as [|t ts IH]; [reflexivity |].
    change (omap schema_name (List.map (tool_schema perms) (t :: ts)))
      with (match schema_name (tool_schema perms t) with
            | Some n => n :: omap schema_name (List.map (tool_schema perms) ts)
            | None => omap schema_name (List.map (tool_schema perms) ts)
            end).
    rewrite schema_name_tool, IH. reflexivity.
  - intros name arguments h Hin. unfold execute_tool.
    apply mem_true_iff in Hin. now rewrite Hin.
Qed.

(** X20. The helpers that read a resource or render a prompt check
    their argument first: without a usable [uri] or [name] they answer
    with an error text and do not reach the server. For arguments that
    are a dictionary they never raise; a failure of the server comes
    back as a text. *)
Theorem helpers_check_their_argument (C : catalogue) (d : list (string * json)) :
  (truthy (default JNull (PyDict.get "uri" d)) = false ->
   mcp_read_resource C (JObject d) = Returned "Error: URI is required"%string)
  /\ (truthy (default JNull (PyDict.get "name" d)) = false ->
      mcp_get_prompt C (JObject d) = Returned "Error: Prompt name is required"%string)
  /\ (exists text, mcp_read_resource C (JObject d) = Returned text)
  /\ (exists text, mcp_get_prompt C (JObject d) = Returned text).
Proof.
  unfold mcp_read_resource, mcp_get_prompt. cbn [dict_get].
  split; [now intros -> |]. split; [now intros -> |]. split.
  - destruct (truthy _); cbn [negb]; [| eauto].
    destruct (read_resource C _); eauto.
  - destruct (truthy _); cbn [negb]; [| eauto].
    destruct (get_prompt C _ _); eauto.
Qed.

(** X21. The same helpers raise when their arguments are not a
    dictionary, and [execute_tool] does not catch it: when the language
    model asks for such a call first, the chat turn ends in that
    exception. *)
Theorem helper_call_without_dictionary_raises
    (C : catalogue) (user_message : string) (h : host) (tools : json)
    (am : assistant_message) (tc : tool_call) (calls : list tool_call) (v : json) :
  let HC := with_catalogue C HE in
  pending_approval h = None ->
  available_tools HE (permissions (base h)) = Returned tools ->
  llm_create HE (conversation_history h ++ [MsgUser user_message]) (Some tools)
    = Returned (Some am) ->
  am_tool_calls am = tc :: calls ->
  tc_name tc = "mcp_read_resource"%string \/ tc_name tc = "mcp_get_prompt"%string ->
  loads (tc_arguments tc) = Some v ->
  type_name v <> "dict"%string ->
  result (chat HC user_message) h
  = Raised ("'" +:+ type_name v +:+ "' object has no attribute 'get'")
  /\ base (state_after (chat HC user_message) h) = base h.
Proof.
  intros HC Hp Htools Hllm Hcalls Hname Hloads Hv.
  assert (Hsyn : synthetic C (tc_name tc) v
                 = Raised ("'" +:+ type_name v +:+ "' object has no attribute 'get'")).
  { destruct Hname as [-> | ->]; unfold synthetic; simpl;
      unfold mcp_read_resource, mcp_get_prompt; destruct v; try reflexivity;
      now destruct Hv. }
  assert (Hmem : PyStr.mem (tc_name tc) synthetic_names = true)
    by (destruct Hname as [-> | ->]; reflexivity).
  assert (Hrun : forall s,
            run_tool_call HC tc s
            = (Raised ("'" +:+ type_name v +:+ "' object has no attribute 'get'"), s)).
  { intros s. unfold run_tool_call. rewrite Hloads.
    unfold bind, gets, execute_tool. rewrite Hmem. unfold ask_oracle. simpl.
    now rewrite Hsyn. }
  unfold result, state_after, chat. rewrite Hp.
  unfold chat_llm, bind, modify, ask_oracle. simpl.
  rewrite Htools, Hllm, Hcalls. simpl. unfold bind. rewrite !Hrun.
  split; reflexivity.
Qed.

End chat_window.

Section server_config.
Import Json Client Server.

(** X22. The permissions resource of the server shows a document that
    the client loads to the store it starts with: the contents of the
    permissions file when there is one, and the defaults of the client
    when there is none. *)
Theorem server_config_matches_client (file : option string) :
  load_permissions (Some (get_permissions_config file)) = load_permissions file
  /\ (file = None ->
      load_permissions (Some (get_permissions_config file)) = Some default_permissions).
Proof.
  destruct file as [text|]; split; try reflexivity. discriminate.
Qed.

End server_config.

(** ** Runs of the further properties *)

Section further_runs.
Import Json Eff Client ClientApp Host PyMore HostTools HostHelpers Audited.
Import Examples Scenarios.

Lemma host_reading_within_model : Turn.within_model host_reading.
Proof.
  intros history tools am tc Hllm Hin.
  destruct tools; simpl in Hllm; injection Hllm as <-; simpl in Hin; [| contradiction].
  now destruct Hin as [<-|[]].
Qed.

Lemma chat_executes_only_what_policy_allows_witness :
  Turn.within_model host_reading
  /\ tool_calls (base (state_after (chat host_reading "read the notes") host0))
     = [("read_file"%string, args_r)]
  /\ exists extra,
       trace (base (state_after (chat host_reading "read the notes") host0))
       = trace (base host0) ++ extra
       /\ forall t a,
            In (ToolCall t a) extra ->
            check_permission (permissions (base host0)) t a <> "deny"%string.
Proof.
  split; [exact host_reading_within_model |]. split; [reflexivity |].
  destruct (chat_executes_only_what_policy_allows host_reading "read the notes" host0
              host_reading_within_model) as (extra & Ht & Hok).
  exists extra. split; [exact Ht |]. intros t a Hin. exact (proj1 (Hok t a Hin)).
Defined.

Lemma every_execution_is_audited_witness :
  Turn.within_model (host_with server_ok)
  /\ audited (trace (base host_pending)) = true
  /\ audited (trace (base (HostUi.run (host_with server_ok)
                             [HostUi.Say "yes"; HostUi.Clear; HostUi.Say "write it"]
                             host_pending))) = true.
Proof.
  split; [apply host_with_within_model |]. split; [reflexivity |].
  exact (every_execution_is_audited (host_with server_ok)
           [HostUi.Say "yes"; HostUi.Clear; HostUi.Say "write it"] host_pending
           (host_with_within_model server_ok) eq_refl).
Defined.

Lemma host_never_changes_policy_witness :
  Turn.within_model (host_with server_overwriting)
  /\ permissions_file
       (base (HostUi.run (host_with server_overwriting) [HostUi.Say "yes"] host_pending))
     = Some "{}"%string
  /\ permissions
       (base (HostUi.run (host_with server_overwriting) [HostUi.Say "yes"] host_pending))
     = permissions (base host_pending).
Proof.
  split; [apply host_with_within_model |]. split; [reflexivity |].
  exact (host_never_changes_policy (host_with server_overwriting) [HostUi.Say "yes"]
           host_pending (host_with_within_model server_overwriting)).
Defined.

Lemma chat_appends_to_history_witness :
  Turn.within_model (host_with server_ok)
  /\ exists more,
       conversation_history (state_after (chat (host_with server_ok) "write it") host0)
       = conversation_history host0 ++ MsgUser "write it" :: more.
Proof.
  split; [apply host_with_within_model |].
  exact (chat_appends_to_history (host_with server_ok) "write it" host0
           (host_with_within_model server_ok)).
Defined.

Lemma idle_reply_is_an_ordinary_message_witness :
  pending_approval host0 = None
  /\ is_affirmative "yes" = true
  /\ result (chat (host_quiet server_ok) "yes") host0 = Returned (Some "Hello."%string)
  /\ base (state_after (chat (host_quiet server_ok) "yes") host0) = base host0
  /\ conversation_history (state_after (chat (host_quiet server_ok) "yes") host0)
     = [MsgUser "yes"; MsgAssistant (Some "Hello."%string)].
Proof.
  split; [reflexivity |]. split; [reflexivity |].
  pose proof (idle_reply_is_an_ordinary_message (host_quiet server_ok) "yes" host0
                (JArray []) {| am_content := Some "Hello."%string; am_tool_calls := [] |}
                eq_refl eq_refl eq_refl eq_refl) as (_ & Hres & Hbase & _ & Hhist).
  split; [exact Hres |]. split; [exact Hbase | exact Hhist].
Defined.

Lemma unrecognised_reply_keeps_pending_witness :
  pending_approval host_pending = Some ("write_file"%string, args_a)
  /\ is_affirmative "maybe later" = false
  /\ is_negative "maybe later" = false
  /\ Turn.within_model (host_with server_ok)
  /\ exists p',
       pending_approval (state_after (chat (host_with server_ok) "maybe later") host_pending)
       = Some p'.
Proof.
  split; [reflexivity |]. split; [reflexivity |]. split; [reflexivity |].
  split; [apply host_with_within_model |].
  exact (proj2 (unrecognised_reply_keeps_pending (host_with server_ok) "maybe later"
                  host_pending ("write_file"%string, args_a)
                  (host_with_within_model server_ok) eq_refl eq_refl eq_refl)).
Defined.

Lemma executor_failures_become_text_witness :
  PyStr.mem "read_file" synthetic_names = false
  /\ pending_approval host_pending <> None
  /\ is_affirmative "yes" = true
  /\ (exists text,
        result (execute_tool (host_with server_down) "read_file" args_a) host_pending
        = Returned text)
  /\ (exists text,
        result (chat (host_with server_down) "yes") host_pending = Returned (Some text)).
Proof.
  assert (Hp : pending_approval host_pending <> None) by discriminate.
  split; [reflexivity |]. split; [exact Hp |]. split; [reflexivity |].
  pose proof (executor_failures_become_text (host_with server_down) "yes" "read_file"
                args_a host_pending) as [Hexec Hchat].
  split; [exact (Hexec eq_refl) | exact (Hchat Hp (or_introl eq_refl))].
Defined.

Lemma executed_tool_can_register_itself_witness :
  check_permission (permissions client0) "read_file" (or_empty args_a) = "allow"%string
  /\ is_approval_request prompting_text = true
  /\ pending_approval
       (state_after (execute_tool (host_with server_prompting) "read_file" args_a) host0)
     = Some ("read_file"%string, args_a)
  /\ tool_calls
       (base (state_after (chat (host_with server_prompting) "yes")
                (state_after (execute_tool (host_with server_prompting) "read_file" args_a)
                   host0)))
     = [("read_file"%string, args_a); ("read_file"%string, args_a)].
Proof.
  split; [reflexivity |]. split; [reflexivity |].
  assert (Hd : check_permission (permissions client0) "read_file" (or_empty args_a)
               <> "deny"%string) by discriminate.
  assert (Ha : check_permission (permissions client0) "read_file" (or_empty args_a)
               <> "ask"%string) by discriminate.
  pose proof (executed_tool_can_register_itself (host_with server_prompting) "yes"
                "read_file" prompting_text args_a [] host0 eq_refl Hd Ha eq_refl eq_refl
                eq_refl) as (_ & _ & Hpend & Hcalls).
  split; [exact Hpend | exact Hcalls].
Defined.

Lemma replies_ignore_padding_and_case_witness :
  blank "  " = true
  /\ PyStr.lower "Yes" = "yes"%string
  /\ In "yes"%string affirmative
  /\ is_affirmative "  Yes  " = true
  /\ In "cancel"%string negative
  /\ is_negative "  CANCEL " = true.
Proof.
  assert (Hy : In "yes"%string affirmative) by (vm_compute; tauto).
  assert (Hn : In "cancel"%string negative) by (vm_compute; tauto).
  split; [reflexivity |]. split; [reflexivity |]. split; [exact Hy |].
  split; [| split; [exact Hn |]].
  - exact (proj1 (replies_ignore_padding_and_case "  " "Yes" "  " "yes"
                    eq_refl eq_refl eq_refl) Hy).
  - exact (proj2 (replies_ignore_padding_and_case "  " "CANCEL" " " "cancel"
                    eq_refl eq_refl eq_refl) Hn).
Defined.

Lemma assessment_agrees_with_evaluation_witness :
  PyDict.get ("write_file" +:+ ":" +:+ dumps true None args_a) (permissions (base host0)) = None
  /\ permission (assess_risk host0 "write_file" args_a) = "ask"%string.
Proof.
  split; [reflexivity |].
  exact (proj1 (assessment_agrees_with_evaluation host0 "write_file" args_a eq_refl)).
Defined.

Lemma configure_leaves_other_calls_witness :
  "delete_file"%string <> "write_file"%string
  /\ "delete_file"%string <> ("write_file" +:+ ":" +:+ dumps true None args_a)%string
  /\ check_permission
       (permissions (state_after (gui_configure_permission "delete_file" "allow") client0))
       "write_file" args_a
     = check_permission (permissions client0) "write_file" args_a.
Proof.
  assert (H1 : "delete_file"%string <> "write_file"%string) by discriminate.
  assert (H2 : "delete_file"%string <> ("write_file" +:+ ":" +:+ dumps true None args_a)%string)
    by discriminate.
  split; [exact H1 |]. split; [exact H2 |].
  exact (configure_leaves_other_calls client0 "delete_file" "allow" "write_file" args_a H1 H2).
Defined.

Lemma configure_rejects_bad_input_witness :
  ~ In "maybe"%string ["allow"; "deny"; "ask"]%string
  /\ state_after (gui_configure_permission "write_file" "maybe") client0 = client0.
Proof.
  assert (H : ~ In "maybe"%string ["allow"; "deny"; "ask"]%string).
  { intros [H | [H | [H | []]]]; discriminate H. }
  split; [exact H |].
  exact (proj1 (configure_rejects_bad_input client0 "write_file" "maybe" (or_intror H))).
Defined.

Lemma store_changes_by_configuration_only_witness :
  forallb ClientGui.covered_action
    [ClientGui.CallTool write_choice "{}";
     ClientGui.SavePermission "write_file" "allow";
     ClientGui.ApproveTool write_choice "{}"] = true
  /\ permissions_file
       (ClientGui.run server_overwriting decode_error
          [ClientGui.CallTool write_choice "{}";
           ClientGui.SavePermission "write_file" "allow";
           ClientGui.ApproveTool write_choice "{}"] client0)
     = Some "{}"%string
  /\ permissions
       (ClientGui.run server_overwriting decode_error
          [ClientGui.CallTool write_choice "{}";
           ClientGui.SavePermission "write_file" "allow";
           ClientGui.ApproveTool write_choice "{}"] client0)
     = permissions
         (ClientGui.run server_overwriting decode_error
            [ClientGui.SavePermission "write_file" "allow"] client0).
Proof.
  split; [reflexivity |]. split; [reflexivity |].
  exact (store_changes_by_configuration_only server_overwriting decode_error
           [ClientGui.CallTool write_choice "{}";
            ClientGui.SavePermission "write_file" "allow";
            ClientGui.ApproveTool write_choice "{}"] client0 eq_refl).
Defined.

Lemma selection_names_the_tool_witness :
  In "write_file"%string ["read_file"; "write_file"]%string
  /\ ClientGui.parse_arguments "{}" = Some (JObject [])
  /\ PyStr.contains " (" "write_file" = false
  /\ In write_choice (ClientGui.tool_choices default_permissions ["read_file"; "write_file"]%string)
  /\ ClientGui.gui_call_tool server_ok decode_error write_choice "{}" false client0
     = bind (call_tool_with_permission server_ok "write_file" (JObject []) false)
         (fun res => ret (first_text res)) client0.
Proof.
  assert (Hin : In "write_file"%string ["read_file"; "write_file"]%string)
    by (right; left; reflexivity).
  split; [exact Hin |]. split; [reflexivity |]. split; [reflexivity |].
  pose proof (selection_names_the_tool server_ok decode_error default_permissions
                ["read_file"; "write_file"]%string "write_file" "{}" (JObject []) false
                client0 Hin eq_refl) as (Hchoice & Hcall & _).
  split; [exact Hchoice | exact (Hcall eq_refl)].
Defined.

Lemma call_button_inputs_witness :
  write_choice <> EmptyString
  /\ PyStr.is_empty (PyStr.strip "oops") = false
  /\ skip_ws "oops" = "oops"%string
  /\ ClientGui.starts_value "o" = false
  /\ ClientGui.gui_call_tool server_ok decode_error write_choice "oops" true client0
     = (Returned ("Invalid JSON in arguments: " +:+ decode_error "oops"), client0)
  /\ ClientGui.gui_call_tool server_ok decode_error write_choice "  " true client0
     = ClientGui.gui_call_tool server_ok decode_error write_choice "{}" true client0.
Proof.
  assert (Hsel : write_choice <> EmptyString) by discriminate.
  split; [exact Hsel |]. split; [reflexivity |]. split; [reflexivity |].
  split; [reflexivity |].
  split.
  - exact (proj2 (proj2 (call_button_inputs server_ok decode_error write_choice "oops" true
                           client0)) "o"%char "ops"%string Hsel eq_refl eq_refl eq_refl).
  - exact (proj1 (proj2 (call_button_inputs server_ok decode_error write_choice "  " true
                           client0)) eq_refl).
Defined.

Lemma call_then_approve_witness :
  write_choice <> EmptyString
  /\ ClientGui.parse_arguments (dumps false None args_a) = Some args_a
  /\ check_permission (permissions client0) "write_file" (or_empty args_a) = "ask"%string
  /\ tool_calls (ClientGui.run server_ok decode_error
                   [ClientGui.CallTool write_choice (dumps false None args_a)] client0)
     = []
  /\ trace (ClientGui.run server_ok decode_error
              [ClientGui.ApproveTool write_choice (dumps false None args_a)] client0)
     = [Audit (tool_record server_ok client0 "write_file" "ALLOWED" "Policy: ask");
        ToolCall "write_file" args_a].
Proof.
  assert (Hsel : write_choice <> EmptyString) by discriminate.
  split; [exact Hsel |]. split; [reflexivity |]. split; [reflexivity |].
  split; [reflexivity |].
  exact (proj2 (proj2 (call_then_approve server_ok decode_error write_choice
                         (dumps false None args_a) args_a client0 Hsel eq_refl eq_refl))).
Defined.

Lemma chat_window_drops_blank_messages_witness :
  blank "   " = true
  /\ HostUi.chat_wrapper (host_quiet server_ok) "   " [] host0 = (Returned [], host0)
  /\ PyStr.is_empty (PyStr.strip "hi") = false
  /\ HostUi.chat_wrapper (host_quiet server_ok) "hi" [] host0
     = (Returned [ {| HostUi.ui_role := "user"; HostUi.ui_content := Some "hi"%string |};
                   {| HostUi.ui_role := "assistant";
                      HostUi.ui_content := Some "Hello."%string |} ],
        state_after (chat (host_quiet server_ok) "hi") host0).
Proof.
  split; [reflexivity |].
  split; [exact (proj1 (chat_window_drops_blank_messages (host_quiet server_ok) "   " []
                          host0) eq_refl) |].
  split; [reflexivity |].
  exact (proj2 (chat_window_drops_blank_messages (host_quiet server_ok) "hi" [] host0)
           eq_refl (Some "Hello."%string)
           (state_after (chat (host_quiet server_ok) "hi") host0) eq_refl).
Defined.

Lemma clearing_keeps_the_pending_approval_witness :
  pending_approval host_pending = Some ("write_file"%string, args_a)
  /\ is_affirmative "yes" = true
  /\ check_permission (permissions (base host_pending)) "write_file" (or_empty args_a)
     <> "deny"%string
  /\ tool_calls (base (HostUi.run (host_quiet server_ok) [HostUi.Clear; HostUi.Say "yes"]
                         host_pending))
     = [("write_file"%string, args_a)].
Proof.
  assert (Hd : check_permission (permissions (base host_pending)) "write_file"
                 (or_empty args_a) <> "deny"%string) by discriminate.
  split; [reflexivity |]. split; [reflexivity |]. split; [exact Hd |].
  exact (proj2 (proj2 (proj2 (clearing_keeps_the_pending_approval (host_quiet server_ok)
                                host_pending "yes" "write_file" args_a eq_refl eq_refl Hd)))).
Defined.

Lemma advertised_tools_and_helpers_witness :
  In "mcp_list_prompts"%string synthetic_names
  /\ execute_tool (host_with server_ok) "mcp_list_prompts" (JObject [])
       {| base := {| permissions := [("mcp_list_prompts", "deny")]%string;
                     permissions_file := None; trace := [] |};
          conversation_history := []; pending_approval := None |}
     = (Returned "Available resources:"%string,
        {| base := {| permissions := [("mcp_list_prompts", "deny")]%string;
                      permissions_file := None; trace := [] |};
           conversation_history := []; pending_approval := None |}).
Proof.
  assert (Hin : In "mcp_list_prompts"%string synthetic_names)
    by (right; right; left; reflexivity).
  split; [exact Hin |].
  exact (proj2 (advertised_tools_and_helpers (host_with server_ok) default_permissions [])
           "mcp_list_prompts"%string (JObject []) _ Hin).
Defined.

Lemma helpers_check_their_argument_witness :
  truthy (default JNull (PyDict.get "uri" [("uri", JStr "")]%string)) = false
  /\ mcp_read_resource empty_catalogue (JObject [("uri", JStr "")]%string)
     = Returned "Error: URI is required"%string
  /\ truthy (default JNull (PyDict.get "name" [("uri", JStr "")]%string)) = false
  /\ mcp_get_prompt empty_catalogue (JObject [("uri", JStr "")]%string)
     = Returned "Error: Prompt name is required"%string.
Proof.
  pose proof (helpers_check_their_argument empty_catalogue [("uri", JStr "")]%string)
    as (Huri & Hname & _).
  split; [reflexivity |]. split; [exact (Huri eq_refl) |].
  split; [reflexivity | exact (Hname eq_refl)].
Defined.

Lemma helper_call_without_dictionary_raises_witness :
  pending_approval host0 = None
  /\ loads (tc_arguments helper_call) = Some (JArray [])
  /\ type_name (JArray []) <> "dict"%string
  /\ result (chat (with_catalogue empty_catalogue host_helper) "show the notes") host0
     = Raised "'list' object has no attribute 'get'".
Proof.
  assert (Hv : type_name (JArray []) <> "dict"%string) by discriminate.
  split; [reflexivity |]. split; [reflexivity |]. split; [exact Hv |].
  exact (proj1 (helper_call_without_dictionary_raises host_helper empty_catalogue
                  "show the notes" host0 (JArray []) helper_answer helper_call []
                  (JArray []) eq_refl eq_refl eq_refl eq_refl (or_introl eq_refl)
                  eq_refl Hv)).
Defined.

Lemma server_config_matches_client_witness :
  load_permissions (Some (Server.get_permissions_config None)) = Some default_permissions.
Proof.
  exact (proj2 (server_config_matches_client None) eq_refl).
Defined.

End further_runs.
